(** * eCFR scraper: ingestion pipeline

    A shallow embedding of [src/scraper.py] and [src/database.py]:
    the retrying fetcher, the change detector, the structural parser, the
    get-or-create persistence layer and the orchestrator.

    Python values are modelled as follows.
    - [str] is a list of Unicode code points ([Py.str]); [None] is [option].
    - SQLite tables are lists of rows in scan order; the connection keeps the
      last committed store next to the working store of the open transaction.
    - Exceptions are values of [PyExc]; a call that may raise returns a
      [Result].
    - The network, the file system and the clock are fields of [World].

    Scope of the model.
    - The connection is open.  The statements that [parse_title_xml]
      executes itself may fail with an [sqlite3.Error]: the method is
      modelled for any answers of the storage ([Scraper.parse_title_xml_on])
      and for a storage that carries out every statement
      ([Scraper.parse_title_xml]).  The statements executed under
      [_process_chapter], ..., [_process_section], which catch every
      exception, and the [SELECT] of [get_scraping_metadata] are taken as
      carried out.
    - A part number read from a document is subject to the limit of [int]
      on the number of digits and to the range of SQLite's 64-bit
      [INTEGER]; title numbers, which the caller chooses, row identities,
      file sizes and counts are taken to fit.
    - MD5, the XML parser and the texts of operating-system errors are
      parameters ([Env.Libraries]), and so are the Unicode tables consulted
      beyond ASCII ([Py.UnicodeDB]).
    - Logging and the progress bar are left out. *)

From Stdlib Require Import NArith ZArith Bool Lia Ascii.
From stdpp Require Import gmap strings list fin_maps pretty.

Local Open Scope Z_scope.

(** ** Python strings *)

Module Py.

Definition str := list N.

(** A literal of the source, as code points (ASCII literals only). *)
Definition lit (s : string) : str :=
  Ascii.N_of_ascii <$> String.list_ascii_of_string s.

(** [Py_UNICODE_ISSPACE]: the class behind [str.strip] and the regex [\s]. *)
Definition isspace (c : N) : bool :=
  ((9 <=? c) && (c <=? 13) || (28 <=? c) && (c <=? 32) || (c =? 133)
   || (c =? 160) || (c =? 5760) || (8192 <=? c) && (c <=? 8202)
   || (c =? 8232) || (c =? 8233) || (c =? 8239) || (c =? 8287)
   || (c =? 12288))%N.

(** The parts of the Unicode character database that the regexes and
    [int] / [str.isdigit] consult above U+007F. *)
Class UnicodeDB := {
  uni_decimal : N -> bool;
  uni_decimal_value : N -> Z;
  uni_isdigit : N -> bool;
  uni_caseless_eq : N -> N -> bool
}.

(** The database restricted to ASCII: nothing above U+007F is a digit or a
    case variant of an ASCII letter. *)
Definition ascii_db : UnicodeDB :=
  {| uni_decimal := fun _ => false;
     uni_decimal_value := fun _ => 0;
     uni_isdigit := fun _ => false;
     uni_caseless_eq := fun _ _ => false |}.

Definition is_ascii (c : N) : bool := (c <? 128)%N.
Definition ascii_digit (c : N) : bool := ((48 <=? c) && (c <=? 57))%N.

Section WithUnicode.
Context {U : UnicodeDB}.

(** Regex [\d]. *)
Definition isdecimal (c : N) : bool :=
  if is_ascii c then ascii_digit c else uni_decimal c.

(** One character of [str.isdigit]. *)
Definition isdigit_char (c : N) : bool :=
  if is_ascii c then ascii_digit c else uni_isdigit c.

Definition decimal_value (c : N) : Z :=
  if is_ascii c then Z.of_N c - 48 else uni_decimal_value c.

(** ASCII lower-casing of a pattern letter. *)
Definition ascii_lower (c : N) : N :=
  if ((65 <=? c) && (c <=? 90))%N then (c + 32)%N else c.

(** A pattern letter [p] against a text character [c] under
    [re.IGNORECASE]. *)
Definition caseless_eq (p c : N) : bool :=
  if is_ascii c then (ascii_lower p =? ascii_lower c)%N
  else uni_caseless_eq p c.

End WithUnicode.

Fixpoint lstrip (s : str) : str :=
  match s with
  | [] => []
  | c :: s' => if isspace c then lstrip s' else s
  end.

Definition rstrip (s : str) : str := rev (lstrip (rev s)).

(** [s.strip()] *)
Definition strip (s : str) : str := rstrip (lstrip s).

(** [s.startswith(p)] *)
Fixpoint startswith (p s : str) : bool :=
  match p, s with
  | [], _ => true
  | a :: p', b :: s' => (a =? b)%N && startswith p' s'
  | _ :: _, [] => false
  end.

(** [sep.join(parts)] *)
Fixpoint join (sep : str) (parts : list str) : str :=
  match parts with
  | [] => []
  | [p] => p
  | p :: rest => p ++ sep ++ join sep rest
  end.

(** [s.replace(old, new)] for a non-empty [old]: non-overlapping
    occurrences, left to right.  [skip] counts the characters of the
    occurrence just replaced that are still to be passed over. *)
Fixpoint replace_from (old new : str) (skip : nat) (s : str) : str :=
  match s with
  | [] => []
  | c :: s' =>
      match skip with
      | S k => replace_from old new k s'
      | O =>
          if startswith old s
          then new ++ replace_from old new (length old - 1) s'
          else c :: replace_from old new 0 s'
      end
  end.

Definition replace (old new s : str) : str := replace_from old new 0 s.

(** [re.sub(r'\s+', ' ', s)] *)
Fixpoint collapse_from (in_run : bool) (s : str) : str :=
  match s with
  | [] => []
  | c :: s' =>
      if isspace c
      then (if in_run then collapse_from true s'
            else 32%N :: collapse_from true s')
      else c :: collapse_from false s'
  end.

Definition collapse_whitespace (s : str) : str := collapse_from false s.

(** The longest prefix whose characters satisfy [p], and the rest. *)
Fixpoint span (p : N -> bool) (s : str) : str * str :=
  match s with
  | [] => ([], [])
  | c :: s' =>
      if p c then let '(a, b) := span p s' in (c :: a, b) else ([], s)
  end.

(** [re.search]: the match at the leftmost start position. *)
Fixpoint re_search {A} (match_at : str -> option A) (s : str) : option A :=
  match match_at s with
  | Some g => Some g
  | None =>
      match s with
      | [] => None
      | _ :: s' => re_search match_at s'
      end
  end.

(** [re.sub(pattern, '', s)] for a pattern that matches no empty string;
    [match_at] returns what follows the match. *)
Fixpoint re_delete_from (match_at : str -> option str) (skip : nat) (s : str)
  : str :=
  match s with
  | [] => []
  | c :: s' =>
      match skip with
      | S k => re_delete_from match_at k s'
      | O =>
          match match_at s with
          | Some rest =>
              re_delete_from match_at (length s - length rest - 1) s'
          | None => c :: re_delete_from match_at 0 s'
          end
      end
  end.

Definition re_delete (match_at : str -> option str) (s : str) : str :=
  re_delete_from match_at 0 s.

(** Truthiness of a [str]. *)
Definition nonempty (s : str) : bool :=
  match s with [] => false | _ => true end.

(** Truthiness of an [Optional[str]]. *)
Definition truthy (o : option str) : bool :=
  match o with Some s => nonempty s | None => false end.

(** [o or ""] *)
Definition or_empty (o : option str) : str :=
  match o with Some s => s | None => [] end.

Definition of_Z (z : Z) : str := lit (pretty z).

(** [sys.get_int_max_str_digits()], as CPython sets it: [int] refuses a
    decimal string with more digits. *)
Definition INT_MAX_STR_DIGITS : nat := 4300.

End Py.

(** ** Element trees ([xml.etree.ElementTree]) *)

Module ET.

#[warnings="-register-all"]
Inductive Element := Elem {
  tag : Py.str;
  attrib : gmap Py.str Py.str;
  text : option Py.str;
  children : list Element;
  tail : option Py.str
}.

(** [elem.iter()]: the element and its descendants, in document order. *)
Fixpoint iter (e : Element) : list Element :=
  match e with
  | Elem _ _ _ cs _ => e :: flat_map iter cs
  end.

(** The elements selected by the path prefix [.//]: every descendant, the
    context element excluded. *)
Definition descendants (e : Element) : list Element :=
  flat_map iter (children e).

(** [elem.get(key)] *)
Definition get (e : Element) (key : Py.str) : option Py.str :=
  attrib e !! key.

Definition has_tag (t : Py.str) (e : Element) : bool :=
  bool_decide (tag e = t).

(** The step [TAG[@key="value"]]. *)
Definition has_tag_attr (t key value : Py.str) (e : Element) : bool :=
  has_tag t e && bool_decide (get e key = Some value).

(** [elem.find('TAG')]: the first child with that tag. *)
Definition find_child (t : Py.str) (e : Element) : option Element :=
  head (List.filter (has_tag t) (children e)).

(** [elem.find('.//TAG')]: the first descendant with that tag. *)
Definition find_descendant (t : Py.str) (e : Element) : option Element :=
  head (List.filter (has_tag t) (descendants e)).

(** [elem.findall('.//TAG[@key="value"]')] *)
Definition findall_descendants (t key value : Py.str) (e : Element)
  : list Element :=
  List.filter (has_tag_attr t key value) (descendants e).

(** [elem.findall('./TAG[@key="value"]')] *)
Definition findall_children (t key value : Py.str) (e : Element)
  : list Element :=
  List.filter (has_tag_attr t key value) (children e).

(** [elem.findall('.//TAG')] *)
Definition findall_descendants_tag (t : Py.str) (e : Element)
  : list Element :=
  List.filter (has_tag t) (descendants e).

End ET.

(** ** The persistence layer ([src/database.py]) *)

Module Database.

(** Row identities ([INTEGER PRIMARY KEY], [cursor.lastrowid]). *)
Definition rowid := N.
Bind Scope N_scope with rowid.

(** Values of [datetime.now()]. *)
Definition timestamp := N.
Bind Scope N_scope with timestamp.

Record TitleRow := {
  title_id : rowid;
  title_number : Z;
  title_name : Py.str;
  last_updated : timestamp
}.

Record ChapterRow := {
  chapter_id : rowid;
  chapter_title_id : rowid;
  chapter_number : Py.str;
  chapter_name : Py.str
}.

Record SubchapterRow := {
  subchapter_id : rowid;
  subchapter_chapter_id : rowid;
  subchapter_letter : Py.str;
  subchapter_name : Py.str
}.

Record PartRow := {
  part_id : rowid;
  part_chapter_id : rowid;
  part_subchapter_id : option rowid;
  part_number : Z;
  part_name : Py.str;
  part_authority_citation : option Py.str;
  part_source_citation : option Py.str
}.

Record SectionRow := {
  section_id : rowid;
  section_part_id : rowid;
  section_number : Py.str;
  section_heading : Py.str;
  section_content : Py.str;
  section_authority_citation : option Py.str;
  section_source_citation : option Py.str;
  section_xml_node_id : option Py.str
}.

(** Modelled from the spec: the [scraping_status] column.  The schema file
    [database_schema.sql] is not part of the sources; the spec lists the
    four statuses of an Ingestion Record. *)
Inductive Status := pending | in_progress | completed | failed.

Record MetadataRow := {
  last_scraped : timestamp;
  file_size : option Z;
  file_hash : option Py.str;
  scraping_status : Status;
  error_message : option Py.str;
  records_processed : Z
}.

(** Modelled from the spec: the tables of [database_schema.sql], which is
    not part of the sources.  The entity tables carry the columns the
    statements of [database.py] name; [scraping_metadata] holds at most one
    row per title number ("an Ingestion Record exists at most once per
    Unit"), which is what makes [INSERT OR REPLACE] an upsert. *)
Record Store := {
  titles : list TitleRow;
  chapters : list ChapterRow;
  subchapters : list SubchapterRow;
  parts : list PartRow;
  sections : list SectionRow;
  scraping_metadata : gmap Z MetadataRow
}.

Definition empty_store : Store :=
  {| titles := []; chapters := []; subchapters := []; parts := [];
     sections := []; scraping_metadata := ∅ |}.

(** [cursor.lastrowid] after an insert: one more than the largest row
    identity of the table, 1 for an empty table. *)
Definition next_rowid (ids : list rowid) : rowid :=
  (1 + foldr N.max 0 ids)%N.

Definition title_matches (n : Z) (r : TitleRow) : bool :=
  bool_decide (title_number r = n).

Definition chapter_matches (t : rowid) (n : Py.str) (r : ChapterRow) : bool :=
  bool_decide (chapter_title_id r = t) && bool_decide (chapter_number r = n).

Definition subchapter_matches (c : rowid) (l : Py.str) (r : SubchapterRow)
  : bool :=
  bool_decide (subchapter_chapter_id r = c)
  && bool_decide (subchapter_letter r = l).

Definition part_matches (c : rowid) (n : Z) (r : PartRow) : bool :=
  bool_decide (part_chapter_id r = c) && bool_decide (part_number r = n).

Definition section_matches (p : rowid) (n : Py.str) (r : SectionRow) : bool :=
  bool_decide (section_part_id r = p) && bool_decide (section_number r = n).

(** [cursor.fetchone()] after a [SELECT ... WHERE]: the first matching row
    of the scan. *)
Definition fetchone {R} (matches : R -> bool) (table : list R) : option R :=
  head (List.filter matches table).

Definition get_or_create_title (now : timestamp) (number : Z) (name : Py.str)
    (s : Store) : rowid * Store :=
  match fetchone (title_matches number) (titles s) with
  | Some row => (title_id row, s)
  | None =>
      let i := next_rowid (title_id <$> titles s) in
      (i, {| titles := titles s ++ [ {| title_id := i;
                                        title_number := number;
                                        title_name := name;
                                        last_updated := now |} ];
             chapters := chapters s; subchapters := subchapters s;
             parts := parts s; sections := sections s;
             scraping_metadata := scraping_metadata s |})
  end.

Definition get_or_create_chapter (title : rowid) (number name : Py.str)
    (s : Store) : rowid * Store :=
  match fetchone (chapter_matches title number) (chapters s) with
  | Some row => (chapter_id row, s)
  | None =>
      let i := next_rowid (chapter_id <$> chapters s) in
      (i, {| titles := titles s;
             chapters := chapters s ++ [ {| chapter_id := i;
                                            chapter_title_id := title;
                                            chapter_number := number;
                                            chapter_name := name |} ];
             subchapters := subchapters s;
             parts := parts s; sections := sections s;
             scraping_metadata := scraping_metadata s |})
  end.

Definition get_or_create_subchapter (chapter : rowid) (letter name : Py.str)
    (s : Store) : rowid * Store :=
  match fetchone (subchapter_matches chapter letter) (subchapters s) with
  | Some row => (subchapter_id row, s)
  | None =>
      let i := next_rowid (subchapter_id <$> subchapters s) in
      (i, {| titles := titles s; chapters := chapters s;
             subchapters :=
               subchapters s ++ [ {| subchapter_id := i;
                                     subchapter_chapter_id := chapter;
                                     subchapter_letter := letter;
                                     subchapter_name := name |} ];
             parts := parts s; sections := sections s;
             scraping_metadata := scraping_metadata s |})
  end.

(** Is [n] an SQLite [INTEGER]?  Binding a Python [int] outside the signed
    64-bit range to a statement raises [OverflowError], and the statement
    is not run. *)
Definition sqlite_integer (n : Z) : bool :=
  (- 2 ^ 63 <=? n) && (n <? 2 ^ 63).

(** [get_or_create_part] for a part number that is an [sqlite_integer].
    For any other number the binding of the [SELECT] raises
    [OverflowError], which is no [sqlite3.Error] and leaves the method as
    it is; the one caller, [_process_part], decides this before the call
    (see [part_number_of] below). *)
Definition get_or_create_part (chapter : rowid) (subchapter : option rowid)
    (number : Z) (name : Py.str) (authority source : option Py.str)
    (s : Store) : rowid * Store :=
  match fetchone (part_matches chapter number) (parts s) with
  | Some row => (part_id row, s)
  | None =>
      let i := next_rowid (part_id <$> parts s) in
      (i, {| titles := titles s; chapters := chapters s;
             subchapters := subchapters s;
             parts := parts s ++ [ {| part_id := i;
                                      part_chapter_id := chapter;
                                      part_subchapter_id := subchapter;
                                      part_number := number;
                                      part_name := name;
                                      part_authority_citation := authority;
                                      part_source_citation := source |} ];
             sections := sections s;
             scraping_metadata := scraping_metadata s |})
  end.

(** The [SET] clause of the [UPDATE] in [insert_section]. *)
Definition set_section_fields (heading content : Py.str)
    (authority source node : option Py.str) (r : SectionRow) : SectionRow :=
  {| section_id := section_id r;
     section_part_id := section_part_id r;
     section_number := section_number r;
     section_heading := heading;
     section_content := content;
     section_authority_citation := authority;
     section_source_citation := source;
     section_xml_node_id := node |}.

(** [UPDATE sections SET ... WHERE id = ?] *)
Definition update_section_where_id (i : rowid) (f : SectionRow -> SectionRow)
    (table : list SectionRow) : list SectionRow :=
  (fun r => if bool_decide (section_id r = i) then f r else r) <$> table.

Definition with_sections (s : Store) (t : list SectionRow) : Store :=
  {| titles := titles s; chapters := chapters s;
     subchapters := subchapters s; parts := parts s;
     sections := t; scraping_metadata := scraping_metadata s |}.

Definition insert_section (part : rowid) (number heading content : Py.str)
    (authority source node : option Py.str) (s : Store) : rowid * Store :=
  match fetchone (section_matches part number) (sections s) with
  | Some row =>
      (section_id row,
       with_sections s
         (update_section_where_id (section_id row)
            (set_section_fields heading content authority source node)
            (sections s)))
  | None =>
      let i := next_rowid (section_id <$> sections s) in
      (i, with_sections s
            (sections s ++ [ {| section_id := i;
                                section_part_id := part;
                                section_number := number;
                                section_heading := heading;
                                section_content := content;
                                section_authority_citation := authority;
                                section_source_citation := source;
                                section_xml_node_id := node |} ]))
  end.

(** [INSERT OR REPLACE INTO scraping_metadata ...] *)
Definition update_scraping_metadata (now : timestamp) (title : Z)
    (status : Status) (size : option Z) (hash error : option Py.str)
    (records : Z) (s : Store) : Store :=
  {| titles := titles s; chapters := chapters s;
     subchapters := subchapters s; parts := parts s;
     sections := sections s;
     scraping_metadata :=
       <[ title := {| last_scraped := now; file_size := size;
                      file_hash := hash; scraping_status := status;
                      error_message := error;
                      records_processed := records |} ]>
       (scraping_metadata s) |}.

Definition get_scraping_metadata (title : Z) (s : Store)
  : option MetadataRow :=
  scraping_metadata s !! title.

(** The rows stored for one (part, section number) pair. *)
Definition rows_for (part : rowid) (number : Py.str) (s : Store)
  : list SectionRow :=
  List.filter (section_matches part number) (sections s).

(** An open [sqlite3.Connection]: what the last [commit()] made durable,
    and the store as the statements of the open transaction see it. *)
Record Connection := {
  committed : Store;
  working : Store
}.

(** [connection.commit()] *)
Definition commit (c : Connection) : Connection :=
  {| committed := working c; working := working c |}.

(** A statement executed on the connection. *)
Definition execute (f : Store -> Store) (c : Connection) : Connection :=
  {| committed := committed c; working := f (working c) |}.

End Database.

(** ** The structural parser ([src/scraper.py]) *)

Module Parser.
Import Database.

(** Parsing threads the working store of the open transaction through every
    persistence call. *)
Definition M (A : Type) : Type := Store -> A * Store.

Definition ret {A} (a : A) : M A := fun s => (a, s).

Definition bind {A B} (m : M A) (k : A -> M B) : M B :=
  fun s => let '(a, s') := m s in k a s'.

Declare Scope store_scope.
Delimit Scope store_scope with store.
Notation "'let*' x ':=' m 'in' k" := (bind m (fun x => k))
  (at level 10, x name, m at level 100, k at level 200) : store_scope.
Local Open Scope store_scope.

(** [for x in xs: count += body(x)], from the running [count]. *)
Fixpoint for_count {X} (body : X -> M Z) (xs : list X) (count : Z) : M Z :=
  match xs with
  | [] => ret count
  | x :: rest =>
      let* n := body x in
      for_count body rest (count + n)
  end.

Section WithUnicode.
Context {U : Py.UnicodeDB}.

Definition _clean_text (text : option Py.str) : Py.str :=
  match text with
  | None => []
  | Some [] => []
  | Some t =>
      let t := Py.collapse_whitespace t in
      let t := Py.replace (Py.lit "&amp;") (Py.lit "&") t in
      let t := Py.replace (Py.lit "&lt;") (Py.lit "<") t in
      let t := Py.replace (Py.lit "&gt;") (Py.lit ">") t in
      let t := Py.replace (Py.lit "&quot;") [34%N] t in
      let t := Py.replace (Py.lit "&apos;") (Py.lit "'") t in
      Py.strip t
  end.

(** [self._clean_text(e.text) if e.text else ""] *)
Definition head_text (e : ET.Element) : Py.str :=
  if Py.truthy (ET.text e) then _clean_text (ET.text e) else [].

Fixpoint _extract_element_text (e : ET.Element) : Py.str :=
  match e with
  | ET.Elem _ _ txt cs _ =>
      Py.strip
        (Py.join (Py.lit " ")
           (Py.or_empty txt
            :: flat_map
                 (fun c => [_extract_element_text c; Py.or_empty (ET.tail c)])
                 cs))
  end.

Definition _extract_section_content (section_elem : ET.Element) : Py.str :=
  let content_parts :=
    flat_map
      (fun para_elem =>
         let para_text := _extract_element_text para_elem in
         if Py.nonempty (Py.strip para_text) then [Py.strip para_text]
         else [])
      (ET.findall_descendants_tag (Py.lit "P") section_elem) in
  Py.join [10%N; 10%N] content_parts.

Definition _extract_authority (e : ET.Element) : option Py.str :=
  match ET.find_descendant (Py.lit "AUTH") e with
  | Some auth_elem => Some (_clean_text (Some (_extract_element_text auth_elem)))
  | None => None
  end.

Definition _extract_source (e : ET.Element) : option Py.str :=
  match ET.find_descendant (Py.lit "SOURCE") e with
  | Some source_elem =>
      Some (_clean_text (Some (_extract_element_text source_elem)))
  | None => None
  end.

(** The section mark, U+00A7. *)
Definition section_mark : N := 167%N.

(** Does [kw] match at the start of [s] under [re.IGNORECASE]?  Returns what
    follows. *)
Fixpoint match_keyword (kw s : Py.str) : option Py.str :=
  match kw, s with
  | [], _ => Some s
  | a :: kw', b :: s' =>
      if Py.caseless_eq a b then match_keyword kw' s' else None
  | _ :: _, [] => None
  end.

Definition in_class (letters : Py.str) (c : N) : bool :=
  existsb (fun p => Py.caseless_eq p c) letters.

(** [KEYWORD\s+(class+)] at the start of [s]: the group. *)
Definition match_label (kw : Py.str) (cls : N -> bool) (s : Py.str)
  : option Py.str :=
  match match_keyword kw s with
  | None => None
  | Some rest =>
      let '(ws, rest') := Py.span Py.isspace rest in
      if Py.nonempty ws
      then let '(g, _) := Py.span cls rest' in
           if Py.nonempty g then Some g else None
      else None
  end.

(** [re.search(r'CHAPTER\s+([IVXLCDM]+)', text, re.IGNORECASE)] *)
Definition search_chapter_number (text : Py.str) : option Py.str :=
  Py.re_search
    (match_label (Py.lit "CHAPTER") (in_class (Py.lit "IVXLCDM"))) text.

(** [SUBCHAPTER\s+([A-Z])] at the start of [s]: the group. *)
Definition match_subchapter (s : Py.str) : option Py.str :=
  match match_keyword (Py.lit "SUBCHAPTER") s with
  | None => None
  | Some rest =>
      let '(ws, rest') := Py.span Py.isspace rest in
      if Py.nonempty ws
      then match rest' with
           | c :: _ =>
               if in_class (Py.lit "ABCDEFGHIJKLMNOPQRSTUVWXYZ") c
               then Some [c] else None
           | [] => None
           end
      else None
  end.

(** [re.search(r'SUBCHAPTER\s+([A-Z])', text, re.IGNORECASE)] *)
Definition search_subchapter_letter (text : Py.str) : option Py.str :=
  Py.re_search match_subchapter text.

(** [re.search(r'PART\s+(\d+)', text, re.IGNORECASE)] *)
Definition search_part_number (text : Py.str) : option Py.str :=
  Py.re_search (match_label (Py.lit "PART") Py.isdecimal) text.

(** The class [[\d.]]. *)
Definition digit_or_dot (c : N) : bool := Py.isdecimal c || (c =? 46)%N.

(** [§\s*([\d.]+)] at the start of [s]: the group and what follows it. *)
Definition match_section_mark (s : Py.str) : option (Py.str * Py.str) :=
  match s with
  | c :: rest =>
      if (c =? section_mark)%N
      then let '(g, rest') := Py.span digit_or_dot (Py.lstrip rest) in
           if Py.nonempty g then Some (g, rest') else None
      else None
  | [] => None
  end.

(** [re.search(r'§\s*([\d.]+)', text)] *)
Definition search_section_number (text : Py.str) : option Py.str :=
  Py.re_search (fun s => fst <$> match_section_mark s) text.

(** [re.sub(r'§\s*[\d.]+\s*', '', text)] *)
Definition remove_section_numbers (text : Py.str) : Py.str :=
  Py.re_delete
    (fun s => (fun m => Py.lstrip (snd m)) <$> match_section_mark s) text.

(** [int(s)] for a string of digits: [None] stands for [ValueError],
    which [int] raises for a character that is no decimal digit, for the
    empty string, and for a string of more than [INT_MAX_STR_DIGITS]
    digits. *)
Definition int_of_digits (s : Py.str) : option Z :=
  if forallb Py.isdecimal s && Py.nonempty s
     && (length s <=? Py.INT_MAX_STR_DIGITS)%nat
  then Some (fold_left (fun v c => 10 * v + Py.decimal_value c) s 0)
  else None.

(** [s.isdigit()] *)
Definition isdigit (s : Py.str) : bool :=
  forallb Py.isdigit_char s && Py.nonempty s.

(** Truthiness of a row identity. *)
Definition truthy_id (i : rowid) : bool := negb (i =? 0)%N.

Definition _process_section (section_elem : ET.Element) (part_id : rowid)
  : M bool :=
  let section_number := Py.or_empty (ET.get section_elem (Py.lit "N")) in
  let section_number :=
    if Py.startswith [section_mark; 32%N] section_number
    then Py.strip (drop 2 section_number)
    else section_number in
  let section_number :=
    if Py.nonempty section_number then section_number
    else match ET.find_child (Py.lit "HEAD") section_elem with
         | Some head_elem =>
             match search_section_number (head_text head_elem) with
             | Some g => g
             | None => section_number
             end
         | None => section_number
         end in
  if negb (Py.nonempty section_number) then ret false
  else
    let section_heading :=
      match ET.find_child (Py.lit "HEAD") section_elem with
      | Some head_elem =>
          Py.strip (remove_section_numbers (head_text head_elem))
      | None => []
      end in
    let section_content := _extract_section_content section_elem in
    let authority := _extract_authority section_elem in
    let source := _extract_source section_elem in
    let xml_node_id := ET.get section_elem (Py.lit "NODE") in
    let* _ := insert_section part_id section_number section_heading
                section_content authority source xml_node_id in
    ret true.

(** The number that [_process_part] computes for a part element: that of
    the heading pattern, else that of the [N] attribute.  [None] stands for
    [return 0] and for [ValueError] raised by [int]. *)
Definition parsed_part_number (part_elem : ET.Element) (part_text : Py.str)
  : option Z :=
  match search_part_number part_text with
  | Some g => int_of_digits g
  | None =>
      match ET.get part_elem (Py.lit "N") with
      | Some part_number_str =>
          if isdigit part_number_str then int_of_digits part_number_str
          else None
      | None => None
      end
  end.

(** The part number under which [_process_part] stores a part.  [None] is
    every path of [_process_part] that returns 0 before touching the
    store: no heading pattern and no usable attribute, [ValueError] from
    [int], and [OverflowError] from the binding of a number that is no
    [sqlite_integer] in [get_or_create_part], caught by the
    [except Exception] of [_process_part]. *)
Definition part_number_of (part_elem : ET.Element) (part_text : Py.str)
  : option Z :=
  match parsed_part_number part_elem part_text with
  | Some part_number =>
      if sqlite_integer part_number then Some part_number else None
  | None => None
  end.

Definition _process_part (part_elem : ET.Element) (chapter_id : rowid)
    (subchapter_id : option rowid) : M Z :=
  match ET.find_child (Py.lit "HEAD") part_elem with
  | None => ret 0
  | Some part_hd =>
      let part_text := head_text part_hd in
      match part_number_of part_elem part_text with
      | None => ret 0
      | Some part_number =>
          let part_name := part_text in
          let authority := _extract_authority part_elem in
          let source := _extract_source part_elem in
          let* part_id := get_or_create_part chapter_id subchapter_id
                            part_number part_name authority source in
          for_count
            (fun section_elem =>
               let* ok := _process_section section_elem part_id in
               ret (if ok then 1 else 0))
            (ET.findall_descendants (Py.lit "DIV8") (Py.lit "TYPE")
               (Py.lit "SECTION") part_elem)
            0
      end
  end.

Definition _process_subchapter (subchapter_elem : ET.Element)
    (chapter_id : rowid) : M (option rowid) :=
  match ET.find_child (Py.lit "HEAD") subchapter_elem with
  | None => ret None
  | Some subchap_hd =>
      let subchapter_text := head_text subchap_hd in
      let subchapter_letter :=
        match search_subchapter_letter subchapter_text with
        | Some g => Some g
        | None => ET.get subchapter_elem (Py.lit "N")
        end in
      if Py.truthy subchapter_letter
      then let* i := get_or_create_subchapter chapter_id
                       (Py.or_empty subchapter_letter) subchapter_text in
           ret (Some i)
      else ret None
  end.

Definition _process_subchapter_content (subchapter_elem : ET.Element)
    (chapter_id subchapter_id : rowid) : M Z :=
  for_count
    (fun part_elem => _process_part part_elem chapter_id (Some subchapter_id))
    (ET.findall_descendants (Py.lit "DIV5") (Py.lit "TYPE") (Py.lit "PART")
       subchapter_elem)
    0.

(** [if i:] for an [Optional[int]]. *)
Definition truthy_opt_id (o : option rowid) : option rowid :=
  match o with
  | Some i => if truthy_id i then Some i else None
  | None => None
  end.

Definition _process_chapter_content (chapter_elem : ET.Element)
    (chapter_id : rowid) : M Z :=
  let* records_count :=
    for_count
      (fun subchapter_elem =>
         let* subchapter_id := _process_subchapter subchapter_elem chapter_id in
         match truthy_opt_id subchapter_id with
         | Some i => _process_subchapter_content subchapter_elem chapter_id i
         | None => ret 0
         end)
      (ET.findall_descendants (Py.lit "DIV4") (Py.lit "TYPE")
         (Py.lit "SUBCHAP") chapter_elem)
      0 in
  for_count
    (fun part_elem => _process_part part_elem chapter_id None)
    (ET.findall_children (Py.lit "DIV5") (Py.lit "TYPE") (Py.lit "PART")
       chapter_elem)
    records_count.

Definition _process_chapter (chapter_elem : ET.Element) (title_id : rowid)
  : M (option rowid) :=
  match ET.find_child (Py.lit "HEAD") chapter_elem with
  | None => ret None
  | Some chapter_hd =>
      let chapter_text := head_text chapter_hd in
      let chapter_number :=
        match search_chapter_number chapter_text with
        | Some g => Some g
        | None => ET.get chapter_elem (Py.lit "N")
        end in
      if Py.truthy chapter_number
      then let* i := get_or_create_chapter title_id
                       (Py.or_empty chapter_number) chapter_text in
           ret (Some i)
      else ret None
  end.

(** The title name of a document: the text of the first [HEAD], else of the
    first [TITLE], else a name made from the title number. *)
Definition title_name_of (root : ET.Element) (title_number : Z) : Py.str :=
  let title_element :=
    match ET.find_descendant (Py.lit "HEAD") root with
    | Some e => Some e
    | None => ET.find_descendant (Py.lit "TITLE") root
    end in
  match title_element with
  | Some e => _clean_text (ET.text e)
  | None => Py.lit "Title " ++ Py.of_Z title_number
  end.

(** The body of [parse_title_xml] between [tree.getroot()] and the final
    metadata update: the title row, then every chapter in document order. *)
Definition parse_root (now : timestamp) (root : ET.Element) (title_number : Z)
  : M Z :=
  let* title_id := get_or_create_title now title_number
                     (title_name_of root title_number) in
  for_count
    (fun chapter_elem =>
       let* chapter_id := _process_chapter chapter_elem title_id in
       match truthy_opt_id chapter_id with
       | Some i => _process_chapter_content chapter_elem i
       | None => ret 0
       end)
    (ET.findall_descendants (Py.lit "DIV3") (Py.lit "TYPE") (Py.lit "CHAPTER")
       root)
    0.

End WithUnicode.
End Parser.

(** ** Settings ([config/settings.py]) *)

Module Settings.

Definition GOVINFO_BASE_URL : Py.str :=
  Py.lit "https://www.govinfo.gov/bulkdata/ECFR".

Definition CFR_TITLES : list Z := seqZ 1 50.

Definition MAX_RETRIES : nat := 3.

(** Durations are in milliseconds: [RETRY_DELAY = 1] second and
    [DELAY_BETWEEN_REQUESTS = 0.5] seconds. *)
Definition RETRY_DELAY : N := 1000.
Definition DELAY_BETWEEN_REQUESTS : N := 500.

Definition VALIDATE_XML : bool := true.
Definition SKIP_EXISTING : bool := true.

(** [DATA_DIR / "xml_files"], relative to the project root. *)
Definition download_dir : Py.str := Py.lit "data/xml_files".

End Settings.

(** ** Exceptions, the file system and the network *)

Module Env.

Inductive ExcClass :=
  | ConnectionError | Timeout | HTTPError | RequestException
  | ScrapingError | OSError | ParseError | ValueError
  | DatabaseError | SqliteError.

(** An exception object: its class and [str(e)]. *)
Record PyExc := { exc_class : ExcClass; exc_str : Py.str }.

(** [isinstance(e, requests.exceptions.RequestException)] *)
Definition is_request_exception (e : PyExc) : bool :=
  match exc_class e with
  | ConnectionError | Timeout | HTTPError | RequestException => true
  | _ => false
  end.

Inductive Result (A : Type) :=
  | Return (a : A)
  | Raise (e : PyExc).
Arguments Return {A} a.
Arguments Raise {A} e.

Definition Bytes := list Byte.byte.

(** A file: its content, and whether the process may open it for
    reading. *)
Record File := { content : Bytes; readable : bool }.

(** What [session.get] hands back when it does not raise. *)
Record Response := {
  status_code : Z;
  (** [str] of the [HTTPError] that [raise_for_status] raises for this
      response when the status is 4xx or 5xx *)
  status_error : Py.str;
  (** [int(response.headers.get('content-length', 0))] *)
  content_length : Result Z;
  (** the chunks [iter_content] yields, and the exception that ends the
      stream early, if any *)
  chunks : list Bytes;
  stream_error : option PyExc
}.

(** The libraries the scraper calls into for hashing and XML parsing, and
    the text of operating-system errors. *)
Class Libraries := {
  md5_hexdigest : Bytes -> Py.str;
  (** [ET.parse] on the bytes of a readable file: the root, or the text of
      the [ParseError] *)
  xml_parse : Bytes -> Py.str + ET.Element;
  oserror_str : Py.str -> Py.str
}.

Record World := {
  db : Database.Connection;
  fs : gmap Py.str File;
  (** the clock, in milliseconds *)
  clock : N;
  (** the remote side: the outcome of the [n]-th request of the run, for
      its URL *)
  http : nat -> Py.str -> Result Response;
  (** the URLs requested so far, latest first *)
  requested : list Py.str
}.

Definition with_db (w : World) (c : Database.Connection) : World :=
  {| db := c; fs := fs w; clock := clock w; http := http w;
     requested := requested w |}.

Definition with_fs (w : World) (f : gmap Py.str File) : World :=
  {| db := db w; fs := f; clock := clock w; http := http w;
     requested := requested w |}.

(** [time.sleep(d)] *)
Definition sleep (d : N) (w : World) : World :=
  {| db := db w; fs := fs w; clock := (clock w + d)%N; http := http w;
     requested := requested w |}.

(** [session.get(url, ...)] *)
Definition session_get (url : Py.str) (w : World) : Result Response * World :=
  (http w (length (requested w)) url,
   {| db := db w; fs := fs w; clock := clock w; http := http w;
      requested := url :: requested w |}).

(** [response.raise_for_status()]: the exception raised, if any. *)
Definition raise_for_status (r : Response) : option PyExc :=
  if (400 <=? status_code r) && (status_code r <? 600)
  then Some {| exc_class := HTTPError; exc_str := status_error r |}
  else None.

(** [open(path, 'wb')] followed by writes: the file is created or
    truncated; an existing file keeps its permissions. *)
Definition write_file (path : Py.str) (data : Bytes) (w : World) : World :=
  with_fs w
    (<[ path := {| content := data;
                   readable := match fs w !! path with
                               | Some f => readable f
                               | None => true
                               end |} ]> (fs w)).

(** Opening a file for reading: its bytes, or why it cannot be read. *)
Definition read_file {L : Libraries} (path : Py.str) (w : World)
  : Result Bytes :=
  match fs w !! path with
  | Some f =>
      if readable f then Return (content f)
      else Raise {| exc_class := OSError; exc_str := oserror_str path |}
  | None => Raise {| exc_class := OSError; exc_str := oserror_str path |}
  end.

(** [ET.parse(path).getroot()] *)
Definition et_parse {L : Libraries} (path : Py.str) (w : World)
  : Result ET.Element :=
  match read_file path w with
  | Return data =>
      match xml_parse data with
      | inr root => Return root
      | inl msg => Raise {| exc_class := ParseError; exc_str := msg |}
      end
  | Raise e => Raise e
  end.

(** [path.stat().st_size] *)
Definition stat_size {L : Libraries} (path : Py.str) (w : World) : Result Z :=
  match fs w !! path with
  | Some f => Return (Z.of_nat (length (content f)))
  | None => Raise {| exc_class := OSError; exc_str := oserror_str path |}
  end.

(** [calculate_file_hash] of [database.py]: the hex digest of the bytes,
    and the empty string when reading raises. *)
Definition calculate_file_hash {L : Libraries} (path : Py.str) (w : World)
  : Py.str :=
  match read_file path w with
  | Return data => md5_hexdigest data
  | Raise _ => []
  end.

End Env.

(** ** Fetcher, change detector and orchestrator ([src/scraper.py]) *)

Module Scraper.
Import Database Env Settings.

Section WithLibraries.
Context {U : Py.UnicodeDB} {L : Libraries}.

(** [str(last_exception)] *)
Definition str_of_last (last_exception : option PyExc) : Py.str :=
  match last_exception with
  | Some e => exc_str e
  | None => Py.lit "None"
  end.

Definition fetch_failure (max_retries : nat) (url : Py.str)
    (last_exception : option PyExc) : PyExc :=
  {| exc_class := ScrapingError;
     exc_str := Py.lit "Failed to fetch " ++ url ++ Py.lit " after "
                ++ Py.of_Z (Z.of_nat max_retries) ++ Py.lit " attempts: "
                ++ str_of_last last_exception |}.

(** The loop of [_make_request] with [remaining] attempts left, [attempt]
    being the current value of the loop variable. *)
Fixpoint request_loop (max_retries : nat) (url : Py.str)
    (remaining attempt : nat) (last_exception : option PyExc) (w : World)
  : Result Response * World :=
  match remaining with
  | O => (Raise (fetch_failure max_retries url last_exception), w)
  | S k =>
      let '(r, w1) := session_get url w in
      let failed (e : PyExc) :=
        request_loop max_retries url k (S attempt) (Some e)
          (if (attempt <? max_retries - 1)%nat
           then sleep (RETRY_DELAY * N.of_nat (attempt + 1)) w1
           else w1) in
      match r with
      | Return response =>
          match raise_for_status response with
          | Some e => failed e
          | None => (Return response, sleep DELAY_BETWEEN_REQUESTS w1)
          end
      | Raise e => if is_request_exception e then failed e else (Raise e, w1)
      end
  end.

Definition _make_request (url : Py.str) (w : World)
  : Result Response * World :=
  request_loop MAX_RETRIES url MAX_RETRIES 0 None w.

Definition xml_url (title_number : Z) : Py.str :=
  GOVINFO_BASE_URL ++ Py.lit "/title-" ++ Py.of_Z title_number
  ++ Py.lit "/ECFR-title" ++ Py.of_Z title_number ++ Py.lit ".xml".

Definition xml_path (title_number : Z) : Py.str :=
  download_dir ++ Py.lit "/ECFR-title" ++ Py.of_Z title_number
  ++ Py.lit ".xml".

Definition _validate_xml (xml_file : Py.str) (w : World) : Result bool :=
  match et_parse xml_file w with
  | Return _ => Return true
  | Raise e =>
      match exc_class e with
      | ParseError => Return false
      | _ => Raise e
      end
  end.

Definition download_failure (title_number : Z) (e : PyExc) : PyExc :=
  {| exc_class := ScrapingError;
     exc_str := Py.lit "Download failed for title " ++ Py.of_Z title_number
                ++ Py.lit ": " ++ exc_str e |}.

Definition invalid_xml (title_number : Z) : PyExc :=
  {| exc_class := ScrapingError;
     exc_str := Py.lit "Invalid XML file for title "
                ++ Py.of_Z title_number |}.

(** The [try] block of [download_title_xml]. *)
Definition download_body (title_number : Z) (force_download : bool)
    (w : World) : Result Py.str * World :=
  let xml_file := xml_path title_number in
  if bool_decide (is_Some (fs w !! xml_file)) && negb force_download
     && SKIP_EXISTING
  then (Return xml_file, w)
  else
    match _make_request (xml_url title_number) w with
    | (Raise e, w1) => (Raise e, w1)
    | (Return response, w1) =>
        match content_length response with
        | Raise e => (Raise e, w1)
        | Return _ =>
            let data :=
              concat (List.filter (fun chunk => negb (bool_decide (chunk = [])))
                        (chunks response)) in
            let w2 := write_file xml_file data w1 in
            match stream_error response with
            | Some e => (Raise e, w2)
            | None =>
                if VALIDATE_XML
                then match _validate_xml xml_file w2 with
                     | Raise e => (Raise e, w2)
                     | Return false => (Raise (invalid_xml title_number), w2)
                     | Return true => (Return xml_file, w2)
                     end
                else (Return xml_file, w2)
            end
        end
    end.

Definition download_title_xml (title_number : Z) (force_download : bool)
    (w : World) : Result (option Py.str) * World :=
  match download_body title_number force_download w with
  | (Return xml_file, w') => (Return (Some xml_file), w')
  | (Raise e, w') => (Raise (download_failure title_number e), w')
  end.

Definition parsing_failure (e : PyExc) : PyExc :=
  {| exc_class := ScrapingError;
     exc_str := Py.lit "XML parsing failed: " ++ exc_str e |}.

(** *** Storage faults

    A statement on the connection may fail with an [sqlite3.Error]: the
    database is locked, the disk is full.  A statement that fails changes
    nothing and leaves the transaction open; the code never rolls back.
    [Answers] lists what the engine answers to the statements that
    [parse_title_xml] executes itself, in the order in which it executes
    them: the metadata updates, the statements of [get_or_create_title]
    and [commit()].  [None] is a statement carried out, [Some msg] one
    that fails with [sqlite3.Error(msg)]; beyond the end of the list every
    statement is carried out.  These are the statements whose failure
    leaves [parse_title_xml] as an exception.  The statements under
    [_process_chapter], ..., [_process_section] are inside the
    [try ... except Exception] of these methods, which answer [None], 0
    or [False] instead of raising; they are taken as carried out. *)
Definition Answers := list (option Py.str).

Definition next_answer (answers : Answers) : option Py.str * Answers :=
  match answers with
  | [] => (None, [])
  | a :: rest => (a, rest)
  end.

(** [DatabaseError(f"Metadata update failed: {e}")] *)
Definition metadata_failure (msg : Py.str) : PyExc :=
  {| exc_class := DatabaseError;
     exc_str := Py.lit "Metadata update failed: " ++ msg |}.

(** [DatabaseError(f"Title operation failed: {e}")] *)
Definition title_failure (msg : Py.str) : PyExc :=
  {| exc_class := DatabaseError;
     exc_str := Py.lit "Title operation failed: " ++ msg |}.

(** The [sqlite3.Error] that [connection.commit()] raises. *)
Definition commit_failure (msg : Py.str) : PyExc :=
  {| exc_class := SqliteError; exc_str := msg |}.

(** The world after an [INSERT OR REPLACE INTO scraping_metadata] that was
    carried out, stamped with the clock. *)
Definition recorded (title_number : Z) (status : Status)
    (size : option Z) (hash error : option Py.str) (records : Z) (w : World)
  : World :=
  with_db w
    (execute
       (update_scraping_metadata (clock w) title_number status size hash
          error records)
       (db w)).

(** [self.database.update_scraping_metadata(...)]: the exception raised,
    if the statement fails, the answers left, and the world. *)
Definition record_metadata (answers : Answers) (title_number : Z)
    (status : Status) (size : option Z) (hash error : option Py.str)
    (records : Z) (w : World) : option PyExc * Answers * World :=
  match next_answer answers with
  | (Some msg, rest) => (Some (metadata_failure msg), rest, w)
  | (None, rest) =>
      (None, rest, recorded title_number status size hash error records w)
  end.

(** The statements of [get_or_create_title] on store [s]: the [SELECT]
    and, when it finds no row, the [INSERT].  The exception raised, if one
    of them fails, and the answers left. *)
Definition title_statements (answers : Answers) (title_number : Z)
    (s : Store) : option PyExc * Answers :=
  match next_answer answers with
  | (Some msg, rest) => (Some (title_failure msg), rest)
  | (None, rest) =>
      match fetchone (title_matches title_number) (titles s) with
      | Some _ => (None, rest)
      | None =>
          match next_answer rest with
          | (Some msg, rest') => (Some (title_failure msg), rest')
          | (None, rest') => (None, rest')
          end
      end
  end.

(** The [try] block of [parse_title_xml]. *)
Definition parse_body (answers : Answers) (xml_file : Py.str)
    (title_number : Z) (w : World) : Result Z * Answers * World :=
  match stat_size xml_file w with
  | Raise e => (Raise e, answers, w)
  | Return size =>
      let hash := calculate_file_hash xml_file w in
      match record_metadata answers title_number in_progress (Some size)
              (Some hash) None 0 w with
      | (Some e, answers1, w1) => (Raise e, answers1, w1)
      | (None, answers1, w1) =>
          match et_parse xml_file w1 with
          | Raise e => (Raise e, answers1, w1)
          | Return root =>
              match title_statements answers1 title_number
                      (working (db w1)) with
              | (Some e, answers2) => (Raise e, answers2, w1)
              | (None, answers2) =>
                  let '(records_processed, store) :=
                    Parser.parse_root (clock w1) root title_number
                      (working (db w1)) in
                  let w2 :=
                    with_db w1
                      {| committed := committed (db w1);
                         working := store |} in
                  match record_metadata answers2 title_number completed
                          (Some size) (Some hash) None records_processed
                          w2 with
                  | (Some e, answers3, w3) => (Raise e, answers3, w3)
                  | (None, answers3, w3) =>
                      match next_answer answers3 with
                      | (Some msg, answers4) =>
                          (Raise (commit_failure msg), answers4, w3)
                      | (None, answers4) =>
                          (Return records_processed, answers4,
                           with_db w3 (commit (db w3)))
                      end
                  end
              end
          end
      end
  end.

(** [parse_title_xml] on a storage that gives [answers].  When the update
    of the [except] block fails in its turn, its [DatabaseError] is what
    leaves the method. *)
Definition parse_title_xml_on (answers : Answers) (xml_file : Py.str)
    (title_number : Z) (w : World) : Result Z * World :=
  match parse_body answers xml_file title_number w with
  | (Return records_processed, _, w') => (Return records_processed, w')
  | (Raise e, answers', w') =>
      match record_metadata answers' title_number failed None None
              (Some (exc_str e)) 0 w' with
      | (Some e', _, w'') => (Raise e', w'')
      | (None, _, w'') => (Raise (parsing_failure e), w'')
      end
  end.

(** [parse_title_xml] on a storage that carries out every statement. *)
Definition parse_title_xml (xml_file : Py.str) (title_number : Z) (w : World)
  : Result Z * World :=
  parse_title_xml_on [] xml_file title_number w.

(** One turn of the loop of [scrape_all_titles]. *)
Definition scrape_title (force_download : bool) (title_number : Z)
    (acc : gmap Z Z * World) : gmap Z Z * World :=
  let '(results, w) := acc in
  match download_title_xml title_number force_download w with
  | (Raise _, w1) => (<[ title_number := 0 ]> results, w1)
  | (Return None, w1) => (<[ title_number := 0 ]> results, w1)
  | (Return (Some xml_file), w1) =>
      match parse_title_xml xml_file title_number w1 with
      | (Raise _, w2) => (<[ title_number := 0 ]> results, w2)
      | (Return records_count, w2) =>
          (<[ title_number := records_count ]> results, w2)
      end
  end.

(** [title_numbers or CFR_TITLES] *)
Definition titles_to_process (title_numbers : option (list Z)) : list Z :=
  match title_numbers with
  | Some (t :: ts) => t :: ts
  | _ => CFR_TITLES
  end.

Definition scrape_all_titles (title_numbers : option (list Z))
    (force_download : bool) (w : World) : gmap Z Z * World :=
  fold_left (fun acc t => scrape_title force_download t acc)
    (titles_to_process title_numbers) (∅, w).

(** [check_for_updates], with the method [self.download_title_xml] it
    calls as a parameter. *)
Definition check_for_updates_with
    (download : Z -> bool -> World -> Result (option Py.str) * World)
    (title_number : Z) (w : World) : bool * World :=
  match get_scraping_metadata title_number (working (db w)) with
  | None => (true, w)
  | Some metadata =>
      match download title_number true w with
      | (Raise _, w1) => (true, w1)
      | (Return None, w1) => (false, w1)
      | (Return (Some xml_file), w1) =>
          let current_hash := calculate_file_hash xml_file w1 in
          (negb (bool_decide (Some current_hash = file_hash metadata)), w1)
      end
  end.

Definition check_for_updates (title_number : Z) (w : World) : bool * World :=
  check_for_updates_with download_title_xml title_number w.

Definition incremental_update (w : World) : gmap Z Z * World :=
  let '(updated_titles, w1) :=
    fold_left
      (fun acc t =>
         let '(updated, w0) := acc in
         let '(changed, w') := check_for_updates t w0 in
         (if changed then updated ++ [t] else updated, w'))
      CFR_TITLES ([], w) in
  match updated_titles with
  | [] => (∅, w1)
  | _ => scrape_all_titles (Some updated_titles) true w1
  end.

End WithLibraries.
End Scraper.

(** ** Notions used in the statements *)

Module Notions.
Import Database Env Settings Scraper Parser.

(** The exception a request outcome makes [_make_request] catch: a
    [RequestException] raised by [session.get], or the [HTTPError] of a
    4xx/5xx response. *)
Definition transport_failure (o : Result Response) : option PyExc :=
  match o with
  | Raise e => if is_request_exception e then Some e else None
  | Return r => raise_for_status r
  end.

(** The outcome of the [i]-th request made from world [w] on. *)
Definition outcome (w : World) (url : Py.str) (i : nat) : Result Response :=
  http w (length (requested w) + i)%nat url.

(** C3 as stated, for a title with an Ingestion Record: whenever the
    forced request brings back a response, the answer is true exactly when
    the fingerprint of its bytes differs from the stored one. *)
Definition answers_by_fingerprint {U : Py.UnicodeDB} {L : Libraries}
    (title : Z) (w : World) : Prop :=
  forall (metadata : MetadataRow) (response : Response) (w0 : World),
    get_scraping_metadata title (working (db w)) = Some metadata ->
    _make_request (xml_url title) w = (Return response, w0) ->
    stream_error response = None ->
    fst (check_for_updates title w)
    = negb (bool_decide (Some (md5_hexdigest (concat (chunks response)))
                         = file_hash metadata)).

(** The loop of [scrape_all_titles] over [ts], from the results and the
    world reached so far. *)
Definition scrape_from {U : Py.UnicodeDB} {L : Libraries}
    (force_download : bool) (ts : list Z) (acc : gmap Z Z * World)
  : gmap Z Z * World :=
  fold_left (fun acc t => scrape_title force_download t acc) ts acc.

(** Does the download or the parse of a title raise, from world [w]? *)
Definition unit_raises {U : Py.UnicodeDB} {L : Libraries}
    (force_download : bool) (title_number : Z) (w : World) : bool :=
  match download_title_xml title_number force_download w with
  | (Raise _, _) => true
  | (Return None, _) => false
  | (Return (Some xml_file), w1) =>
      match parse_title_xml xml_file title_number w1 with
      | (Raise _, _) => true
      | (Return _, _) => false
      end
  end.

(** The entry a title gets, and the world it leaves, when it is processed
    from world [w]: the count its parse returns, or 0 when its download or
    its parse raises. *)
Definition unit_outcome {U : Py.UnicodeDB} {L : Libraries}
    (force_download : bool) (title_number : Z) (w : World) : Z * World :=
  match download_title_xml title_number force_download w with
  | (Raise _, w1) => (0, w1)
  | (Return None, w1) => (0, w1)
  | (Return (Some xml_file), w1) =>
      match parse_title_xml xml_file title_number w1 with
      | (Raise _, w2) => (0, w2)
      | (Return records_count, w2) => (records_count, w2)
      end
  end.

(** The world after the titles [ts] have been downloaded and parsed one
    after the other, each from the world the one before it left. *)
Fixpoint world_after {U : Py.UnicodeDB} {L : Libraries}
    (force_download : bool) (ts : list Z) (w : World) : World :=
  match ts with
  | [] => w
  | t :: rest =>
      world_after force_download rest (snd (unit_outcome force_download t w))
  end.

(** What the [try] block of a parse of [title], begun at time [now] on the
    open transaction [s], has made of it when an exception leaves the
    block: nothing, when the exception came before the first statement was
    carried out; the record in progress; that and the rows of the whole
    document, when the update to completed failed; these and the completed
    record, when [commit()] failed.  Nothing is rolled back. *)
Inductive left_open {U : Py.UnicodeDB} (title : Z) (now : timestamp)
    (s : Store) : Store -> Prop :=
  | left_untouched : left_open title now s s
  | left_started size hash :
      left_open title now s
        (update_scraping_metadata now title in_progress size hash None 0 s)
  | left_parsed size hash root :
      left_open title now s
        (snd (Parser.parse_root now root title
                (update_scraping_metadata now title in_progress size hash
                   None 0 s)))
  | left_completed size hash root :
      let parsed :=
        Parser.parse_root now root title
          (update_scraping_metadata now title in_progress size hash None 0
             s) in
      left_open title now s
        (update_scraping_metadata now title completed size hash None
           (fst parsed) (snd parsed)).


(** The columns of a section row that [insert_section] never rewrites. *)
Definition section_key (r : SectionRow) : rowid * rowid * Py.str :=
  (section_id r, section_part_id r, section_number r).

(** [b] holds every row of [a], at the same place in each table; section
    rows may differ in the columns an update rewrites. *)
Record extends (a b : Store) : Prop := {
  extends_titles : titles a `prefix_of` titles b;
  extends_chapters : chapters a `prefix_of` chapters b;
  extends_subchapters : subchapters a `prefix_of` subchapters b;
  extends_parts : parts a `prefix_of` parts b;
  extends_sections :
    (section_key <$> sections a) `prefix_of` (section_key <$> sections b)
}.

(** [b'] has the rows of [b], up to the rewritten columns of sections. *)
Record same_shape (b b' : Store) : Prop := {
  shape_titles : titles b' = titles b;
  shape_chapters : chapters b' = chapters b;
  shape_subchapters : subchapters b' = subchapters b;
  shape_parts : parts b' = parts b;
  shape_sections : section_key <$> sections b' = section_key <$> sections b
}.

(** Section rows of [x] whose identity is outside [W] are the same in
    [x']. *)
Definition frame (W : gset rowid) (x x' : Store) : Prop :=
  forall j r, sections x !! j = Some r -> section_id r ∉ W ->
              sections x' !! j = Some r.

(** Section rows that [x'] has beyond those of [x] have their identity in
    [W]. *)
Definition fresh (W : gset rowid) (x x' : Store) : Prop :=
  forall j r, sections x' !! j = Some r ->
              (length (sections x) <= j)%nat -> section_id r ∈ W.

(** Section rows of [a'] with identity in [W] are the same in [b']. *)
Definition agree (W : gset rowid) (a' b' : Store) : Prop :=
  forall j r, sections a' !! j = Some r -> section_id r ∈ W ->
              sections b' !! j = Some r.

(** [m'] replays [m]: started from any store that already holds what [m]
    produced, [m'] returns what [m] returned, adds no row, and rewrites
    section rows to what [m] left in them. *)
Definition replays {A} (m m' : M A) : Prop :=
  (forall a, extends a (snd (m a)))
  /\ forall a b,
       extends (snd (m a)) b ->
       exists W : gset rowid,
         fst (m' b) = fst (m a)
         /\ same_shape b (snd (m' b))
         /\ frame W a (snd (m a)) /\ fresh W a (snd (m a))
         /\ frame W b (snd (m' b))
         /\ agree W (snd (m a)) (snd (m' b)).

(** The first character of [s], if any, is no whitespace. *)
Definition starts_solid (s : Py.str) : bool :=
  match s with
  | d :: _ => negb (Py.isspace d)
  | [] => true
  end.

(** Every whitespace character of [s] is a space, and what follows it is
    no whitespace: whitespace occurs in runs of one space only. *)
Fixpoint single_spaced (s : Py.str) : bool :=
  match s with
  | [] => true
  | c :: s' =>
      (negb (Py.isspace c) || (c =? 32)%N && starts_solid s')
      && single_spaced s'
  end.

(** The five entity tables of a store. *)
Definition entity_tables (s : Store) :=
  (titles s, chapters s, subchapters s, parts s, sections s).

End Notions.

(** ** Sample documents, stores and servers *)

Module Examples.
Import Database Env Settings Scraper.

Definition node (tag : string) (attrs : list (string * Py.str))
    (text : option Py.str) (children : list ET.Element)
    (tail : option Py.str) : ET.Element :=
  ET.Elem (Py.lit tag)
    (list_to_map ((fun kv => (Py.lit (fst kv), snd kv)) <$> attrs))
    text children tail.

(** [§ n] *)
Definition sec (n : string) : Py.str :=
  [Parser.section_mark; 32%N] ++ Py.lit n.

(** [KEYWORD—NAME], with an em dash. *)
Definition dashed (keyword name : string) : Py.str :=
  Py.lit keyword ++ [8212%N] ++ Py.lit name.

Definition div (level kind : string) (n : Py.str) (heading : Py.str)
    (children : list ET.Element) : ET.Element :=
  node level [("N"%string, n); ("TYPE"%string, Py.lit kind)] None
    (node "HEAD" [] (Some heading) [] None :: children) None.

Definition paragraph (t : string) : ET.Element :=
  node "P" [] (Some (Py.lit t)) [] None.

(** The scenario of the spec: chapters I and II; subchapter A of chapter I
    holds part 1 with section 1.1; chapter II holds part 50, with section
    50.1, directly. *)
Definition two_chapters : ET.Element :=
  node "ECFRBRWS" [] None
    [ div "DIV3" "CHAPTER" (Py.lit "I") (dashed "CHAPTER I" "COMMITTEE")
        [ div "DIV4" "SUBCHAP" (Py.lit "A") (dashed "SUBCHAPTER A" "GENERAL")
            [ div "DIV5" "PART" (Py.lit "1") (dashed "PART 1" "DEFINITIONS")
                [ div "DIV8" "SECTION" (sec "1.1")
                    (sec "1.1" ++ Py.lit " Definitions.")
                    [ paragraph "As used in this chapter." ] ] ] ];
      div "DIV3" "CHAPTER" (Py.lit "II") (dashed "CHAPTER II" "OFFICE")
        [ div "DIV5" "PART" (Py.lit "50") (dashed "PART 50" "SPECIAL")
            [ div "DIV8" "SECTION" (sec "50.1")
                (sec "50.1" ++ Py.lit " Special requirements.")
                [ paragraph "This section contains requirements." ] ] ] ]
    None.

(** The paragraph of [test_extract_section_content_complex]:
    [<P>First paragraph with <I>italics</I> and <E T="03">emphasis</E>.</P>] *)
Definition mixed_paragraph (tag : string) : ET.Element :=
  node tag [] (Some (Py.lit "First paragraph with "))
    [ node "I" [] (Some (Py.lit "italics")) [] (Some (Py.lit " and "));
      node "E" [("T"%string, Py.lit "03")] (Some (Py.lit "emphasis")) []
        (Some (Py.lit ".")) ]
    None.

Definition complex_section : ET.Element :=
  node "DIV8" [("TYPE"%string, Py.lit "SECTION")] None
    [ node "HEAD" [] (Some (sec "1.1" ++ Py.lit " Test Section")) [] None;
      mixed_paragraph "P" ]
    None.

(** A section whose heading cites another section:
    [<HEAD>§ 1.5 Relation to § 1.4 of this part.</HEAD>] *)
Definition citing_section : ET.Element :=
  div "DIV8" "SECTION" (sec "1.5")
    (sec "1.5" ++ Py.lit " Relation to " ++ sec "1.4"
     ++ Py.lit " of this part.")
    [ paragraph "See the other section." ].

(** A part met first under subchapter 7. *)
Definition part_under_subchapter : PartRow :=
  {| part_id := 1; part_chapter_id := 4; part_subchapter_id := Some 7%N;
     part_number := 12; part_name := Py.lit "PART 12";
     part_authority_citation := Some (Py.lit "44 U.S.C. 1506");
     part_source_citation := None |}.

Definition store_with_part : Store :=
  {| titles := []; chapters := []; subchapters := [];
     parts := [part_under_subchapter]; sections := [];
     scraping_metadata := ∅ |}.

(** A server that times out on every request, and one that answers the
    second request. *)
Definition timed_out : PyExc :=
  {| exc_class := Timeout; exc_str := Py.lit "Read timed out." |}.

Definition ok_response : Response :=
  {| status_code := 200; status_error := [];
     content_length := Return 0; chunks := []; stream_error := None |}.

Definition empty_connection : Connection :=
  {| committed := empty_store; working := empty_store |}.

Definition world_of (h : nat -> Py.str -> Result Response) : World :=
  {| db := empty_connection; fs := ∅; clock := 0; http := h;
     requested := [] |}.

Definition always_timeout : World := world_of (fun _ _ => Raise timed_out).

Definition second_answers : World :=
  world_of (fun n _ => match n with
                       | 1%nat => Return ok_response
                       | _ => Raise timed_out
                       end).

(** Stand-ins for the libraries, for evaluating the model: the digest is
    the list of byte values, and a document is well-formed when it starts
    with [<], in which case it parses to [two_chapters]. *)
Definition example_libraries : Libraries :=
  {| md5_hexdigest := fun data => Byte.to_N <$> data;
     xml_parse := fun data =>
       match data with
       | [] => inl (Py.lit "no element found")
       | Byte.x3c :: _ => inr two_chapters
       | _ => inl (Py.lit "syntax error")
       end;
     oserror_str := fun path => Py.lit "No such file or directory: " ++ path |}.

Definition document : Bytes := [Byte.x3c; Byte.x61; Byte.x2f; Byte.x3e].

Definition document_response : Response :=
  {| status_code := 200; status_error := [];
     content_length := Return 4; chunks := [document];
     stream_error := None |}.

Definition metadata_of (hash : option Py.str) : MetadataRow :=
  {| last_scraped := 0; file_size := Some 4; file_hash := hash;
     scraping_status := completed; error_message := None;
     records_processed := 2 |}.

(** Title 1 was ingested with the fingerprint of [document]; the server
    still serves [document]. *)
Definition unchanged_world : World :=
  {| db := execute
             (update_scraping_metadata 0 1 completed (Some 4)
                (Some (Byte.to_N <$> document)) None 2)
             empty_connection;
     fs := ∅; clock := 0;
     http := fun _ _ => Return document_response;
     requested := [] |}.

(** Bytes that are no XML document: [oops]. *)
Definition garbage : Bytes := [Byte.x6f; Byte.x6f; Byte.x70; Byte.x73].

Definition garbage_response : Response :=
  {| status_code := 200; status_error := [];
     content_length := Return 4; chunks := [garbage];
     stream_error := None |}.

(** The record of title 1 holds the fingerprint of [garbage], and
    [garbage] is what the server serves. *)
Definition garbage_world : World :=
  {| db := execute
             (update_scraping_metadata 0 1 completed (Some 4)
                (Some (Byte.to_N <$> garbage)) None 2)
             empty_connection;
     fs := ∅; clock := 0;
     http := fun _ _ => Return garbage_response;
     requested := [] |}.

(** The download method of the tests: it hands back a path at which there
    is no file. *)
Definition patched_download (title : Z) (force : bool) (w : World)
  : Result (option Py.str) * World :=
  (Return (Some (Py.lit "test.xml")), w).

(** The server times out for every title but title 2. *)
Definition mixed_world : World :=
  world_of (fun _ url =>
              if bool_decide (url = xml_url 2) then Return document_response
              else Raise timed_out).

(** A world whose download directory holds an empty, hence ill-formed,
    file for title 9, next to a committed record for title 3. *)
Definition malformed_world : World :=
  {| db := commit (execute
                     (update_scraping_metadata 0 3 completed (Some 4)
                        (Some (Py.lit "abc")) None 7)
                     empty_connection);
     fs := {[ xml_path 9 := {| content := []; readable := true |} ]};
     clock := 10;
     http := fun _ _ => Raise timed_out;
     requested := [] |}.

(** The download directory holds [document] for title 1; nothing has been
    ingested yet. *)
Definition stored_world : World :=
  {| db := empty_connection;
     fs := {[ xml_path 1 := {| content := document; readable := true |} ]};
     clock := 5;
     http := fun _ _ => Raise timed_out;
     requested := [] |}.

(** The download directory holds [document] for title 1, and [document]
    is what the server serves. *)
Definition served_world : World :=
  {| db := empty_connection;
     fs := {[ xml_path 1 := {| content := document; readable := true |} ]};
     clock := 5;
     http := fun _ _ => Return document_response;
     requested := [] |}.

(** [served_world] after the parse of title 1, and after the forced
    download that follows. *)
Definition served_parsed : World :=
  snd (@parse_title_xml Py.ascii_db example_libraries (xml_path 1) 1
         served_world).

Definition served_fetched : World :=
  snd (@download_title_xml example_libraries 1 true served_parsed).


(** A storage that carries out the two metadata updates and the two
    statements of [get_or_create_title], and fails [commit()]. *)
Definition commit_fails : Answers :=
  [None; None; None; None; Some (Py.lit "disk I/O error")].

(** [malformed_world] after the parse of title 9. *)
Definition malformed_parsed : World :=
  snd (@parse_title_xml Py.ascii_db example_libraries (xml_path 9) 9
         malformed_world).

(** A server that times out once and then makes [session.get] raise an
    exception that is no [RequestException]. *)
Definition value_error : PyExc :=
  {| exc_class := ValueError; exc_str := Py.lit "embedded null byte" |}.

Definition broken_after_timeout : World :=
  world_of (fun n _ => match n with
                       | 0%nat => Raise timed_out
                       | _ => Raise value_error
                       end).

(** The number of rows of each entity table. *)
Definition row_counts (s : Store) : list nat :=
  [length (titles s); length (chapters s); length (subchapters s);
   length (parts s); length (sections s)].

End Examples.

(** ** Notions for the further properties *)

Module Laws.
Import Database Env Settings Scraper Parser.

(** The time [request_loop] sleeps between [failures] failed attempts that
    start at loop index [attempt]: nothing after the last attempt of the
    run. *)
Fixpoint backoff (max_retries attempt failures : nat) : N :=
  match failures with
  | O => 0
  | S k =>
      ((if (attempt <? max_retries - 1)%nat
        then RETRY_DELAY * N.of_nat (attempt + 1) else 0)
       + backoff max_retries (S attempt) k)%N
  end.

(** The world after [count] requests for [url] and [slept] milliseconds of
    sleep. *)
Definition after_requests (w : World) (url : Py.str) (count : nat)
    (slept : N) : World :=
  {| db := db w; fs := fs w; clock := (clock w + slept)%N; http := http w;
     requested := replicate count url ++ requested w |}.

(** May the process read [path] once it has written to it?  A new file
    is readable; an existing one keeps its permissions. *)
Definition may_read (w : World) (path : Py.str) : bool :=
  match fs w !! path with
  | Some f => readable f
  | None => true
  end.

(** A Hoare triple for a parsing computation. *)
Definition triple {A} (P : Store -> Prop) (m : M A)
    (Q : A -> Store -> Prop) : Prop :=
  forall s, P s -> Q (fst (m s)) (snd (m s)).

(** [m] keeps the invariant [I]. *)
Definition keeps {A} (I : Store -> Prop) (m : M A) : Prop :=
  triple I m (fun _ => I).

Definition chapter_key (r : ChapterRow) : rowid * Py.str :=
  (chapter_title_id r, chapter_number r).

Definition subchapter_key (r : SubchapterRow) : rowid * Py.str :=
  (subchapter_chapter_id r, subchapter_letter r).

Definition part_key (r : PartRow) : rowid * Z :=
  (part_chapter_id r, part_number r).

Definition section_pair (r : SectionRow) : rowid * Py.str :=
  (section_part_id r, section_number r).

(** Natural keys are unique within their parent: no two titles share a
    number, no two chapters of a title share a label, and so on down to
    the sections of a part. *)
Record unique_keys (s : Store) : Prop := {
  unique_title_numbers : NoDup (title_number <$> titles s);
  unique_chapter_keys : NoDup (chapter_key <$> chapters s);
  unique_subchapter_keys : NoDup (subchapter_key <$> subchapters s);
  unique_part_keys : NoDup (part_key <$> parts s);
  unique_section_pairs : NoDup (section_pair <$> sections s)
}.

(** Row identities are unique within each table. *)
Record unique_ids (s : Store) : Prop := {
  unique_title_ids : NoDup (title_id <$> titles s);
  unique_chapter_ids : NoDup (chapter_id <$> chapters s);
  unique_subchapter_ids : NoDup (subchapter_id <$> subchapters s);
  unique_part_ids : NoDup (part_id <$> parts s);
  unique_section_ids : NoDup (section_id <$> sections s)
}.

Definition has_title (s : Store) (i : rowid) : Prop :=
  exists r, r ∈ titles s /\ title_id r = i.

Definition has_chapter (s : Store) (i : rowid) : Prop :=
  exists r, r ∈ chapters s /\ chapter_id r = i.

(** Subchapter [i] exists and belongs to chapter [c]. *)
Definition has_subchapter_of (s : Store) (c i : rowid) : Prop :=
  exists r, r ∈ subchapters s /\ subchapter_id r = i
            /\ subchapter_chapter_id r = c.

Definition has_part (s : Store) (i : rowid) : Prop :=
  exists r, r ∈ parts s /\ part_id r = i.

(** Every reference to a parent finds its row: a chapter its title, a
    subchapter its chapter, a part its chapter and, when it names a
    subchapter, a subchapter of that same chapter, and a section its
    part. *)
Record referential (s : Store) : Prop := {
  chapters_have_titles :
    forall r, r ∈ chapters s -> has_title s (chapter_title_id r);
  subchapters_have_chapters :
    forall r, r ∈ subchapters s -> has_chapter s (subchapter_chapter_id r);
  parts_have_chapters :
    forall r, r ∈ parts s -> has_chapter s (part_chapter_id r);
  parts_have_subchapters :
    forall r i, r ∈ parts s -> part_subchapter_id r = Some i ->
                has_subchapter_of s (part_chapter_id r) i;
  sections_have_parts :
    forall r, r ∈ sections s -> has_part s (section_part_id r)
}.

(** The subchapter a part is filed under, if any, is a subchapter of the
    part's chapter. *)
Definition subchapter_ok (s : Store) (c : rowid) (sub : option rowid) : Prop :=
  match sub with
  | Some i => has_subchapter_of s c i
  | None => True
  end.

(** A fact about a store that holds of every store extending it. *)
Definition stable (F : Store -> Prop) : Prop :=
  forall a b, Notions.extends a b -> F a -> F b.

(** [m] only extends the store it runs on. *)
Definition grows {A} (m : M A) : Prop :=
  forall s, Notions.extends s (snd (m s)).

(** A store whose natural keys and row identities are unique and whose
    references are all met. *)
Record well_formed (s : Store) : Prop := {
  wf_keys : unique_keys s;
  wf_ids : unique_ids s;
  wf_references : referential s
}.

(** [I] holds of what is committed and of what the open transaction
    sees. *)
Definition on_connection (I : Store -> Prop) (c : Connection) : Prop :=
  I (committed c) /\ I (working c).

(** [I] does not depend on the Ingestion Records. *)
Definition ignores_metadata (I : Store -> Prop) : Prop :=
  forall now title status size hash error records s,
    I s ->
    I (update_scraping_metadata now title status size hash error records s).

(** The count [m] returns is not negative and bounds the number of
    section rows [m] adds. *)
Definition counted (m : M Z) : Prop :=
  forall s,
    0 <= fst (m s)
    /\ (length (sections (snd (m s)))
        <= length (sections s) + Z.to_nat (fst (m s)))%nat.

(** [m] adds no section row. *)
Definition adds_no_section {A} (m : M A) : Prop :=
  forall s, length (sections (snd (m s))) = length (sections s).

(** A text in normal form: its whitespace is single spaces, and it
    neither starts nor ends with one. *)
Definition normalised (s : Py.str) : Prop :=
  Notions.single_spaced s = true /\ Py.strip s = s.

End Laws.

(** * Properties *)

(** ** The persistence layer *)

Module DatabaseFacts.
Import Database Examples.

Lemma fetchone_Some {R} (matches : R -> bool) (table : list R) (r : R) :
  fetchone matches table = Some r -> r ∈ table /\ matches r = true.
Proof.
  unfold fetchone. intros H.
  assert (In r (List.filter matches table)) as Hin.
  { destruct (List.filter matches table) as [|x l]; simplify_eq/=. by left. }
  apply filter_In in Hin as [Hin Hm]. split; [by apply list_elem_of_In | done].
Qed.

Lemma fetchone_None {R} (matches : R -> bool) (table : list R) :
  fetchone matches table = None <-> List.filter matches table = [].
Proof.
  unfold fetchone. destruct (List.filter matches table); simpl; split; congruence.
Qed.

Lemma fetchone_exists {R} (matches : R -> bool) (table : list R) (r : R) :
  r ∈ table -> matches r = true -> is_Some (fetchone matches table).
Proof.
  intros Hin Hm. destruct (fetchone matches table) eqn:E; [eauto |].
  apply fetchone_None in E.
  assert (In r (List.filter matches table)) as Hf.
  { apply filter_In. split; [by apply list_elem_of_In | done]. }
  rewrite E in Hf. destruct Hf.
Qed.

(** A table that grows at its end answers an earlier successful lookup the
    same way. *)
Lemma fetchone_app {R} (matches : R -> bool) (table more : list R) (r : R) :
  fetchone matches table = Some r ->
  fetchone matches (table ++ more) = Some r.
Proof.
  unfold fetchone. rewrite List.filter_app.
  destruct (List.filter matches table); simpl; congruence.
Qed.

Lemma fetchone_app_new {R} (matches : R -> bool) (table more : list R) (r : R) :
  fetchone matches table = None -> matches r = true ->
  fetchone matches (table ++ r :: more) = Some r.
Proof.
  intros Hn Hm. apply fetchone_None in Hn.
  unfold fetchone. rewrite List.filter_app, Hn. simpl. by rewrite Hm.
Qed.

Lemma next_rowid_fresh (ids : list rowid) (i : rowid) :
  i ∈ ids -> (i < next_rowid ids)%N.
Proof.
  unfold next_rowid. induction 1 as [i ids | i j ids _ IH]; simpl; lia.
Qed.

Lemma next_rowid_positive (ids : list rowid) : (0 < next_rowid ids)%N.
Proof. unfold next_rowid. lia. Qed.

Lemma section_matches_set part number h c a src node r :
  section_matches part number (set_section_fields h c a src node r)
  = section_matches part number r.
Proof. reflexivity. Qed.

Lemma filter_update_section part number i h c a src node table :
  List.filter (section_matches part number)
    (update_section_where_id i (set_section_fields h c a src node) table)
  = update_section_where_id i (set_section_fields h c a src node)
      (List.filter (section_matches part number) table).
Proof.
  unfold update_section_where_id.
  induction table as [|r table IH]; [done |].
  rewrite fmap_cons. cbn [List.filter].
  destruct (bool_decide (section_id r = i)) eqn:Ei.
  - rewrite section_matches_set.
    destruct (section_matches part number r);
      rewrite ?fmap_cons, ?Ei, IH; done.
  - destruct (section_matches part number r);
      rewrite ?fmap_cons, ?Ei, IH; done.
Qed.

(** What one [insert_section] does to the rows of its own pair. *)
Lemma rows_for_insert_section part number h c a src node s :
  rows_for part number (snd (insert_section part number h c a src node s))
  = match rows_for part number s with
    | [] => [ {| section_id := next_rowid (section_id <$> sections s);
                 section_part_id := part; section_number := number;
                 section_heading := h; section_content := c;
                 section_authority_citation := a;
                 section_source_citation := src;
                 section_xml_node_id := node |} ]
    | row :: rest =>
        update_section_where_id (section_id row)
          (set_section_fields h c a src node) (row :: rest)
    end.
Proof.
  unfold insert_section, rows_for, fetchone.
  destruct (List.filter (section_matches part number) (sections s))
    as [|row rest] eqn:E; simpl.
  - rewrite List.filter_app, E. simpl.
    unfold section_matches. simpl. by rewrite !bool_decide_eq_true_2.
  - by rewrite filter_update_section, E.
Qed.

(** C9: [get_or_create_part] looks a part up by chapter identity and part
    number only.  Whenever the store holds a row for that pair, the call
    returns the identity of the first such row and leaves the store as it
    was, whatever subchapter, name and citations the call supplies: the
    stored subchapter reference, name, authority citation and source
    citation stay those of the first encounter. *)
Theorem get_or_create_part_keeps_first_encounter
    (s : Store) (chapter : rowid) (number : Z) (row : PartRow) :
  row ∈ parts s -> part_chapter_id row = chapter -> part_number row = number ->
  exists first : PartRow,
    fetchone (part_matches chapter number) (parts s) = Some first
    /\ first ∈ parts s
    /\ part_chapter_id first = chapter /\ part_number first = number
    /\ forall subchapter name authority source,
         get_or_create_part chapter subchapter number name authority source s
         = (part_id first, s).
Proof.
  intros Hin Hc Hn.
  destruct (fetchone_exists (part_matches chapter number) (parts s) row)
    as [first Hf]; [done | |].
  { unfold part_matches. by rewrite !bool_decide_eq_true_2. }
  exists first. split; [done |].
  destruct (fetchone_Some _ _ _ Hf) as [Hfin Hm].
  unfold part_matches in Hm. apply andb_true_iff in Hm as [H1 H2].
  apply bool_decide_eq_true in H1. apply bool_decide_eq_true in H2.
  repeat split; try done.
  intros. unfold get_or_create_part. by rewrite Hf.
Qed.

(** After a first call for a chapter and part number, a second call for
    the same pair returns the same identity and changes nothing, whatever
    else it supplies. *)
Lemma get_or_create_part_second_call
    s chapter number sub1 name1 auth1 src1 sub2 name2 auth2 src2 :
  let first := get_or_create_part chapter sub1 number name1 auth1 src1 s in
  get_or_create_part chapter sub2 number name2 auth2 src2 (snd first)
  = (fst first, snd first).
Proof.
  unfold get_or_create_part.
  destruct (fetchone (part_matches chapter number) (parts s)) as [row|] eqn:E;
    cbn [fst snd parts].
  - by rewrite E.
  - erewrite fetchone_app_new; [reflexivity | exact E |].
    unfold part_matches. cbn [part_chapter_id part_number].
    by rewrite !bool_decide_eq_true_2.
Qed.

Lemma get_or_create_part_keeps_first_encounter_witness :
  exists first : PartRow,
    fetchone (part_matches 4 12) (parts store_with_part) = Some first
    /\ first ∈ parts store_with_part
    /\ part_chapter_id first = 4%N /\ part_number first = 12
    /\ forall subchapter name authority source,
         get_or_create_part 4 subchapter 12 name authority source
           store_with_part
         = (part_id first, store_with_part).
Proof.
  apply (get_or_create_part_keeps_first_encounter store_with_part 4 12
           part_under_subchapter).
  - apply list_elem_of_here.
  - reflexivity.
  - reflexivity.
Defined.

(** C5: inserting two sections with the same section number under one part,
    into a store that holds at most one row for that pair, leaves exactly
    one row for the pair; it is the row both inserts return, and its
    heading, content, authority citation, source citation and node
    identifier are those of the second insert. *)
Theorem insert_section_twice_one_row
    (s : Store) (part : rowid) (number : Py.str)
    (h1 c1 : Py.str) (a1 src1 node1 : option Py.str)
    (h2 c2 : Py.str) (a2 src2 node2 : option Py.str) :
  (length (rows_for part number s) <= 1)%nat ->
  let first := insert_section part number h1 c1 a1 src1 node1 s in
  let second := insert_section part number h2 c2 a2 src2 node2 (snd first) in
  exists row : SectionRow,
    rows_for part number (snd second) = [row]
    /\ section_id row = fst first /\ section_id row = fst second
    /\ section_part_id row = part /\ section_number row = number
    /\ section_heading row = h2 /\ section_content row = c2
    /\ section_authority_citation row = a2
    /\ section_source_citation row = src2
    /\ section_xml_node_id row = node2.
Proof.
  intros Hlen first second.
  assert (exists r1, rows_for part number (snd first) = [r1]
                     /\ section_id r1 = fst first
                     /\ section_part_id r1 = part
                     /\ section_number r1 = number) as (r1 & Hr1 & Hid1 & Hp1 & Hn1).
  { subst first. rewrite rows_for_insert_section.
    unfold insert_section, fetchone. unfold rows_for in *.
    destruct (List.filter (section_matches part number) (sections s))
      as [|r rest] eqn:E; simpl.
    - eexists. split; [reflexivity |]. done.
    - destruct rest; [| simpl in Hlen; lia].
      assert (In r (List.filter (section_matches part number) (sections s)))
        as Hin by (rewrite E; by left).
      apply filter_In in Hin as [_ Hm].
      unfold section_matches in Hm. apply andb_true_iff in Hm as [H1 H2].
      apply bool_decide_eq_true in H1. apply bool_decide_eq_true in H2.
      unfold update_section_where_id. simpl.
      rewrite bool_decide_eq_true_2 by done.
      eexists. split; [reflexivity |]. done. }
  exists (set_section_fields h2 c2 a2 src2 node2 r1).
  subst second. rewrite rows_for_insert_section, Hr1.
  unfold update_section_where_id. simpl.
  rewrite bool_decide_eq_true_2 by done.
  split; [done |]. split; [done |]. split.
  - unfold insert_section, fetchone. unfold rows_for in Hr1.
    rewrite Hr1. simpl. done.
  - done.
Qed.

Lemma insert_section_twice_one_row_witness :
  let first :=
    insert_section 3 (Py.lit "1.1") (Py.lit "Definitions.") (Py.lit "old")
      None None (Some (Py.lit "1:1.0.1")) empty_store in
  let second :=
    insert_section 3 (Py.lit "1.1") (Py.lit "Scope.") (Py.lit "new")
      (Some (Py.lit "44 U.S.C. 1506")) None None (snd first) in
  exists row : SectionRow,
    rows_for 3 (Py.lit "1.1") (snd second) = [row]
    /\ section_id row = fst first /\ section_id row = fst second
    /\ section_part_id row = 3%N /\ section_number row = Py.lit "1.1"
    /\ section_heading row = Py.lit "Scope."
    /\ section_content row = Py.lit "new"
    /\ section_authority_citation row = Some (Py.lit "44 U.S.C. 1506")
    /\ section_source_citation row = None
    /\ section_xml_node_id row = None.
Proof.
  apply (insert_section_twice_one_row empty_store 3 (Py.lit "1.1")).
  simpl. lia.
Defined.

End DatabaseFacts.

(** ** The fetcher *)

Module FetcherFacts.
Import Database Env Settings Scraper Notions Examples.

Section WithLibraries.
Context {U : Py.UnicodeDB} {L : Libraries}.

Lemma session_get_spec url w :
  session_get url w
  = (outcome w url 0,
     {| db := db w; fs := fs w; clock := clock w; http := http w;
        requested := url :: requested w |}).
Proof. unfold session_get, outcome. by rewrite Nat.add_0_r. Qed.

Lemma outcome_after_get url w d i :
  outcome
    (sleep d {| db := db w; fs := fs w; clock := clock w; http := http w;
                requested := url :: requested w |}) url i
  = outcome w url (S i).
Proof. unfold outcome. simpl. f_equal. lia. Qed.

Lemma outcome_after_get' url w i :
  outcome {| db := db w; fs := fs w; clock := clock w; http := http w;
             requested := url :: requested w |} url i
  = outcome w url (S i).
Proof. unfold outcome. simpl. f_equal. lia. Qed.




End WithLibraries.


End FetcherFacts.

(** ** The change detector *)

Module ChangeDetectorFacts.
Import Database Env Settings Scraper.

Section WithLibraries.
Context {U : Py.UnicodeDB} {L : Libraries}.

Lemma concat_nonempty_chunks (cs : list Bytes) :
  concat (List.filter (fun chunk => negb (bool_decide (chunk = []))) cs)
  = concat cs.
Proof.
  induction cs as [|c cs IH]; [done |]. simpl.
  destruct c as [|b c]; simpl; [exact IH | by rewrite IH].
Qed.

Lemma read_file_write_file path data w :
  fs (write_file path data w) !! path
  = Some {| content := data;
            readable := match fs w !! path with
                        | Some f => readable f
                        | None => true
                        end |}.
Proof. unfold write_file. simpl. apply lookup_insert_eq. Qed.

(** A forced download that returns has made a request that succeeded,
    stored the bytes of its body under the returned path, and found them
    readable and well-formed. *)
Lemma forced_download_returns title w xml_file w1 :
  download_title_xml title true w = (Return (Some xml_file), w1) ->
  exists (response : Response) (w0 : World),
    _make_request (xml_url title) w = (Return response, w0)
    /\ xml_file = xml_path title
    /\ w1 = write_file xml_file (concat (chunks response)) w0
    /\ read_file xml_file w1 = Return (concat (chunks response)).
Proof.
  unfold download_title_xml, download_body.
  rewrite andb_false_r. cbn [andb].
  destruct (_make_request (xml_url title) w) as [[response|e] w0];
    [| intros; simplify_eq].
  destruct (content_length response); [| intros; simplify_eq].
  rewrite concat_nonempty_chunks.
  destruct (stream_error response); [intros; simplify_eq |].
  unfold VALIDATE_XML.
  set (w2 := write_file _ _ w0).
  unfold _validate_xml, et_parse.
  destruct (read_file (xml_path title) w2) as [data|e] eqn:Hread.
  - assert (data = concat (chunks response)) as ->.
    { unfold read_file in Hread. subst w2.
      rewrite read_file_write_file in Hread. simpl in Hread.
      destruct (match fs w0 !! xml_path title with
                | Some f => readable f
                | None => true
                end); simplify_eq. done. }
    destruct (xml_parse (concat (chunks response))); simpl;
      intros; simplify_eq.
    exists response, w0. done.
  - unfold read_file in Hread. subst w2.
    rewrite read_file_write_file in Hread. simpl in Hread.
    destruct (match fs w0 !! xml_path title with
              | Some f => readable f
              | None => true
              end); simplify_eq.
    simpl. intros; simplify_eq.
Qed.

(** C3, amended: [check_for_updates] answers true for a title without an
    Ingestion Record.  For a title with one it forces a download; when the
    download raises, the answer is true; when it returns, the document has
    been fetched afresh, and the answer is true exactly when the MD5
    fingerprint of the fetched bytes differs from the stored one: false
    when the two are equal. *)
Theorem check_for_updates_compares_fingerprints (title : Z) (w : World) :
  (get_scraping_metadata title (working (db w)) = None ->
   check_for_updates title w = (true, w))
  /\ (forall (metadata : MetadataRow) (e : PyExc) (w1 : World),
        get_scraping_metadata title (working (db w)) = Some metadata ->
        download_title_xml title true w = (Raise e, w1) ->
        check_for_updates title w = (true, w1))
  /\ (forall (metadata : MetadataRow) (xml_file : Py.str) (w1 : World),
        get_scraping_metadata title (working (db w)) = Some metadata ->
        download_title_xml title true w = (Return (Some xml_file), w1) ->
        exists (response : Response) (w0 : World),
          _make_request (xml_url title) w = (Return response, w0)
          /\ read_file xml_file w1 = Return (concat (chunks response))
          /\ check_for_updates title w
             = (negb (bool_decide
                        (Some (md5_hexdigest (concat (chunks response)))
                         = file_hash metadata)), w1)).
Proof.
  split; [| split].
  - intros Hnone. unfold check_for_updates, check_for_updates_with.
    by rewrite Hnone.
  - intros metadata e w1 Hm Hd.
    unfold check_for_updates, check_for_updates_with. by rewrite Hm, Hd.
  - intros metadata xml_file w1 Hm Hd.
    destruct (forced_download_returns _ _ _ _ Hd)
      as (response & w0 & Hreq & _ & _ & Hread).
    exists response, w0. split; [exact Hreq |]. split; [exact Hread |].
    unfold check_for_updates, check_for_updates_with.
    rewrite Hm, Hd. unfold calculate_file_hash. by rewrite Hread.
Qed.

(** C10: [calculate_file_hash] of a file that is missing or cannot be read
    is the empty string, not an exception; in [check_for_updates], once the
    download method has returned such a path, the empty fingerprint is what
    is compared with the stored one, and the answer is a boolean. *)
Theorem calculate_file_hash_unreadable (path : Py.str) (w : World) :
  (fs w !! path = None
   \/ exists f, fs w !! path = Some f /\ readable f = false) ->
  calculate_file_hash path w = []
  /\ forall download title w0 metadata,
       get_scraping_metadata title (working (db w0)) = Some metadata ->
       download title true w0 = (Return (Some path), w) ->
       check_for_updates_with download title w0
       = (negb (bool_decide (Some [] = file_hash metadata)), w).
Proof.
  intros Hmissing.
  assert (calculate_file_hash path w = []) as Hhash.
  { unfold calculate_file_hash, read_file.
    destruct Hmissing as [-> | (f & -> & ->)]; done. }
  split; [exact Hhash |].
  intros download title w0 metadata Hm Hd.
  unfold check_for_updates_with. by rewrite Hm, Hd, Hhash.
Qed.

End WithLibraries.
End ChangeDetectorFacts.

(** ** Runs of the change detector *)

Module ChangeDetectorRuns.
Import Database Env Settings Scraper Notions Examples ChangeDetectorFacts.

Lemma check_for_updates_compares_fingerprints_witness :
  fst (@check_for_updates example_libraries 1 unchanged_world) = false.
Proof.
  destruct (@check_for_updates_compares_fingerprints example_libraries 1
              unchanged_world) as (_ & _ & Hsome).
  destruct (Hsome (metadata_of (Some (Byte.to_N <$> document)))
              (xml_path 1)
              (snd (@download_title_xml example_libraries 1 true
                      unchanged_world)))
    as (response & w0 & Hreq & _ & Hcheck).
  - vm_compute. reflexivity.
  - rewrite (surjective_pairing
               (@download_title_xml example_libraries 1 true unchanged_world))
      at 1.
    f_equal.
  - rewrite Hcheck. simpl.
    assert (fst (_make_request (xml_url 1) unchanged_world)
            = Return document_response) as Hfst by (vm_compute; reflexivity).
    rewrite Hreq in Hfst. simpl in Hfst. injection Hfst as ->.
    reflexivity.
Defined.

(** C3 as stated fails: the server sends bytes whose fingerprint is the
    stored one, but they are no well-formed document, validation makes the
    download raise, and the answer is true. *)
Lemma check_for_updates_ill_formed_counterexample :
  ~ @answers_by_fingerprint Py.ascii_db example_libraries 1 garbage_world.
Proof.
  intros Hclaim.
  specialize (Hclaim (metadata_of (Some (Byte.to_N <$> garbage)))
                garbage_response
                (snd (@_make_request (xml_url 1) garbage_world))).
  assert (fst (@check_for_updates example_libraries 1 garbage_world) = true)
    as Htrue by (vm_compute; reflexivity).
  rewrite Htrue in Hclaim.
  assert (true = false) as Hfalse; [| discriminate Hfalse].
  apply Hclaim; vm_compute; reflexivity.
Qed.

Lemma calculate_file_hash_unreadable_witness :
  @calculate_file_hash example_libraries (Py.lit "test.xml") unchanged_world
  = []
  /\ @check_for_updates_with example_libraries patched_download 1
       unchanged_world
     = (true, unchanged_world).
Proof.
  destruct (@calculate_file_hash_unreadable example_libraries
              (Py.lit "test.xml") unchanged_world) as [Hhash Hcheck].
  - left. reflexivity.
  - split; [exact Hhash |].
    rewrite (Hcheck patched_download 1 unchanged_world
               (metadata_of (Some (Byte.to_N <$> document)))).
    + reflexivity.
    + vm_compute. reflexivity.
    + reflexivity.
Defined.

End ChangeDetectorRuns.

(** ** Transactions and the orchestrator *)

Module OrchestratorFacts.
Import Database Env Settings Scraper Notions.

Section WithLibraries.
Context {U : Py.UnicodeDB} {L : Libraries}.

Lemma stat_size_fs path w w' : fs w' = fs w -> stat_size path w' = stat_size path w.
Proof. unfold stat_size. by intros ->. Qed.

Lemma et_parse_fs path w w' : fs w' = fs w -> et_parse path w' = et_parse path w.
Proof. unfold et_parse, read_file. by intros ->. Qed.

Lemma calculate_file_hash_fs path w w' :
  fs w' = fs w -> calculate_file_hash path w' = calculate_file_hash path w.
Proof. unfold calculate_file_hash, read_file. by intros ->. Qed.

(** [parse_title_xml], on a storage that carries out every statement,
    case by case. *)
Lemma parse_title_xml_cases xml_file title w :
  parse_title_xml xml_file title w
  = match stat_size xml_file w with
    | Raise e =>
        (Raise (parsing_failure e),
         recorded title failed None None (Some (exc_str e)) 0 w)
    | Return size =>
        let hash := Some (calculate_file_hash xml_file w) in
        let w1 := recorded title in_progress (Some size) hash None 0 w in
        match et_parse xml_file w with
        | Raise e =>
            (Raise (parsing_failure e),
             recorded title failed None None (Some (exc_str e)) 0 w1)
        | Return root =>
            let parsed :=
              Parser.parse_root (clock w) root title (working (db w1)) in
            let final :=
              update_scraping_metadata (clock w) title completed (Some size)
                hash None (fst parsed) (snd parsed) in
            (Return (fst parsed),
             with_db w {| committed := final; working := final |})
        end
    end.
Proof.
  unfold parse_title_xml, parse_title_xml_on, parse_body.
  destruct (stat_size xml_file w) as [size|e]; [| done].
  cbn [record_metadata next_answer].
  set (w1 := recorded title in_progress _ _ _ _ w).
  assert (et_parse xml_file w1 = et_parse xml_file w) as -> by done.
  destruct (et_parse xml_file w) as [root|e]; [| done].
  cbn zeta.
  assert (title_statements [] title (working (db w1)) = (None, [])) as ->.
  { unfold title_statements. cbn [next_answer].
    by destruct (fetchone (title_matches title) (titles (working (db w1)))). }
  change (clock w1) with (clock w).
  destruct (Parser.parse_root (clock w) root title (working (db w1)))
    as [n store].
  reflexivity.
Qed.

Lemma parse_title_xml_fs xml_file title w :
  fs (snd (parse_title_xml xml_file title w)) = fs w.
Proof.
  rewrite parse_title_xml_cases.
  destruct (stat_size xml_file w); [| done].
  cbn zeta. by destruct (et_parse xml_file w).
Qed.

Lemma scrape_title_results force t results w :
  exists n, fst (scrape_title force t (results, w)) = <[ t := n ]> results.
Proof.
  unfold scrape_title.
  destruct (download_title_xml t force w) as [[[xml_file|]|e] w1]; eauto.
  destruct (parse_title_xml xml_file t w1) as [[n|e] w2]; eauto.
Qed.

Lemma scrape_title_raises force t results w :
  unit_raises force t w = true ->
  fst (scrape_title force t (results, w)) = <[ t := 0 ]> results.
Proof.
  unfold unit_raises, scrape_title.
  destruct (download_title_xml t force w) as [[[xml_file|]|e] w1];
    [| done | done].
  destruct (parse_title_xml xml_file t w1) as [[n|e] w2]; done.
Qed.

Lemma scrape_from_cons force u ts acc :
  scrape_from force (u :: ts) acc
  = scrape_from force ts (scrape_title force u acc).
Proof. reflexivity. Qed.

Lemma scrape_from_keeps force ts acc t :
  is_Some (fst acc !! t) -> is_Some (fst (scrape_from force ts acc) !! t).
Proof.
  revert acc. induction ts as [|u ts IH]; intros [results w] Hs; [done |].
  rewrite scrape_from_cons. apply IH. simpl in Hs.
  destruct (scrape_title_results force u results w) as [n Hn].
  rewrite Hn. destruct (decide (u = t)) as [-> | Hne].
  - rewrite lookup_insert_eq. eauto.
  - by rewrite lookup_insert_ne.
Qed.

Lemma scrape_from_covers force ts acc t :
  t ∈ ts -> is_Some (fst (scrape_from force ts acc) !! t).
Proof.
  revert acc. induction ts as [|u ts IH]; intros [results w] Hin.
  - by apply elem_of_nil in Hin.
  - rewrite scrape_from_cons.
    apply elem_of_cons in Hin as [-> | Hin]; [| by apply IH].
    apply scrape_from_keeps.
    destruct (scrape_title_results force u results w) as [n Hn].
    rewrite Hn, lookup_insert_eq. eauto.
Qed.

Lemma scrape_from_untouched force ts acc t :
  t ∉ ts -> fst (scrape_from force ts acc) !! t = fst acc !! t.
Proof.
  revert acc. induction ts as [|u ts IH]; intros [results w] Hnin; [done |].
  rewrite scrape_from_cons. apply not_elem_of_cons in Hnin as [Hne Hnin].
  rewrite IH by done.
  destruct (scrape_title_results force u results w) as [n Hn].
  rewrite Hn. by rewrite lookup_insert_ne.
Qed.

Lemma scrape_title_outcome force t results w :
  scrape_title force t (results, w)
  = (<[ t := fst (unit_outcome force t w) ]> results,
     snd (unit_outcome force t w)).
Proof.
  unfold scrape_title, unit_outcome.
  destruct (download_title_xml t force w) as [[[xml_file|]|e] w1];
    [| done | done].
  by destruct (parse_title_xml xml_file t w1) as [[n|e] w2].
Qed.

Lemma scrape_from_world force ts results w :
  snd (scrape_from force ts (results, w)) = world_after force ts w.
Proof.
  revert results w. induction ts as [|t ts IH]; intros results w; [done |].
  rewrite scrape_from_cons, scrape_title_outcome. apply IH.
Qed.

Lemma unit_raises_outcome force t w :
  unit_raises force t w = true -> fst (unit_outcome force t w) = 0.
Proof.
  unfold unit_raises, unit_outcome.
  destruct (download_title_xml t force w) as [[[xml_file|]|e] w1];
    [| done | done].
  by destruct (parse_title_xml xml_file t w1) as [[n|e] w2].
Qed.

(** C8: [scrape_all_titles] always returns a mapping, with an entry for
    every title it was asked to process, and no failure ends the loop.
    Every title of the list, whatever happened to the titles before it, is
    downloaded and parsed from the world these left behind, the failed
    ones included: its entry is the count its own parse returns, and 0
    when its download or its parse raises.  (For a title listed more than
    once the entry is that of its last occurrence.)  The world the run
    ends in is the one reached by processing every title in turn. *)
Theorem scrape_all_titles_contains_failures
    (title_numbers : option (list Z)) (force_download : bool) (w : World) :
  let results := fst (scrape_all_titles title_numbers force_download w) in
  (forall t, t ∈ titles_to_process title_numbers -> is_Some (results !! t))
  /\ (forall before t after,
        titles_to_process title_numbers = before ++ t :: after ->
        t ∉ after ->
        let reached := world_after force_download before w in
        results !! t = Some (fst (unit_outcome force_download t reached))
        /\ (unit_raises force_download t reached = true ->
            results !! t = Some 0))
  /\ snd (scrape_all_titles title_numbers force_download w)
     = world_after force_download (titles_to_process title_numbers) w.
Proof.
  intros results. subst results. unfold scrape_all_titles.
  fold (scrape_from force_download (titles_to_process title_numbers) (∅, w)).
  split; [| split].
  - intros t Hin. by apply scrape_from_covers.
  - intros before t after Heq Hnin.
    set (reached := world_after force_download before w).
    assert (fst (scrape_from force_download
                   (titles_to_process title_numbers) (∅, w)) !! t
            = Some (fst (unit_outcome force_download t reached))) as Hentry.
    { rewrite Heq.
      assert (scrape_from force_download (before ++ t :: after) (∅, w)
              = scrape_from force_download after
                  (scrape_title force_download t
                     (scrape_from force_download before (∅, w)))) as ->.
      { unfold scrape_from. by rewrite fold_left_app. }
      rewrite scrape_from_untouched by done.
      pose proof (scrape_from_world force_download before ∅ w) as Hw.
      destruct (scrape_from force_download before (∅, w)) as [r0 w0].
      simpl in Hw. subst w0. rewrite scrape_title_outcome.
      apply lookup_insert_eq. }
    split; [exact Hentry |].
    intros Hraises. rewrite Hentry. f_equal.
    by apply unit_raises_outcome.
  - apply scrape_from_world.
Qed.

End WithLibraries.
End OrchestratorFacts.

(** ** Re-parsing a document *)

Module ReplayFacts.
Import Database Parser Notions DatabaseFacts.
Local Open Scope store_scope.

Lemma extends_refl a : extends a a.
Proof. by split. Qed.

Lemma extends_trans a b c : extends a b -> extends b c -> extends a c.
Proof. intros [] []. split; by etrans. Qed.

Lemma extends_same_shape a b b' :
  extends a b -> same_shape b b' -> extends a b'.
Proof. intros [] []. split; congruence. Qed.

Lemma same_shape_refl b : same_shape b b.
Proof. by split. Qed.

Lemma same_shape_trans b b1 b2 :
  same_shape b b1 -> same_shape b1 b2 -> same_shape b b2.
Proof. intros [] []. split; congruence. Qed.

Lemma prefix_lookup_key {A B} (f : A -> B) (l1 l2 : list A) j r :
  (f <$> l1) `prefix_of` (f <$> l2) -> l1 !! j = Some r ->
  exists r', l2 !! j = Some r' /\ f r' = f r.
Proof.
  intros Hp Hj.
  assert ((f <$> l2) !! j = Some (f r)) as H.
  { eapply prefix_lookup_Some; [| exact Hp].
    by rewrite list_lookup_fmap, Hj. }
  rewrite list_lookup_fmap in H.
  destruct (l2 !! j) as [r'|]; simplify_eq/=. eauto.
Qed.

Lemma extends_section_key a b j r :
  extends a b -> sections a !! j = Some r ->
  exists r', sections b !! j = Some r' /\ section_key r' = section_key r.
Proof. intros [] Hj. by eapply prefix_lookup_key. Qed.

Lemma fetchone_prefix {R} (matches : R -> bool) (t t' : list R) (r : R) :
  t `prefix_of` t' -> fetchone matches t = Some r ->
  fetchone matches t' = Some r.
Proof. intros [k ->] H. by apply fetchone_app. Qed.

Lemma section_key_inv r r' :
  section_key r' = section_key r ->
  section_id r' = section_id r
  /\ section_part_id r' = section_part_id r
  /\ section_number r' = section_number r.
Proof. unfold section_key. intros [= H1 H2 H3]. done. Qed.

Lemma replays_ret {A} (x : A) : replays (ret x) (ret x).
Proof.
  split; [intros a; apply extends_refl |].
  intros a b _. exists ∅. simpl.
  split; [done |]. split; [apply same_shape_refl |].
  split; [| split; [| split]].
  - intros j r Hj _. exact Hj.
  - intros j r Hj Hle. apply lookup_lt_Some in Hj. lia.
  - intros j r Hj _. exact Hj.
  - intros j r _ Hin. set_solver.
Qed.

Lemma replays_bind {A B} (m m' : M A) (k k' : A -> M B) :
  replays m m' -> (forall x, replays (k x) (k' x)) ->
  replays (bind m k) (bind m' k').
Proof.
  intros [Hmono Hrep] Hk. split.
  - intros a. unfold bind. specialize (Hmono a).
    destruct (m a) as [x a1]. eapply extends_trans; [exact Hmono |].
    apply (Hk x).
  - intros a b. unfold bind.
    specialize (Hrep a b).
    destruct (m a) as [x a1]. simpl in Hrep.
    destruct (Hk x) as [Hkmono Hkrep].
    specialize (Hkmono a1). specialize (Hkrep a1).
    destruct (k x a1) as [y a2]. simpl in *. intros Hext.
    destruct Hrep as (W1 & Hx & Hs1 & Hfa1 & Hfr1 & Hfb1 & Hag1).
    { eapply extends_trans; eauto. }
    destruct (m' b) as [x' b1]. simpl in *. subst x'.
    destruct (Hkrep b1) as (W2 & Hy & Hs2 & Hfa2 & Hfr2 & Hfb2 & Hag2).
    { eapply extends_same_shape; eauto. }
    destruct (k' x b1) as [y' b2]. simpl in *. subst y'.
    assert (forall j r, sections a2 !! j = Some r -> (j < length (sections a1))%nat ->
              exists r1, sections a1 !! j = Some r1
                         /\ section_id r1 = section_id r) as Hback.
    { intros j r Hj Hlt.
      destruct (lookup_lt_is_Some_2 (sections a1) j Hlt) as [r1 Hr1].
      destruct (extends_section_key _ _ _ _ Hkmono Hr1) as (r' & Hr' & Hkey).
      exists r1. split; [done |].
      apply section_key_inv in Hkey as (Hkey & _).
      rewrite Hj in Hr'. by simplify_eq. }
    exists (W1 ∪ W2).
    split; [done |]. split; [eapply same_shape_trans; eauto |].
    split; [| split; [| split]].
    + intros j r Hj Hnin. apply Hfa2; [| set_solver]. apply Hfa1; [done | set_solver].
    + intros j r Hj Hle.
      destruct (decide (length (sections a1) <= j)%nat) as [Hge | Hlt].
      * apply elem_of_union_r. by eapply Hfr2.
      * destruct (Hback j r Hj) as (r1 & Hr1 & Hid); [lia |].
        apply elem_of_union_l. rewrite <- Hid. by eapply Hfr1.
    + intros j r Hj Hnin. apply Hfb2; [| set_solver]. apply Hfb1; [done | set_solver].
    + intros j r Hj Hin.
      destruct (decide (section_id r ∈ W2)) as [Hin2 | Hnin2]; [by apply Hag2 |].
      apply elem_of_union in Hin as [Hin1 | Hin2]; [| done].
      destruct (decide (length (sections a1) <= j)%nat) as [Hge | Hlt].
      { exfalso. apply Hnin2. by eapply Hfr2. }
      destruct (Hback j r Hj) as (r1 & Hr1 & Hid); [lia |].
      assert (sections a2 !! j = Some r1) as Hr1'.
      { apply Hfa2; [done | by rewrite Hid]. }
      rewrite Hj in Hr1'. simplify_eq.
      apply Hfb2; [| done]. by apply Hag1.
Qed.

Lemma replays_for_count {X} (body body' : X -> M Z) (xs : list X) (count : Z) :
  (forall x, replays (body x) (body' x)) ->
  replays (for_count body xs count) (for_count body' xs count).
Proof.
  intros Hbody. revert count.
  induction xs as [|x xs IH]; intros count; simpl.
  - apply replays_ret.
  - apply replays_bind; [apply Hbody |]. intros n. apply IH.
Qed.

(** A computation that only looks rows up or appends to the tables above
    the sections, and finds in any extension what it produced. *)
Lemma replays_lookup_only {A} (m m' : M A) :
  (forall a, extends a (snd (m a)) /\ sections (snd (m a)) = sections a) ->
  (forall a b, extends (snd (m a)) b -> m' b = (fst (m a), b)) ->
  replays m m'.
Proof.
  intros Hm Hb. split; [intros a; apply Hm |].
  intros a b Hext. exists ∅. rewrite (Hb a b Hext). simpl.
  destruct (Hm a) as [_ Hsec].
  split; [done |]. split; [apply same_shape_refl |].
  split; [| split; [| split]].
  - intros j r Hj _. by rewrite Hsec.
  - intros j r Hj Hle. rewrite Hsec in Hj. apply lookup_lt_Some in Hj. lia.
  - intros j r Hj _. exact Hj.
  - intros j r _ Hin. set_solver.
Qed.

Ltac after_get_or_create E :=
  match goal with
  | |- context [fetchone ?f ?t] =>
      destruct (fetchone f t) as [row|] eqn:E; simpl;
      [ eauto
      | eexists; split;
        [ apply fetchone_app_new; [exact E |];
          repeat (apply andb_true_iff; split);
          by apply bool_decide_eq_true_2
        | done ] ]
  end.

Ltac grows_one_table :=
  match goal with
  | |- context [fetchone ?f ?t] =>
      destruct (fetchone f t); simpl;
      (split; [split; simpl; try done; by apply prefix_app_r | done])
  end.

Lemma title_after now number name a :
  exists r, fetchone (title_matches number)
              (titles (snd (get_or_create_title now number name a))) = Some r
            /\ title_id r = fst (get_or_create_title now number name a).
Proof. unfold get_or_create_title. after_get_or_create E. Qed.

Lemma chapter_after title number name a :
  exists r, fetchone (chapter_matches title number)
              (chapters (snd (get_or_create_chapter title number name a)))
            = Some r
            /\ chapter_id r = fst (get_or_create_chapter title number name a).
Proof. unfold get_or_create_chapter. after_get_or_create E. Qed.

Lemma subchapter_after chapter letter name a :
  exists r, fetchone (subchapter_matches chapter letter)
              (subchapters
                 (snd (get_or_create_subchapter chapter letter name a)))
            = Some r
            /\ subchapter_id r
               = fst (get_or_create_subchapter chapter letter name a).
Proof. unfold get_or_create_subchapter. after_get_or_create E. Qed.

Lemma part_after chapter sub number name auth src a :
  exists r, fetchone (part_matches chapter number)
              (parts (snd (get_or_create_part chapter sub number name auth
                             src a)))
            = Some r
            /\ part_id r
               = fst (get_or_create_part chapter sub number name auth src a).
Proof. unfold get_or_create_part. after_get_or_create E. Qed.

Lemma replays_get_or_create_title now now' number name :
  replays (get_or_create_title now number name)
          (get_or_create_title now' number name).
Proof.
  apply replays_lookup_only.
  - intros a. unfold get_or_create_title. grows_one_table.
  - intros a b Hext.
    destruct (title_after now number name a) as (r & Hr & Hid).
    unfold get_or_create_title at 1.
    rewrite (fetchone_prefix _ _ _ _ (extends_titles _ _ Hext) Hr).
    by rewrite Hid.
Qed.

Lemma replays_get_or_create_chapter title number name :
  replays (get_or_create_chapter title number name)
          (get_or_create_chapter title number name).
Proof.
  apply replays_lookup_only.
  - intros a. unfold get_or_create_chapter. grows_one_table.
  - intros a b Hext.
    destruct (chapter_after title number name a) as (r & Hr & Hid).
    unfold get_or_create_chapter at 1.
    rewrite (fetchone_prefix _ _ _ _ (extends_chapters _ _ Hext) Hr).
    by rewrite Hid.
Qed.

Lemma replays_get_or_create_subchapter chapter letter name :
  replays (get_or_create_subchapter chapter letter name)
          (get_or_create_subchapter chapter letter name).
Proof.
  apply replays_lookup_only.
  - intros a. unfold get_or_create_subchapter. grows_one_table.
  - intros a b Hext.
    destruct (subchapter_after chapter letter name a) as (r & Hr & Hid).
    unfold get_or_create_subchapter at 1.
    rewrite (fetchone_prefix _ _ _ _ (extends_subchapters _ _ Hext) Hr).
    by rewrite Hid.
Qed.

Lemma replays_get_or_create_part chapter sub number name auth src :
  replays (get_or_create_part chapter sub number name auth src)
          (get_or_create_part chapter sub number name auth src).
Proof.
  apply replays_lookup_only.
  - intros a. unfold get_or_create_part. grows_one_table.
  - intros a b Hext.
    destruct (part_after chapter sub number name auth src a) as (r & Hr & Hid).
    unfold get_or_create_part at 1.
    rewrite (fetchone_prefix _ _ _ _ (extends_parts _ _ Hext) Hr).
    by rewrite Hid.
Qed.

Lemma section_matches_key part number r r' :
  section_key r' = section_key r ->
  section_matches part number r' = section_matches part number r.
Proof.
  intros (H1 & H2 & H3)%section_key_inv.
  unfold section_matches. by rewrite H2, H3.
Qed.

Lemma set_section_fields_key h c a src node r r' :
  section_key r' = section_key r ->
  set_section_fields h c a src node r' = set_section_fields h c a src node r.
Proof.
  intros (H1 & H2 & H3)%section_key_inv.
  unfold set_section_fields. by rewrite H1, H2, H3.
Qed.

Lemma key_update_section i h c a src node table :
  section_key <$> update_section_where_id i (set_section_fields h c a src node)
                    table
  = section_key <$> table.
Proof.
  unfold update_section_where_id. rewrite <- list_fmap_compose.
  apply list_fmap_ext. intros j r _. simpl.
  by destruct (bool_decide (section_id r = i)).
Qed.

Lemma lookup_update_section i f table j :
  update_section_where_id i f table !! j
  = (fun r => if bool_decide (section_id r = i) then f r else r)
      <$> table !! j.
Proof. unfold update_section_where_id. apply list_lookup_fmap. Qed.

Lemma fetchone_key_prefix part number t t' r :
  (section_key <$> t) `prefix_of` (section_key <$> t') ->
  fetchone (section_matches part number) t = Some r ->
  exists r', fetchone (section_matches part number) t' = Some r'
             /\ section_key r' = section_key r.
Proof.
  revert t'. induction t as [|x t IH]; intros t' Hp Hf; [done |].
  destruct t' as [|x' t'].
  { apply prefix_nil_inv in Hp. done. }
  rewrite !fmap_cons in Hp.
  pose proof (prefix_cons_inv_1 _ _ _ _ Hp) as Hk.
  pose proof (prefix_cons_inv_2 _ _ _ _ Hp) as Hp'.
  unfold fetchone in *. simpl in *.
  rewrite (section_matches_key part number x x') by done.
  destruct (section_matches part number x); simpl in *.
  - simplify_eq. eexists. split; [done |]. unfold section_key. congruence.
  - by apply IH.
Qed.

Lemma section_after part number h c a src node s :
  exists r,
    fetchone (section_matches part number)
      (sections (snd (insert_section part number h c a src node s))) = Some r
    /\ section_id r = fst (insert_section part number h c a src node s).
Proof.
  unfold insert_section.
  destruct (fetchone (section_matches part number) (sections s))
    as [row|] eqn:E.
  - simpl. unfold fetchone in *. rewrite filter_update_section.
    destruct (List.filter (section_matches part number) (sections s))
      as [|x rest]; simplify_eq/=.
    rewrite bool_decide_eq_true_2 by done. eauto.
  - cbn [fst snd]. unfold with_sections. cbn [sections].
    eexists. split.
    + apply fetchone_app_new; [exact E |].
      unfold section_matches. cbn [section_part_id section_number].
      by rewrite !bool_decide_eq_true_2.
    + reflexivity.
Qed.

Lemma insert_section_extends part number h c a src node s :
  extends s (snd (insert_section part number h c a src node s)).
Proof.
  unfold insert_section.
  destruct (fetchone (section_matches part number) (sections s));
    split; simpl; try done.
  - by rewrite key_update_section.
  - rewrite fmap_app. by apply prefix_app_r.
Qed.

Lemma insert_section_found part number h c a src node b row :
  fetchone (section_matches part number) (sections b) = Some row ->
  insert_section part number h c a src node b
  = (section_id row,
     with_sections b
       (update_section_where_id (section_id row)
          (set_section_fields h c a src node) (sections b))).
Proof. intros H. unfold insert_section. by rewrite H. Qed.

Lemma set_section_fields_idem h c a src node r :
  set_section_fields h c a src node (set_section_fields h c a src node r)
  = set_section_fields h c a src node r.
Proof. reflexivity. Qed.

(** What [insert_section] does to the section rows of the store it runs
    on: rows with another identity stay, a new row carries the returned
    identity, and every row with the returned identity holds the fields of
    the call. *)
Lemma insert_section_effect part number h c a src node s :
  let i := fst (insert_section part number h c a src node s) in
  let s' := snd (insert_section part number h c a src node s) in
  frame {[ i ]} s s' /\ fresh {[ i ]} s s'
  /\ forall j x, sections s' !! j = Some x -> section_id x = i ->
                 set_section_fields h c a src node x = x.
Proof.
  unfold insert_section.
  destruct (fetchone (section_matches part number) (sections s)) as [row|];
    cbn [fst snd]; unfold with_sections, frame, fresh; cbn [sections].
  - split; [| split].
    + intros j x Hj Hnin. rewrite lookup_update_section, Hj. simpl.
      rewrite bool_decide_eq_false_2; [done | set_solver].
    + intros j x Hj Hle. apply lookup_lt_Some in Hj.
      unfold update_section_where_id in Hj. rewrite length_fmap in Hj. lia.
    + intros j x Hj Hid. rewrite lookup_update_section in Hj.
      destruct (sections s !! j) as [y|]; simplify_eq/=.
      destruct (bool_decide (section_id y = section_id row)) eqn:Eb.
      * apply set_section_fields_idem.
      * apply bool_decide_eq_false in Eb. done.
  - split; [| split].
    + intros j x Hj _. by apply lookup_app_l_Some.
    + intros j x Hj Hle. apply elem_of_singleton.
      rewrite lookup_app_r in Hj by done.
      destruct (j - length (sections s))%nat; simplify_eq/=. done.
    + intros j x Hj Hid.
      destruct (decide (j < length (sections s))%nat) as [Hlt | Hge].
      * rewrite lookup_app_l in Hj by done.
        assert (section_id x ∈ section_id <$> sections s) as Hmem.
        { apply list_elem_of_fmap. exists x. split; [done |].
          by eapply list_elem_of_lookup_2. }
        apply next_rowid_fresh in Hmem. lia.
      * rewrite lookup_app_r in Hj by lia.
        destruct (j - length (sections s))%nat; simplify_eq/=. done.
Qed.

Lemma replays_insert_section part number h c a src node :
  replays (insert_section part number h c a src node)
          (insert_section part number h c a src node).
Proof.
  split; [intros s; apply insert_section_extends |].
  intros s b Hext.
  destruct (section_after part number h c a src node s) as (r & Hr & Hid).
  destruct (fetchone_key_prefix _ _ _ _ _ (extends_sections _ _ Hext) Hr)
    as (rb & Hrb & Hkey).
  assert (section_id rb = section_id r) as Hidb.
  { by apply section_key_inv in Hkey as (? & _). }
  destruct (insert_section_effect part number h c a src node s)
    as (Hframe & Hfresh & Hfields).
  rewrite (insert_section_found _ _ _ _ _ _ _ _ _ Hrb).
  set (i := fst (insert_section part number h c a src node s)) in *.
  rewrite Hidb, Hid. cbn [fst snd].
  exists {[ i ]}.
  split; [done |]. split.
  { split; simpl; try done. apply key_update_section. }
  split; [exact Hframe |]. split; [exact Hfresh |]. split.
  - intros j x Hj Hnin. simpl. rewrite lookup_update_section, Hj. simpl.
    rewrite bool_decide_eq_false_2; [done | set_solver].
  - intros j x Hj Hin. apply elem_of_singleton in Hin.
    destruct (extends_section_key _ _ _ _ Hext Hj) as (xb & Hxb & Hkx).
    simpl. rewrite lookup_update_section, Hxb. simpl.
    assert (section_id xb = i) as Hxi.
    { apply section_key_inv in Hkx as (? & _). congruence. }
    rewrite bool_decide_eq_true_2 by done. f_equal.
    rewrite (set_section_fields_key _ _ _ _ _ x xb Hkx).
    by apply (Hfields j).
Qed.

Section WithUnicode.
Context {U : Py.UnicodeDB}.

Lemma replays_process_section section_elem part_id :
  replays (_process_section section_elem part_id)
          (_process_section section_elem part_id).
Proof.
  unfold _process_section.
  repeat match goal with
         | |- context [if ?c then _ else _] => destruct c
         | |- context [match ?x with Some _ => _ | None => _ end] =>
             destruct x
         end;
    try apply replays_ret;
    (apply replays_bind; [apply replays_insert_section |];
     intros; apply replays_ret).
Qed.

Lemma replays_process_part part_elem chapter_id subchapter_id :
  replays (_process_part part_elem chapter_id subchapter_id)
          (_process_part part_elem chapter_id subchapter_id).
Proof.
  unfold _process_part.
  destruct (ET.find_child (Py.lit "HEAD") part_elem) as [part_hd|];
    [| apply replays_ret].
  destruct (part_number_of part_elem (head_text part_hd)) as [part_number|];
    [| apply replays_ret].
  apply replays_bind; [apply replays_get_or_create_part |].
  intros part_id. apply replays_for_count. intros section_elem.
  apply replays_bind; [apply replays_process_section |].
  intros ok. apply replays_ret.
Qed.

Lemma replays_process_subchapter subchapter_elem chapter_id :
  replays (_process_subchapter subchapter_elem chapter_id)
          (_process_subchapter subchapter_elem chapter_id).
Proof.
  unfold _process_subchapter.
  destruct (ET.find_child (Py.lit "HEAD") subchapter_elem) as [hd|];
    [| apply replays_ret].
  match goal with |- context [if ?c then _ else _] => destruct c end;
    [| apply replays_ret].
  apply replays_bind; [apply replays_get_or_create_subchapter |].
  intros i. apply replays_ret.
Qed.

Lemma replays_process_subchapter_content subchapter_elem chapter_id sub_id :
  replays (_process_subchapter_content subchapter_elem chapter_id sub_id)
          (_process_subchapter_content subchapter_elem chapter_id sub_id).
Proof.
  unfold _process_subchapter_content.
  apply replays_for_count. intros part_elem. apply replays_process_part.
Qed.

Lemma replays_process_chapter_content chapter_elem chapter_id :
  replays (_process_chapter_content chapter_elem chapter_id)
          (_process_chapter_content chapter_elem chapter_id).
Proof.
  unfold _process_chapter_content.
  apply replays_bind.
  - apply replays_for_count. intros subchapter_elem.
    apply replays_bind; [apply replays_process_subchapter |].
    intros subchapter_id.
    destruct (truthy_opt_id subchapter_id);
      [apply replays_process_subchapter_content | apply replays_ret].
  - intros records_count. apply replays_for_count. intros part_elem.
    apply replays_process_part.
Qed.

Lemma replays_process_chapter chapter_elem title_id :
  replays (_process_chapter chapter_elem title_id)
          (_process_chapter chapter_elem title_id).
Proof.
  unfold _process_chapter.
  destruct (ET.find_child (Py.lit "HEAD") chapter_elem) as [hd|];
    [| apply replays_ret].
  match goal with |- context [if ?c then _ else _] => destruct c end;
    [| apply replays_ret].
  apply replays_bind; [apply replays_get_or_create_chapter |].
  intros i. apply replays_ret.
Qed.

(** A later parse of the same tree replays an earlier one, whatever the
    clock shows. *)
Lemma replays_parse_root now now' root title_number :
  replays (parse_root now root title_number)
          (parse_root now' root title_number).
Proof.
  unfold parse_root.
  apply replays_bind; [apply replays_get_or_create_title |].
  intros title_id. apply replays_for_count. intros chapter_elem.
  apply replays_bind; [apply replays_process_chapter |].
  intros chapter_id.
  destruct (truthy_opt_id chapter_id);
    [apply replays_process_chapter_content | apply replays_ret].
Qed.

(** Parsing a tree into a store that differs from the result of an earlier
    parse of the same tree in its Ingestion Records only returns the same
    count and leaves every entity table as it finds it. *)
Lemma parse_root_again now now' root title_number (s after : Store) :
  entity_tables after
  = entity_tables (snd (parse_root now root title_number s)) ->
  fst (parse_root now' root title_number after)
  = fst (parse_root now root title_number s)
  /\ entity_tables (snd (parse_root now' root title_number after))
     = entity_tables after.
Proof.
  intros Htables.
  destruct (replays_parse_root now now' root title_number) as [_ Hrep].
  unfold entity_tables in Htables.
  injection Htables as Ht Hc Hsc Hp Hs.
  destruct (Hrep s after) as (W & Hfst & Hshape & _ & _ & Hframe & Hagree).
  { split; by rewrite ?Ht, ?Hc, ?Hsc, ?Hp, ?Hs. }
  split; [exact Hfst |].
  destruct Hshape as [Ht' Hc' Hsc' Hp' Hs'].
  unfold entity_tables. rewrite Ht', Hc', Hsc', Hp'. f_equal.
  apply list_eq. intros j.
  destruct (sections after !! j) as [r|] eqn:Hj.
  - destruct (decide (section_id r ∈ W)) as [Hin | Hnin].
    + apply Hagree; [by rewrite <- Hs | done].
    + by apply Hframe.
  - apply lookup_ge_None. apply lookup_ge_None in Hj.
    assert (length (sections (snd (parse_root now' root title_number after)))
            = length (sections after)) as Hlen.
    { rewrite <- (length_fmap section_key), Hs'. apply length_fmap. }
    lia.
Qed.

End WithUnicode.
End ReplayFacts.

(** ** Idempotence of ingestion *)

Module IdempotenceFacts.
Import Database Env Settings Scraper Notions OrchestratorFacts ReplayFacts.

Section WithLibraries.
Context {U : Py.UnicodeDB} {L : Libraries}.

(** C4: parsing the same document a second time, at any later time, into
    the store the first parse left behind returns the same outcome and
    leaves all five entity tables (titles, chapters, subchapters, parts,
    sections) exactly as the first parse left them, in the working store
    and in the committed store: no row is added at any level, and every
    section row ends with the field values it already had. *)
Theorem parse_title_xml_idempotent
    (xml_file : Py.str) (title : Z) (w : World) (later : N) :
  let first := parse_title_xml xml_file title w in
  let second := parse_title_xml xml_file title (sleep later (snd first)) in
  fst second = fst first
  /\ entity_tables (working (db (snd second)))
     = entity_tables (working (db (snd first)))
  /\ entity_tables (committed (db (snd second)))
     = entity_tables (committed (db (snd first))).
Proof.
  intros first second. subst second.
  set (w' := sleep later (snd first)).
  assert (fs w' = fs w) as Hfs by apply parse_title_xml_fs.
  rewrite (parse_title_xml_cases xml_file title w').
  rewrite (stat_size_fs _ _ _ Hfs), (et_parse_fs _ _ _ Hfs),
    (calculate_file_hash_fs _ _ _ Hfs).
  subst w' first. rewrite (parse_title_xml_cases xml_file title w).
  destruct (stat_size xml_file w) as [size|e]; [| done].
  cbn zeta.
  destruct (et_parse xml_file w) as [root|e]; [| done].
  cbn [fst snd db with_db sleep working committed clock recorded
         execute].
  set (hash := Some (calculate_file_hash xml_file w)).
  set (a := update_scraping_metadata (clock w) title in_progress (Some size)
              hash None 0 (working (db w))).
  set (parsed := Parser.parse_root (clock w) root title a).
  set (b := update_scraping_metadata (clock w + later) title in_progress
              (Some size) hash None 0
              (update_scraping_metadata (clock w) title completed (Some size)
                 hash None (fst parsed) (snd parsed))).
  destruct (parse_root_again (clock w) (clock w + later)%N root title a b)
    as [Hn Ht]; [reflexivity |].
  fold parsed in Hn. rewrite Hn. split; [done |].
  assert (entity_tables
            (snd (Parser.parse_root (clock w + later) root title b))
          = entity_tables (snd parsed)) as Heq by (rewrite Ht; reflexivity).
  split; exact Heq.
Qed.

End WithLibraries.
End IdempotenceFacts.

(** ** Text cleaning *)

Module TextFacts.
Import Parser Notions.

Lemma collapse_from_true_starts_solid s :
  starts_solid (Py.collapse_from true s) = true.
Proof.
  induction s as [|c s IH]; [done |]. simpl.
  destruct (Py.isspace c) eqn:E; [exact IH |]. simpl. by rewrite E.
Qed.

Lemma collapse_from_single_spaced in_run s :
  single_spaced (Py.collapse_from in_run s) = true.
Proof.
  revert in_run. induction s as [|c s IH]; intros in_run; [done |]. simpl.
  destruct (Py.isspace c) eqn:E.
  - destruct in_run; [apply IH |]. simpl.
    rewrite collapse_from_true_starts_solid, IH. done.
  - simpl. by rewrite E, IH.
Qed.

Lemma single_spaced_tail c s :
  single_spaced (c :: s) = true -> single_spaced s = true.
Proof. simpl. by intros [_ H]%andb_true_iff. Qed.

Lemma replace_from_starts_solid old c s :
  Py.isspace c = false -> starts_solid s = true ->
  starts_solid (Py.replace_from old [c] 0 s) = true.
Proof.
  intros Hc Hs. destruct s as [|d s]; [done |]. simpl.
  destruct (Py.startswith old (d :: s)); simpl; [by rewrite Hc | exact Hs].
Qed.

(** Replacing occurrences by one character that is no whitespace keeps a
    text single-spaced. *)
Lemma replace_from_single_spaced old c s :
  Py.isspace c = false ->
  forall skip, single_spaced s = true ->
               single_spaced (Py.replace_from old [c] skip s) = true.
Proof.
  intros Hc. induction s as [|d s IH]; intros skip Hs; [done |].
  pose proof (single_spaced_tail _ _ Hs) as Hs'.
  cbn [Py.replace_from]. destruct skip as [|k]; [| by apply IH].
  destruct (Py.startswith old (d :: s)).
  - cbn [app single_spaced]. rewrite Hc. simpl. by apply IH.
  - cbn [single_spaced]. rewrite (IH 0%nat Hs'), andb_true_r.
    cbn [single_spaced] in Hs. apply andb_true_iff in Hs as [Hd _].
    destruct (Py.isspace d); [| done]. simpl in *.
    apply andb_true_iff in Hd as [-> Hsolid]. simpl.
    by apply replace_from_starts_solid.
Qed.

Lemma lstrip_single_spaced s :
  single_spaced s = true -> single_spaced (Py.lstrip s) = true.
Proof.
  induction s as [|c s IH]; intros Hs; [done |]. simpl.
  destruct (Py.isspace c); [| exact Hs].
  apply IH. by eapply single_spaced_tail.
Qed.

Lemma single_spaced_app_l s t :
  single_spaced (s ++ t) = true -> single_spaced s = true.
Proof.
  induction s as [|c s IH]; [done |]. simpl.
  intros [Hc Hs]%andb_true_iff. rewrite (IH Hs), andb_true_r.
  destruct (Py.isspace c); [| done]. simpl in *.
  apply andb_true_iff in Hc as [-> Hsolid]. simpl.
  destruct s; [done | exact Hsolid].
Qed.

Lemma lstrip_suffix s : exists u, s = u ++ Py.lstrip s.
Proof.
  induction s as [|c s [u Hu]]; [by exists [] |]. simpl.
  destruct (Py.isspace c); [| by exists []].
  exists (c :: u). simpl. by rewrite <- Hu.
Qed.

Lemma rstrip_prefix s : exists u, s = Py.rstrip s ++ u.
Proof.
  unfold Py.rstrip. destruct (lstrip_suffix (rev s)) as [u Hu].
  exists (rev u). rewrite <- rev_app_distr, <- Hu. by rewrite rev_involutive.
Qed.

Lemma strip_single_spaced s :
  single_spaced s = true -> single_spaced (Py.strip s) = true.
Proof.
  intros Hs. unfold Py.strip.
  destruct (rstrip_prefix (Py.lstrip s)) as [u Hu].
  apply (single_spaced_app_l _ u). rewrite <- Hu.
  by apply lstrip_single_spaced.
Qed.

Lemma lstrip_starts_solid s : starts_solid (Py.lstrip s) = true.
Proof.
  induction s as [|c s IH]; [done |]. simpl.
  destruct (Py.isspace c) eqn:E; [exact IH |]. simpl. by rewrite E.
Qed.

Lemma lstrip_solid s : starts_solid s = true -> Py.lstrip s = s.
Proof.
  destruct s as [|c s]; [done |]. simpl.
  by destruct (Py.isspace c).
Qed.

Lemma lstrip_idem s : Py.lstrip (Py.lstrip s) = Py.lstrip s.
Proof. apply lstrip_solid, lstrip_starts_solid. Qed.

Lemma rstrip_idem s : Py.rstrip (Py.rstrip s) = Py.rstrip s.
Proof. unfold Py.rstrip. by rewrite rev_involutive, lstrip_idem. Qed.

(** Stripping at the end leaves a solid start alone. *)
Lemma rstrip_starts_solid s :
  starts_solid s = true -> starts_solid (Py.rstrip s) = true.
Proof.
  destruct s as [|c s]; [done |]. simpl. intros Hc%negb_true_iff.
  unfold Py.rstrip. simpl.
  assert (forall t, exists t', rev (Py.lstrip (t ++ [c])) = c :: t') as H.
  { intros t. induction t as [|d t IH]; simpl.
    - rewrite Hc. by exists [].
    - destruct (Py.isspace d); [exact IH |].
      simpl. rewrite rev_app_distr. simpl. eauto. }
  destruct (H (rev s)) as [t' ->]. simpl. by rewrite Hc.
Qed.

Lemma strip_idem s : Py.strip (Py.strip s) = Py.strip s.
Proof.
  unfold Py.strip.
  rewrite (lstrip_solid (Py.rstrip (Py.lstrip s))).
  - apply rstrip_idem.
  - apply rstrip_starts_solid, lstrip_starts_solid.
Qed.

(** What [_clean_text] returns is trimmed, and its whitespace is single
    spaces. *)
Lemma clean_text_single_spaced (text : option Py.str) :
  single_spaced (_clean_text text) = true
  /\ Py.strip (_clean_text text) = _clean_text text.
Proof.
  unfold _clean_text.
  destruct text as [[|c t]|]; [done | | done].
  split; [| apply strip_idem].
  apply strip_single_spaced. unfold Py.replace.
  change (Py.lit "&") with [38%N]. change (Py.lit "<") with [60%N].
  change (Py.lit ">") with [62%N]. change (Py.lit "'") with [39%N].
  repeat (apply replace_from_single_spaced; [reflexivity |]).
  apply collapse_from_single_spaced.
Qed.

(** The citations stored for parts and sections are trimmed and
    single-spaced. *)
Lemma extract_authority_single_spaced (e : ET.Element) (a : Py.str) :
  _extract_authority e = Some a ->
  single_spaced a = true /\ Py.strip a = a.
Proof.
  unfold _extract_authority.
  destruct (ET.find_descendant (Py.lit "AUTH") e) as [auth_elem|]; [| done].
  intros H.
  assert (a = _clean_text (Some (_extract_element_text auth_elem))) as ->
    by congruence.
  apply clean_text_single_spaced.
Qed.

Lemma extract_source_single_spaced (e : ET.Element) (a : Py.str) :
  _extract_source e = Some a ->
  single_spaced a = true /\ Py.strip a = a.
Proof.
  unfold _extract_source.
  destruct (ET.find_descendant (Py.lit "SOURCE") e) as [source_elem|];
    [| done].
  intros H.
  assert (a = _clean_text (Some (_extract_element_text source_elem))) as ->
    by congruence.
  apply clean_text_single_spaced.
Qed.

End TextFacts.

(** ** Text extraction *)

Module ParserFacts.
Import Database Parser Examples.

(** C6 (the code departs from the claim): the body of a section is built
    from [_extract_element_text] alone.  On the paragraph of the test
    [test_extract_section_content_complex] the stored content keeps the
    two-space runs that joining the fragments creates, where the claim, and
    that test, expect single spaces; the citation path, which passes the
    same flattened text through [_clean_text], stores single spaces. *)
Theorem section_content_keeps_whitespace_runs :
  _extract_section_content complex_section
  = Py.lit "First paragraph with  italics  and  emphasis ."
  /\ Notions.single_spaced (_extract_section_content complex_section) = false
  /\ _extract_authority
       (node "DIV5" [] None [mixed_paragraph "AUTH"] None)
     = Some (Py.lit "First paragraph with italics and emphasis .").
Proof. repeat split; vm_compute; reflexivity. Qed.

(** The body path does not decode a textual escape either, while the
    citation path does. *)
Lemma section_content_keeps_escapes :
  _extract_section_content
    (node "DIV8" [] None [paragraph "R&amp;D"] None)
  = Py.lit "R&amp;D"
  /\ _extract_source
       (node "DIV8" [] None
          [node "SOURCE" [] (Some (Py.lit "R&amp;D")) [] None] None)
     = Some (Py.lit "R&D").
Proof. split; vm_compute; reflexivity. Qed.

Section WithUnicode.
Context {U : Py.UnicodeDB}.

(** C7 (the code departs from the claim): [_process_section] deletes every
    occurrence of the pattern [§\s*[\d.]+\s*] from the heading, not only
    the leading one.  For the heading [§ 1.5 Relation to § 1.4 of this
    part.] the stored heading is [Relation to of this part.]: the citation
    of section 1.4, which is not part of the leading prefix, is lost. *)
Theorem process_section_strips_every_section_mark :
  section_heading <$> sections (snd (_process_section citing_section 1
                                       empty_store))
  = [Py.lit "Relation to of this part."]
  /\ section_number <$> sections (snd (_process_section citing_section 1
                                         empty_store))
     = [Py.lit "1.5"].
Proof. split; vm_compute; reflexivity. Qed.

(** A heading with no section mark after the leading one keeps its
    text. *)
Lemma process_section_plain_heading :
  section_heading <$> sections
    (snd (_process_section
            (div "DIV8" "SECTION" (sec "1.1")
               (sec "1.1" ++ Py.lit " Definitions.") []) 1 empty_store))
  = [Py.lit "Definitions."].
Proof. vm_compute. reflexivity. Qed.

End WithUnicode.
End ParserFacts.

(** ** Runs of the orchestrator *)

Module OrchestratorRuns.
Import Database Env Settings Scraper Notions Examples OrchestratorFacts.

Lemma scrape_all_titles_contains_failures_witness :
  let results :=
    fst (@scrape_all_titles Py.ascii_db example_libraries (Some [1; 2]) false
           mixed_world) in
  results !! 1 = Some 0 /\ results !! 2 = Some 2.
Proof.
  destruct (@scrape_all_titles_contains_failures Py.ascii_db
              example_libraries (Some [1; 2]) false mixed_world)
    as (_ & Hentry & _).
  split.
  - refine (proj2 (Hentry [] 1 [2] eq_refl _) _).
    + intros Hin. apply list_elem_of_singleton in Hin. discriminate Hin.
    + vm_compute. reflexivity.
  - refine (eq_trans (proj1 (Hentry [1] 2 [] eq_refl _)) _).
    + intros Hin. by apply elem_of_nil in Hin.
    + vm_compute. reflexivity.
Defined.

(** The run of [mixed_world]: title 1 is entered with 0 after three
    requests, title 2 with its two sections after one more. *)
Lemma scrape_all_titles_mixed_run :
  map_to_list
    (fst (@scrape_all_titles Py.ascii_db example_libraries (Some [1; 2])
            false mixed_world))
  = [(2, 2); (1, 0)]
  /\ length (requested
              (snd (@scrape_all_titles Py.ascii_db example_libraries
                      (Some [1; 2]) false mixed_world))) = 4%nat.
Proof. split; vm_compute; reflexivity. Qed.

(** Two parses of the scenario document, a minute apart: each reports two
    sections, and the store holds one title, two chapters, one subchapter,
    two parts and two sections after the first and after the second; the
    part of chapter II has no subchapter. *)
Lemma parse_title_xml_twice :
  let first :=
    @parse_title_xml Py.ascii_db example_libraries (xml_path 1) 1
      stored_world in
  let second :=
    @parse_title_xml Py.ascii_db example_libraries (xml_path 1) 1
      (sleep 60000 (snd first)) in
  fst first = Return 2 /\ fst second = Return 2
  /\ row_counts (committed (db (snd first))) = [1; 2; 1; 2; 2]%nat
  /\ row_counts (committed (db (snd second))) = [1; 2; 1; 2; 2]%nat
  /\ (part_subchapter_id <$> parts (committed (db (snd second))))
     = [Some 1%N; None].
Proof. repeat split; vm_compute; reflexivity. Qed.

(** Parsing the ill-formed file raises; the record of title 9 is failed,
    with the parser's message, in the working store only, and the record
    of title 3 is untouched. *)
Lemma parse_title_xml_malformed :
  let result :=
    @parse_title_xml Py.ascii_db example_libraries (xml_path 9) 9
      malformed_world in
  fst result
  = Raise {| exc_class := ScrapingError;
             exc_str := Py.lit "XML parsing failed: no element found" |}
  /\ (scraping_status <$> scraping_metadata (working (db (snd result))) !! 9)
     = Some failed
  /\ (error_message <$> scraping_metadata (working (db (snd result))) !! 9)
     = Some (Some (Py.lit "no element found"))
  /\ scraping_metadata (committed (db (snd result))) !! 9 = None
  /\ scraping_metadata (working (db (snd result))) !! 3
     = scraping_metadata (working (db malformed_world)) !! 3.
Proof. repeat split; vm_compute; reflexivity. Qed.

End OrchestratorRuns.

(** ** Further properties of the fetcher *)

Module FetcherLaws.
Import Database Env Settings Scraper Notions Examples Laws FetcherFacts.

Lemma replicate_end {A} (k : nat) (x : A) (l : list A) :
  replicate k x ++ x :: l = x :: replicate k x ++ l.
Proof. induction k as [|k IH]; [done |]. simpl. by rewrite IH. Qed.

Lemma after_requests_next w url d w2 k slept :
  db w2 = db w -> fs w2 = fs w -> http w2 = http w ->
  clock w2 = (clock w + d)%N -> requested w2 = url :: requested w ->
  after_requests w2 url k slept = after_requests w url (S k) (d + slept).
Proof.
  intros Hdb Hfs Hhttp Hclock Hreq. unfold after_requests.
  rewrite Hdb, Hfs, Hhttp, Hclock, Hreq, replicate_end. simpl.
  f_equal. lia.
Qed.

Lemma after_requests_zero w url : after_requests w url 0 0 = w.
Proof. unfold after_requests. destruct w. simpl. f_equal. lia. Qed.

(** The world in which the loop goes on after a failed attempt. *)
Lemma after_failure n url attempt w k slept :
  after_requests
    (if (attempt <? n - 1)%nat
     then sleep (RETRY_DELAY * N.of_nat (attempt + 1))
            {| db := db w; fs := fs w; clock := clock w; http := http w;
               requested := url :: requested w |}
     else {| db := db w; fs := fs w; clock := clock w; http := http w;
             requested := url :: requested w |})
    url k slept
  = after_requests w url (S k)
      ((if (attempt <? n - 1)%nat
        then RETRY_DELAY * N.of_nat (attempt + 1) else 0) + slept).
Proof.
  destruct (attempt <? n - 1)%nat; apply after_requests_next; simpl;
    try done; lia.
Qed.

Lemma outcome_after_failure n url attempt w i :
  outcome
    (if (attempt <? n - 1)%nat
     then sleep (RETRY_DELAY * N.of_nat (attempt + 1))
            {| db := db w; fs := fs w; clock := clock w; http := http w;
               requested := url :: requested w |}
     else {| db := db w; fs := fs w; clock := clock w; http := http w;
             requested := url :: requested w |})
    url i
  = outcome w url (S i).
Proof.
  destruct (attempt <? n - 1)%nat;
    [apply outcome_after_get | apply outcome_after_get'].
Qed.

(** One turn of the loop whose attempt fails. *)
Lemma request_loop_failed_turn n url k attempt last w e :
  transport_failure (outcome w url 0) = Some e ->
  request_loop n url (S k) attempt last w
  = request_loop n url k (S attempt) (Some e)
      (if (attempt <? n - 1)%nat
       then sleep (RETRY_DELAY * N.of_nat (attempt + 1))
              {| db := db w; fs := fs w; clock := clock w; http := http w;
                 requested := url :: requested w |}
       else {| db := db w; fs := fs w; clock := clock w; http := http w;
               requested := url :: requested w |}).
Proof.
  intros He. cbn [request_loop]. rewrite session_get_spec.
  unfold transport_failure in He.
  destruct (outcome w url 0) as [r|e0].
  - by rewrite He.
  - destruct (is_request_exception e0); [| done]. by simplify_eq.
Qed.

(** After [k] failed attempts the loop has made [k] requests and slept
    the backoff of [k] failures. *)
Lemma request_loop_after_failures n url k :
  forall remaining attempt last w,
  (forall i, (i < k)%nat -> is_Some (transport_failure (outcome w url i))) ->
  exists last' w',
    request_loop n url (k + remaining) attempt last w
    = request_loop n url remaining (attempt + k) last' w'
    /\ w' = after_requests w url k (backoff n attempt k)
    /\ (forall i, outcome w' url i = outcome w url (k + i))
    /\ last' = match k with
               | O => last
               | S j => transport_failure (outcome w url j)
               end.
Proof.
  induction k as [|k IH]; intros remaining attempt last w Hfail.
  - exists last, w. rewrite Nat.add_0_r, after_requests_zero. done.
  - destruct (Hfail 0%nat ltac:(lia)) as [e He].
    change (S k + remaining)%nat with (S (k + remaining)).
    rewrite (request_loop_failed_turn _ _ _ _ _ _ e He).
    match goal with
    | |- context [request_loop n url (k + remaining) (S attempt) (Some e) ?w2] =>
        destruct (IH remaining (S attempt) (Some e) w2)
          as (last' & w' & Heq & Hw & Hout & Hlast)
    end.
    { intros i Hi. rewrite outcome_after_failure. apply Hfail. lia. }
    exists last', w'. split; [| split; [| split]].
    + rewrite Heq. f_equal. lia.
    + rewrite Hw, after_failure. reflexivity.
    + intros i. rewrite Hout, outcome_after_failure. reflexivity.
    + rewrite Hlast. destruct k; [done |].
      by rewrite outcome_after_failure.
Qed.

Lemma slept_after_request w url d :
  sleep d {| db := db w; fs := fs w; clock := clock w; http := http w;
             requested := url :: requested w |}
  = after_requests w url 1 d.
Proof. reflexivity. Qed.

Lemma after_request w url :
  {| db := db w; fs := fs w; clock := clock w; http := http w;
     requested := url :: requested w |}
  = after_requests w url 1 0.
Proof. unfold after_requests. simpl. f_equal. lia. Qed.

Lemma after_requests_more w url k slept d :
  after_requests (after_requests w url k slept) url 1 d
  = after_requests w url (S k) (slept + d).
Proof.
  unfold after_requests. simpl. f_equal. lia.
Qed.

Lemma request_loop_any n url remaining :
  forall attempt last w,
  exists count slept,
    snd (request_loop n url remaining attempt last w)
    = after_requests w url count slept
    /\ (count <= remaining)%nat /\ ((0 < remaining)%nat -> (1 <= count)%nat).
Proof.
  induction remaining as [|k IH]; intros attempt last w.
  - exists 0%nat, 0%N. simpl. rewrite after_requests_zero.
    split; [done |]. lia.
  - destruct (transport_failure (outcome w url 0)) as [e|] eqn:He.
    + rewrite (request_loop_failed_turn _ _ _ _ _ _ e He).
      match goal with
      | |- context [request_loop n url k (S attempt) (Some e) ?w2] =>
          destruct (IH (S attempt) (Some e) w2) as (count & slept & Hw & Hle & _)
      end.
      rewrite Hw, after_failure. eexists (S count), _.
      split; [reflexivity |]. lia.
    + cbn [request_loop]. rewrite session_get_spec.
      unfold transport_failure in He.
      destruct (outcome w url 0) as [r|e0].
      * rewrite He. cbn [snd].
        exists 1%nat, DELAY_BETWEEN_REQUESTS. split; [| lia].
        apply slept_after_request.
      * destruct (is_request_exception e0); [done |]. cbn [snd].
        exists 1%nat, 0%N. split; [| lia].
        apply after_request.
Qed.

(** X1: whatever the server does, [_make_request] makes at least one and
    at most [MAX_RETRIES] requests, all for the URL it was given, and
    changes nothing but the clock and the list of requests: the database
    and the files are as before. *)
Theorem make_request_bounded (url : Py.str) (w : World) :
  exists (count : nat) (slept : N),
    snd (_make_request url w) = after_requests w url count slept
    /\ (1 <= count <= MAX_RETRIES)%nat.
Proof.
  unfold _make_request.
  destruct (request_loop_any MAX_RETRIES url MAX_RETRIES 0 None w)
    as (count & slept & Hw & Hle & Hge).
  exists count, slept. split; [exact Hw |].
  split; [apply Hge; unfold MAX_RETRIES; lia | exact Hle].
Qed.

(** The backoff of [k] failures of a run of three attempts, from the
    first attempt on. *)
Lemma backoff_three k :
  (k <= 2)%nat ->
  backoff MAX_RETRIES 0 k = (RETRY_DELAY * N.of_nat (k * (k + 1) / 2))%N.
Proof.
  intros Hk. destruct k as [|[|[|k]]]; [done | done | done | lia].
Qed.

(** X2: the delay grows with every retry and nothing is slept after the
    last one.  When all [MAX_RETRIES] attempts fail, [_make_request] has
    slept 1 s and 2 s, 3 s in all; when the first [k] attempts fail and the
    next succeeds, it has slept 1 s, ..., [k] s and then the fixed 0.5 s
    that follows a successful request. *)
Theorem make_request_backoff (url : Py.str) (w : World) :
  ((forall i, (i < MAX_RETRIES)%nat ->
              is_Some (transport_failure (outcome w url i))) ->
   snd (_make_request url w) = after_requests w url MAX_RETRIES 3000)
  /\ (forall (k : nat) (r : Response),
        (k < MAX_RETRIES)%nat ->
        (forall i, (i < k)%nat ->
                   is_Some (transport_failure (outcome w url i))) ->
        outcome w url k = Return r -> raise_for_status r = None ->
        snd (_make_request url w)
        = after_requests w url (S k)
            (RETRY_DELAY * N.of_nat (k * (k + 1) / 2)
             + DELAY_BETWEEN_REQUESTS)).
Proof.
  unfold _make_request. split.
  - intros Hfail.
    destruct (request_loop_after_failures MAX_RETRIES url MAX_RETRIES 0 0 None
                w Hfail) as (last' & w' & Heq & Hw & _ & _).
    rewrite Nat.add_0_r in Heq. rewrite Heq. simpl. rewrite Hw. reflexivity.
  - intros k r Hk Hfail Hok Hst.
    destruct (request_loop_after_failures MAX_RETRIES url k
                (MAX_RETRIES - k) 0 None w Hfail)
      as (last' & w' & Heq & Hw & Hout & _).
    replace (k + (MAX_RETRIES - k))%nat with MAX_RETRIES in Heq by lia.
    rewrite Heq.
    destruct (MAX_RETRIES - k)%nat as [|m] eqn:Em; [lia |].
    cbn [request_loop]. rewrite session_get_spec, Hout, Nat.add_0_r, Hok, Hst.
    cbn [snd]. rewrite slept_after_request, Hw, after_requests_more.
    by rewrite backoff_three by (unfold MAX_RETRIES in Hk; lia).
Qed.

(** X3: an exception of [session.get] that is no [RequestException] ends
    the retries: after [k] failed attempts it is raised as it is, not
    wrapped in a [ScrapingError], with no further request and no further
    sleep. *)
Theorem make_request_other_exception
    (url : Py.str) (w : World) (k : nat) (e : PyExc) :
  (k < MAX_RETRIES)%nat ->
  (forall i, (i < k)%nat -> is_Some (transport_failure (outcome w url i))) ->
  outcome w url k = Raise e -> is_request_exception e = false ->
  _make_request url w
  = (Raise e,
     after_requests w url (S k) (RETRY_DELAY * N.of_nat (k * (k + 1) / 2))).
Proof.
  intros Hk Hfail Hraise Hother. unfold _make_request.
  destruct (request_loop_after_failures MAX_RETRIES url k
              (MAX_RETRIES - k) 0 None w Hfail)
    as (last' & w' & Heq & Hw & Hout & _).
  replace (k + (MAX_RETRIES - k))%nat with MAX_RETRIES in Heq by lia.
  rewrite Heq.
  destruct (MAX_RETRIES - k)%nat as [|m] eqn:Em; [lia |].
  cbn [request_loop]. rewrite session_get_spec, Hout, Nat.add_0_r, Hraise,
    Hother.
  f_equal. rewrite after_request, Hw, after_requests_more.
  rewrite backoff_three by (unfold MAX_RETRIES in Hk; lia).
  f_equal. lia.
Qed.

Lemma make_request_backoff_witness :
  clock (snd (_make_request (Py.lit "u") always_timeout)) = 3000%N
  /\ clock (snd (_make_request (Py.lit "u") second_answers)) = 1500%N.
Proof.
  destruct (make_request_backoff (Py.lit "u") always_timeout) as [Hall _].
  destruct (make_request_backoff (Py.lit "u") second_answers) as [_ Hsome].
  split.
  - rewrite Hall; [reflexivity |]. intros i _. simpl. eauto.
  - rewrite (Hsome 1%nat ok_response); [reflexivity | ..].
    + unfold MAX_RETRIES. lia.
    + intros i Hi. assert (i = 0%nat) as -> by lia. simpl. eauto.
    + reflexivity.
    + reflexivity.
Defined.

Lemma make_request_other_exception_witness :
  _make_request (Py.lit "u") broken_after_timeout
  = (Raise value_error,
     after_requests broken_after_timeout (Py.lit "u") 2 1000).
Proof.
  apply (make_request_other_exception (Py.lit "u") broken_after_timeout
           1 value_error).
  - unfold MAX_RETRIES. lia.
  - intros i Hi. assert (i = 0%nat) as -> by lia. simpl. eauto.
  - reflexivity.
  - reflexivity.
Defined.

End FetcherLaws.

(** ** Further properties of the download *)

Module DownloadLaws.
Import Database Env Settings Scraper Notions Examples Laws FetcherFacts.
Import FetcherLaws.

Section WithLibraries.
Context {U : Py.UnicodeDB} {L : Libraries}.

(** What a download may change: the clock, the requests, and the file of
    the title. *)
Lemma download_body_frame title force w :
  let w' := snd (download_body title force w) in
  db w' = db w
  /\ (length (requested w) <= length (requested w')
      <= length (requested w) + MAX_RETRIES)%nat
  /\ (forall path, path <> xml_path title -> fs w' !! path = fs w !! path)
  /\ (force = true -> (length (requested w) < length (requested w'))%nat).
Proof.
  unfold download_body.
  destruct (bool_decide (is_Some (fs w !! xml_path title)) && negb force
            && SKIP_EXISTING) eqn:Eskip.
  - simpl. split; [done |]. split; [lia |]. split; [done |].
    intros ->. by rewrite andb_false_r in Eskip.
  - destruct (request_loop_any MAX_RETRIES (xml_url title) MAX_RETRIES 0 None w)
      as (count & slept & Hw & Hle & Hge).
    fold (_make_request (xml_url title) w) in Hw.
    destruct (_make_request (xml_url title) w) as [[response|e] w0];
      simpl in Hw; subst w0.
    2: { simpl. rewrite length_app, length_replicate.
         split; [done |]. split; [lia |]. split; [done |].
         intros _. specialize (Hge ltac:(unfold MAX_RETRIES; lia)). lia. }
    assert (forall data,
              let w2 := write_file (xml_path title) data
                          (after_requests w (xml_url title) count slept) in
              db w2 = db w
              /\ (length (requested w) <= length (requested w2)
                  <= length (requested w) + MAX_RETRIES)%nat
              /\ (forall path, path <> xml_path title ->
                               fs w2 !! path = fs w !! path)
              /\ (force = true ->
                  (length (requested w) < length (requested w2))%nat))
      as Hwrite.
    { intros data. simpl. rewrite length_app, length_replicate.
      split; [done |]. split; [lia |]. split.
      - intros path Hne. by rewrite lookup_insert_ne.
      - intros _. specialize (Hge ltac:(unfold MAX_RETRIES; lia)). lia. }
    destruct (content_length response).
    2: { simpl. rewrite length_app, length_replicate.
         split; [done |]. split; [lia |]. split; [done |].
         intros _. specialize (Hge ltac:(unfold MAX_RETRIES; lia)). lia. }
    destruct (stream_error response); [apply Hwrite |].
    unfold VALIDATE_XML.
    match goal with
    | |- context [_validate_xml ?f ?w2] =>
        destruct (_validate_xml f w2) as [[|]|]; apply Hwrite
    end.
Qed.

Lemma download_body_returns title force w xml_file w' :
  download_body title force w = (Return xml_file, w') ->
  xml_file = xml_path title.
Proof.
  unfold download_body.
  destruct (bool_decide (is_Some (fs w !! xml_path title)) && negb force
            && SKIP_EXISTING); [congruence |].
  destruct (_make_request (xml_url title) w) as [[response|e] w0];
    [| congruence].
  destruct (content_length response); [| congruence].
  destruct (stream_error response); [congruence |].
  unfold VALIDATE_XML.
  match goal with
  | |- context [_validate_xml ?f ?w2] =>
      destruct (_validate_xml f w2) as [[|]|]; congruence
  end.
Qed.

(** X4: a download, forced or not, successful or not, never touches the
    database and never writes a file other than the one of its title; it
    makes at most [MAX_RETRIES] requests, and at least one when forced.
    What it returns is the path of the title's file, and what it raises is
    a [ScrapingError] whose text starts with the title it failed for. *)
Theorem download_title_xml_frame (title : Z) (force : bool) (w : World) :
  let result := download_title_xml title force w in
  db (snd result) = db w
  /\ (length (requested w) <= length (requested (snd result))
      <= length (requested w) + MAX_RETRIES)%nat
  /\ (force = true ->
      (length (requested w) < length (requested (snd result)))%nat)
  /\ (forall path, path <> xml_path title ->
                   fs (snd result) !! path = fs w !! path)
  /\ match fst result with
     | Return xml_file => xml_file = Some (xml_path title)
     | Raise e =>
         exc_class e = ScrapingError
         /\ exists cause,
              exc_str e
              = Py.lit "Download failed for title " ++ Py.of_Z title
                ++ Py.lit ": " ++ cause
     end.
Proof.
  intros result. subst result.
  destruct (download_body_frame title force w) as (Hdb & Hreq & Hfs & Hforce).
  unfold download_title_xml.
  destruct (download_body title force w) as [[xml_file|e] w'] eqn:E;
    simpl in *.
  - do 4 (split; [done |]).
    f_equal. by eapply download_body_returns.
  - do 4 (split; [done |]). split; [done |]. by exists (exc_str e).
Qed.

Lemma make_request_fs url w : fs (snd (_make_request url w)) = fs w.
Proof.
  unfold _make_request.
  destruct (request_loop_any MAX_RETRIES url MAX_RETRIES 0 None w)
    as (count & slept & -> & _). reflexivity.
Qed.

Lemma unforced_download_existing title w :
  is_Some (fs w !! xml_path title) ->
  download_title_xml title false w = (Return (Some (xml_path title)), w).
Proof.
  intros Hex. unfold download_title_xml, download_body.
  by rewrite bool_decide_eq_true_2.
Qed.

(** A forced download up to validation: the request, the header, the
    stream and the write. *)
Lemma forced_download_written title w response w0 n :
  _make_request (xml_url title) w = (Return response, w0) ->
  content_length response = Return n ->
  stream_error response = None ->
  download_body title true w
  = let w1 := write_file (xml_path title) (concat (chunks response)) w0 in
    match _validate_xml (xml_path title) w1 with
    | Raise e => (Raise e, w1)
    | Return false => (Raise (invalid_xml title), w1)
    | Return true => (Return (xml_path title), w1)
    end.
Proof.
  intros Hreq Hlen Hstream. unfold download_body.
  rewrite andb_false_r. cbn [andb].
  rewrite Hreq, Hlen, ChangeDetectorFacts.concat_nonempty_chunks, Hstream.
  reflexivity.
Qed.

(** X5: when the bytes of a forced download are no well-formed document,
    the download raises, but the bytes stay in the title's file; the next
    unforced download finds the file, makes no request, validates nothing
    and returns it. *)
Theorem invalid_download_is_reused
    (title : Z) (w : World) (response : Response) (w0 : World) (n : Z)
    (msg : Py.str) :
  _make_request (xml_url title) w = (Return response, w0) ->
  content_length response = Return n ->
  stream_error response = None ->
  xml_parse (concat (chunks response)) = inl msg ->
  may_read w (xml_path title) = true ->
  let w1 := write_file (xml_path title) (concat (chunks response)) w0 in
  download_title_xml title true w
  = (Raise (download_failure title (invalid_xml title)), w1)
  /\ fs w1 !! xml_path title
     = Some {| content := concat (chunks response); readable := true |}
  /\ download_title_xml title false w1 = (Return (Some (xml_path title)), w1).
Proof.
  intros Hreq Hlen Hstream Hparse Hread w1.
  assert (fs w0 = fs w) as Hfs.
  { pose proof (make_request_fs (xml_url title) w) as H.
    by rewrite Hreq in H. }
  assert (fs w1 !! xml_path title
          = Some {| content := concat (chunks response); readable := true |})
    as Hfile.
  { subst w1. rewrite ChangeDetectorFacts.read_file_write_file.
    unfold may_read in Hread. rewrite Hfs. by rewrite Hread. }
  split; [| split; [exact Hfile |]].
  - unfold download_title_xml.
    rewrite (forced_download_written _ _ _ _ _ Hreq Hlen Hstream).
    cbn zeta. fold w1.
    unfold _validate_xml, et_parse, read_file. rewrite Hfile. simpl.
    by rewrite Hparse.
  - apply unforced_download_existing. rewrite Hfile. eauto.
Qed.

(** X6: a forced download that returns has made a request, has replaced
    the title's file by the bytes of the response, and has seen them
    parse: the file it returns is a well-formed document. *)
Theorem forced_download_is_validated
    (title : Z) (w : World) (xml_file : option Py.str) (w1 : World) :
  download_title_xml title true w = (Return xml_file, w1) ->
  exists (response : Response) (w0 : World) (root : ET.Element),
    _make_request (xml_url title) w = (Return response, w0)
    /\ xml_file = Some (xml_path title)
    /\ w1 = write_file (xml_path title) (concat (chunks response)) w0
    /\ xml_parse (concat (chunks response)) = inr root
    /\ et_parse (xml_path title) w1 = Return root.
Proof.
  unfold download_title_xml.
  destruct (download_body title true w) as [[f|e] w'] eqn:E; [| congruence].
  intros [= <- <-].
  unfold download_body in E. rewrite andb_false_r in E. cbn [andb] in E.
  destruct (_make_request (xml_url title) w) as [[response|e] w0];
    [| congruence].
  destruct (content_length response); [| congruence].
  rewrite ChangeDetectorFacts.concat_nonempty_chunks in E.
  destruct (stream_error response); [congruence |].
  unfold VALIDATE_XML, _validate_xml in E.
  match type of E with
  | context [et_parse ?f ?w2] =>
      destruct (et_parse f w2) as [root|e] eqn:Het
  end.
  - injection E as <- <-.
    exists response, w0, root. do 3 (split; [done |]). split; [| done].
    unfold et_parse, read_file in Het.
    rewrite ChangeDetectorFacts.read_file_write_file in Het. simpl in Het.
    destruct (match fs w0 !! xml_path title with
              | Some f => readable f
              | None => true
              end); [| congruence].
    destruct (xml_parse (concat (chunks response))); congruence.
  - destruct (exc_class e); congruence.
Qed.

End WithLibraries.

Lemma invalid_download_is_reused_witness :
  let w1 :=
    write_file (xml_path 1) garbage
      (snd (_make_request (xml_url 1) garbage_world)) in
  @download_title_xml example_libraries 1 false w1
  = (Return (Some (xml_path 1)), w1).
Proof.
  destruct (@invalid_download_is_reused example_libraries 1 garbage_world
              garbage_response
              (snd (_make_request (xml_url 1) garbage_world)) 4
              (Py.lit "syntax error")) as (_ & _ & H).
  - vm_compute. reflexivity.
  - reflexivity.
  - reflexivity.
  - reflexivity.
  - vm_compute. reflexivity.
  - exact H.
Defined.

Lemma forced_download_is_validated_witness :
  exists root : ET.Element,
    @et_parse example_libraries (xml_path 1)
      (snd (@download_title_xml example_libraries 1 true unchanged_world))
    = Return root.
Proof.
  destruct (@forced_download_is_validated example_libraries 1 unchanged_world
              (Some (xml_path 1))
              (snd (@download_title_xml example_libraries 1 true
                      unchanged_world)))
    as (response & w0 & root & _ & _ & _ & _ & Hroot).
  - rewrite (surjective_pairing
               (@download_title_xml example_libraries 1 true unchanged_world))
      at 1.
    f_equal.
  - exists root. exact Hroot.
Defined.

End DownloadLaws.

(** ** Invariants of the parser *)

Module ParserLaws.
Import Database Parser Notions Laws DatabaseFacts ReplayFacts.
Local Open Scope store_scope.

Lemma triple_ret {A} (Q : A -> Store -> Prop) (x : A) :
  triple (Q x) (ret x) Q.
Proof. intros s H. exact H. Qed.

Lemma triple_bind {A B} (P : Store -> Prop) (Q : A -> Store -> Prop)
    (R : B -> Store -> Prop) (m : M A) (k : A -> M B) :
  triple P m Q -> (forall x, triple (Q x) (k x) R) -> triple P (bind m k) R.
Proof.
  intros Hm Hk s HP. unfold bind. specialize (Hm s HP).
  destruct (m s) as [x s1]. apply (Hk x s1 Hm).
Qed.

Lemma triple_weaken {A} (P P' : Store -> Prop) (Q Q' : A -> Store -> Prop)
    (m : M A) :
  triple P m Q -> (forall s, P' s -> P s) ->
  (forall x s, Q x s -> Q' x s) -> triple P' m Q'.
Proof. intros Hm HP HQ s H. apply HQ, Hm, HP, H. Qed.

Lemma keeps_ret {A} (I : Store -> Prop) (x : A) : keeps I (ret x).
Proof. intros s H. exact H. Qed.

Lemma keeps_bind {A B} (I : Store -> Prop) (m : M A) (k : A -> M B) :
  keeps I m -> (forall x, keeps I (k x)) -> keeps I (bind m k).
Proof. intros Hm Hk. by apply (triple_bind I (fun _ => I)). Qed.

Lemma keeps_for_count {X} (I : Store -> Prop) (body : X -> M Z)
    (xs : list X) (count : Z) :
  (forall x, keeps I (body x)) -> keeps I (for_count body xs count).
Proof.
  intros Hbody. revert count.
  induction xs as [|x xs IH]; intros count; simpl.
  - apply keeps_ret.
  - apply keeps_bind; [apply Hbody |]. intros n. apply IH.
Qed.

Section Traversal.
Context {U : Py.UnicodeDB}.
Variable I : Store -> Prop.
Hypothesis title_keeps :
  forall now number name, keeps I (get_or_create_title now number name).
Hypothesis chapter_keeps :
  forall title number name, keeps I (get_or_create_chapter title number name).
Hypothesis subchapter_keeps :
  forall chapter letter name,
    keeps I (get_or_create_subchapter chapter letter name).
Hypothesis part_keeps :
  forall chapter sub number name auth src,
    keeps I (get_or_create_part chapter sub number name auth src).
Hypothesis section_keeps :
  forall part number h c a src node,
    keeps I (insert_section part number h c a src node).

Lemma process_section_keeps section_elem part_id :
  keeps I (_process_section section_elem part_id).
Proof.
  unfold _process_section.
  repeat match goal with
         | |- context [if ?c then _ else _] => destruct c
         | |- context [match ?x with Some _ => _ | None => _ end] =>
             destruct x
         end;
    try apply keeps_ret;
    (apply keeps_bind; [apply section_keeps |];
     intros; apply keeps_ret).
Qed.

Lemma process_part_keeps part_elem chapter_id subchapter_id :
  keeps I (_process_part part_elem chapter_id subchapter_id).
Proof.
  unfold _process_part.
  destruct (ET.find_child (Py.lit "HEAD") part_elem) as [part_hd|];
    [| apply keeps_ret].
  destruct (part_number_of part_elem (head_text part_hd)) as [part_number|];
    [| apply keeps_ret].
  apply keeps_bind; [apply part_keeps |].
  intros part_id. apply keeps_for_count. intros section_elem.
  apply keeps_bind; [apply process_section_keeps |].
  intros ok. apply keeps_ret.
Qed.

Lemma process_subchapter_keeps subchapter_elem chapter_id :
  keeps I (_process_subchapter subchapter_elem chapter_id).
Proof.
  unfold _process_subchapter.
  destruct (ET.find_child (Py.lit "HEAD") subchapter_elem) as [hd|];
    [| apply keeps_ret].
  match goal with |- context [if ?c then _ else _] => destruct c end;
    [| apply keeps_ret].
  apply keeps_bind; [apply subchapter_keeps |].
  intros i. apply keeps_ret.
Qed.

Lemma process_chapter_content_keeps chapter_elem chapter_id :
  keeps I (_process_chapter_content chapter_elem chapter_id).
Proof.
  unfold _process_chapter_content.
  apply keeps_bind.
  - apply keeps_for_count. intros subchapter_elem.
    apply keeps_bind; [apply process_subchapter_keeps |].
    intros subchapter_id.
    destruct (truthy_opt_id subchapter_id); [| apply keeps_ret].
    unfold _process_subchapter_content.
    apply keeps_for_count. intros part_elem. apply process_part_keeps.
  - intros records_count. apply keeps_for_count. intros part_elem.
    apply process_part_keeps.
Qed.

Lemma process_chapter_keeps chapter_elem title_id :
  keeps I (_process_chapter chapter_elem title_id).
Proof.
  unfold _process_chapter.
  destruct (ET.find_child (Py.lit "HEAD") chapter_elem) as [hd|];
    [| apply keeps_ret].
  match goal with |- context [if ?c then _ else _] => destruct c end;
    [| apply keeps_ret].
  apply keeps_bind; [apply chapter_keeps |].
  intros i. apply keeps_ret.
Qed.

(** An invariant of the five persistence operations is an invariant of
    the parse of any document. *)
Lemma parse_root_keeps now root title_number :
  keeps I (parse_root now root title_number).
Proof.
  unfold parse_root.
  apply keeps_bind; [apply title_keeps |].
  intros title_id. apply keeps_for_count. intros chapter_elem.
  apply keeps_bind; [apply process_chapter_keeps |].
  intros chapter_id.
  destruct (truthy_opt_id chapter_id);
    [apply process_chapter_content_keeps | apply keeps_ret].
Qed.

End Traversal.

Lemma NoDup_snoc_fresh {A} (l : list A) (x : A) :
  NoDup l -> x ∉ l -> NoDup (l ++ [x]).
Proof.
  intros Hl Hx. apply NoDup_app. split; [done |]. split.
  - intros y Hy Hin. apply list_elem_of_singleton in Hin. by subst.
  - apply NoDup_singleton.
Qed.

(** A lookup by natural key that finds nothing: no row has the key. *)
Lemma fetchone_None_key {R K} (key : R -> K) (matches : R -> bool) (k : K)
    (table : list R) :
  (forall r, key r = k -> matches r = true) ->
  fetchone matches table = None -> k ∉ key <$> table.
Proof.
  intros Hm Hn Hin. apply list_elem_of_fmap in Hin as (r & -> & Hr).
  destruct (fetchone_exists matches table r Hr (Hm r eq_refl)) as [x Hx].
  congruence.
Qed.

Lemma next_rowid_not_in (ids : list rowid) : next_rowid ids ∉ ids.
Proof. intros Hin. apply next_rowid_fresh in Hin. lia. Qed.

Lemma pair_update_section i h c a src node table :
  section_pair <$> update_section_where_id i (set_section_fields h c a src node)
                     table
  = section_pair <$> table.
Proof.
  unfold update_section_where_id. rewrite <- list_fmap_compose.
  apply list_fmap_ext. intros j r _. simpl.
  by destruct (bool_decide (section_id r = i)).
Qed.

Lemma id_update_section i h c a src node table :
  section_id <$> update_section_where_id i (set_section_fields h c a src node)
                   table
  = section_id <$> table.
Proof.
  unfold update_section_where_id. rewrite <- list_fmap_compose.
  apply list_fmap_ext. intros j r _. simpl.
  by destruct (bool_decide (section_id r = i)).
Qed.

Ltac key_matches :=
  intros ? Hkey; cbn in Hkey; repeat (apply andb_true_iff; split);
  apply bool_decide_eq_true_2; congruence.

Lemma title_keeps_unique_keys now number name :
  keeps unique_keys (get_or_create_title now number name).
Proof.
  intros s [H1 H2 H3 H4 H5]. unfold get_or_create_title.
  destruct (fetchone (title_matches number) (titles s)) eqn:E;
    split; simpl; try done.
  rewrite fmap_app. apply NoDup_snoc_fresh; [done |].
  apply (fetchone_None_key title_number (title_matches number));
    [| exact E].
  unfold title_matches. key_matches.
Qed.

Lemma chapter_keeps_unique_keys title number name :
  keeps unique_keys (get_or_create_chapter title number name).
Proof.
  intros s [H1 H2 H3 H4 H5]. unfold get_or_create_chapter.
  destruct (fetchone (chapter_matches title number) (chapters s)) eqn:E;
    split; simpl; try done.
  rewrite fmap_app. apply NoDup_snoc_fresh; [done |].
  apply (fetchone_None_key chapter_key (chapter_matches title number));
    [| exact E].
  unfold chapter_matches, chapter_key. key_matches.
Qed.

Lemma subchapter_keeps_unique_keys chapter letter name :
  keeps unique_keys (get_or_create_subchapter chapter letter name).
Proof.
  intros s [H1 H2 H3 H4 H5]. unfold get_or_create_subchapter.
  destruct (fetchone (subchapter_matches chapter letter) (subchapters s))
    eqn:E; split; simpl; try done.
  rewrite fmap_app. apply NoDup_snoc_fresh; [done |].
  apply (fetchone_None_key subchapter_key (subchapter_matches chapter letter));
    [| exact E].
  unfold subchapter_matches, subchapter_key. key_matches.
Qed.

Lemma part_keeps_unique_keys chapter sub number name auth src :
  keeps unique_keys (get_or_create_part chapter sub number name auth src).
Proof.
  intros s [H1 H2 H3 H4 H5]. unfold get_or_create_part.
  destruct (fetchone (part_matches chapter number) (parts s)) eqn:E;
    split; simpl; try done.
  rewrite fmap_app. apply NoDup_snoc_fresh; [done |].
  apply (fetchone_None_key part_key (part_matches chapter number));
    [| exact E].
  unfold part_matches, part_key. key_matches.
Qed.

Lemma section_keeps_unique_keys part number h c a src node :
  keeps unique_keys (insert_section part number h c a src node).
Proof.
  intros s [H1 H2 H3 H4 H5]. unfold insert_section.
  destruct (fetchone (section_matches part number) (sections s)) eqn:E;
    split; simpl; try done.
  - by rewrite pair_update_section.
  - rewrite fmap_app. apply NoDup_snoc_fresh; [done |].
    apply (fetchone_None_key section_pair (section_matches part number));
      [| exact E].
    unfold section_matches, section_pair. key_matches.
Qed.

Ltac fresh_id :=
  rewrite fmap_app; apply NoDup_snoc_fresh; [done | apply next_rowid_not_in].

Lemma title_keeps_unique_ids now number name :
  keeps unique_ids (get_or_create_title now number name).
Proof.
  intros s [H1 H2 H3 H4 H5]. unfold get_or_create_title.
  destruct (fetchone (title_matches number) (titles s));
    split; simpl; try done. fresh_id.
Qed.

Lemma chapter_keeps_unique_ids title number name :
  keeps unique_ids (get_or_create_chapter title number name).
Proof.
  intros s [H1 H2 H3 H4 H5]. unfold get_or_create_chapter.
  destruct (fetchone (chapter_matches title number) (chapters s));
    split; simpl; try done. fresh_id.
Qed.

Lemma subchapter_keeps_unique_ids chapter letter name :
  keeps unique_ids (get_or_create_subchapter chapter letter name).
Proof.
  intros s [H1 H2 H3 H4 H5]. unfold get_or_create_subchapter.
  destruct (fetchone (subchapter_matches chapter letter) (subchapters s));
    split; simpl; try done. fresh_id.
Qed.

Lemma part_keeps_unique_ids chapter sub number name auth src :
  keeps unique_ids (get_or_create_part chapter sub number name auth src).
Proof.
  intros s [H1 H2 H3 H4 H5]. unfold get_or_create_part.
  destruct (fetchone (part_matches chapter number) (parts s));
    split; simpl; try done. fresh_id.
Qed.

Lemma section_keeps_unique_ids part number h c a src node :
  keeps unique_ids (insert_section part number h c a src node).
Proof.
  intros s [H1 H2 H3 H4 H5]. unfold insert_section.
  destruct (fetchone (section_matches part number) (sections s));
    split; simpl; try done.
  - by rewrite id_update_section.
  - fresh_id.
Qed.

Lemma triple_frame {A} (P F : Store -> Prop) (Q : A -> Store -> Prop)
    (m : M A) :
  grows m -> stable F -> triple P m Q ->
  triple (fun s => P s /\ F s) m (fun x s => Q x s /\ F s).
Proof.
  intros Hg HF Hm s [HP HFs]. split; [by apply Hm |].
  eapply HF; [apply Hg | done].
Qed.

Lemma stable_and (F G : Store -> Prop) :
  stable F -> stable G -> stable (fun s => F s /\ G s).
Proof. intros HF HG a b Hext [Ha Hb]. split; eauto. Qed.

Lemma stable_has_title i : stable (fun s => has_title s i).
Proof.
  intros a b [[k Hk] _ _ _ _] (r & Hr & Hi). exists r. split; [| done].
  rewrite Hk. apply elem_of_app. by left.
Qed.

Lemma stable_has_chapter i : stable (fun s => has_chapter s i).
Proof.
  intros a b [_ [k Hk] _ _ _] (r & Hr & Hi). exists r. split; [| done].
  rewrite Hk. apply elem_of_app. by left.
Qed.

Lemma stable_has_subchapter_of c i : stable (fun s => has_subchapter_of s c i).
Proof.
  intros a b [_ _ [k Hk] _ _] (r & Hr & Hi). exists r. split; [| done].
  rewrite Hk. apply elem_of_app. by left.
Qed.

Lemma stable_has_part i : stable (fun s => has_part s i).
Proof.
  intros a b [_ _ _ [k Hk] _] (r & Hr & Hi). exists r. split; [| done].
  rewrite Hk. apply elem_of_app. by left.
Qed.

Lemma stable_subchapter_ok c sub : stable (fun s => subchapter_ok s c sub).
Proof.
  destruct sub as [i|]; [apply stable_has_subchapter_of | by intros a b _ _].
Qed.

(** Referential integrity survives the growth of the tables above the
    sections by rows whose own references are met. *)
Lemma referential_grows (s s' : Store) :
  referential s -> Notions.extends s s' ->
  (forall r, r ∈ chapters s' ->
             r ∈ chapters s \/ has_title s' (chapter_title_id r)) ->
  (forall r, r ∈ subchapters s' ->
             r ∈ subchapters s \/ has_chapter s' (subchapter_chapter_id r)) ->
  (forall r, r ∈ parts s' ->
             r ∈ parts s
             \/ (has_chapter s' (part_chapter_id r)
                 /\ subchapter_ok s' (part_chapter_id r)
                      (part_subchapter_id r))) ->
  (forall r, r ∈ sections s' -> has_part s' (section_part_id r)) ->
  referential s'.
Proof.
  intros [R1 R2 R3 R4 R5] Hext N1 N2 N3 N5. split; [| | | | exact N5].
  - intros r Hr. destruct (N1 r Hr) as [Hin | Hnew]; [| done].
    eapply (stable_has_title _ s); [done | by apply R1].
  - intros r Hr. destruct (N2 r Hr) as [Hin | Hnew]; [| done].
    eapply (stable_has_chapter _ s); [done | by apply R2].
  - intros r Hr. destruct (N3 r Hr) as [Hin | [Hnew _]]; [| done].
    eapply (stable_has_chapter _ s); [done | by apply R3].
  - intros r i Hr Hi. destruct (N3 r Hr) as [Hin | [_ Hok]].
    + eapply (stable_has_subchapter_of _ _ s); [done | by eapply R4].
    + by rewrite Hi in Hok.
Qed.

Lemma title_referential now number name :
  triple referential (get_or_create_title now number name)
    (fun i s => referential s /\ has_title s i).
Proof.
  intros s Href. split.
  - apply (referential_grows s); [done | | | | |].
    + apply (proj1 (replays_get_or_create_title now now number name)).
    + intros r Hr. left. revert Hr. unfold get_or_create_title.
      by destruct (fetchone (title_matches number) (titles s)).
    + intros r Hr. left. revert Hr. unfold get_or_create_title.
      by destruct (fetchone (title_matches number) (titles s)).
    + intros r Hr. left. revert Hr. unfold get_or_create_title.
      by destruct (fetchone (title_matches number) (titles s)).
    + intros r Hr.
      assert (r ∈ sections s) as Hold.
      { revert Hr. unfold get_or_create_title.
        by destruct (fetchone (title_matches number) (titles s)). }
      destruct (sections_have_parts s Href r Hold) as (p & Hp & Hid).
      exists p. split; [| done]. unfold get_or_create_title.
      by destruct (fetchone (title_matches number) (titles s)).
  - destruct (title_after now number name s) as (r & Hr & Hid).
    apply fetchone_Some in Hr as [Hin _]. by exists r.
Qed.

Lemma chapter_referential title number name :
  triple (fun s => referential s /\ has_title s title)
    (get_or_create_chapter title number name)
    (fun i s => referential s /\ has_chapter s i).
Proof.
  intros s [Href Htitle]. split.
  - apply (referential_grows s); [done | | | | |].
    + apply (proj1 (replays_get_or_create_chapter title number name)).
    + intros r. unfold get_or_create_chapter.
      destruct (fetchone (chapter_matches title number) (chapters s));
        simpl; [by left |].
      intros [Hold | ->%list_elem_of_singleton]%elem_of_app; [by left |].
      right. exact Htitle.
    + intros r Hr. left. revert Hr. unfold get_or_create_chapter.
      by destruct (fetchone (chapter_matches title number) (chapters s)).
    + intros r Hr. left. revert Hr. unfold get_or_create_chapter.
      by destruct (fetchone (chapter_matches title number) (chapters s)).
    + intros r Hr.
      assert (r ∈ sections s) as Hold.
      { revert Hr. unfold get_or_create_chapter.
        by destruct (fetchone (chapter_matches title number) (chapters s)). }
      destruct (sections_have_parts s Href r Hold) as (p & Hp & Hid).
      exists p. split; [| done]. unfold get_or_create_chapter.
      by destruct (fetchone (chapter_matches title number) (chapters s)).
  - destruct (chapter_after title number name s) as (r & Hr & Hid).
    apply fetchone_Some in Hr as [Hin _]. by exists r.
Qed.

Lemma subchapter_referential chapter letter name :
  triple (fun s => referential s /\ has_chapter s chapter)
    (get_or_create_subchapter chapter letter name)
    (fun i s => referential s /\ has_subchapter_of s chapter i).
Proof.
  intros s [Href Hchapter]. split.
  - apply (referential_grows s); [done | | | | |].
    + apply (proj1 (replays_get_or_create_subchapter chapter letter name)).
    + intros r Hr. left. revert Hr. unfold get_or_create_subchapter.
      by destruct (fetchone (subchapter_matches chapter letter)
                     (subchapters s)).
    + intros r. unfold get_or_create_subchapter.
      destruct (fetchone (subchapter_matches chapter letter) (subchapters s));
        simpl; [by left |].
      intros [Hold | ->%list_elem_of_singleton]%elem_of_app; [by left |].
      right. exact Hchapter.
    + intros r Hr. left. revert Hr. unfold get_or_create_subchapter.
      by destruct (fetchone (subchapter_matches chapter letter)
                     (subchapters s)).
    + intros r Hr.
      assert (r ∈ sections s) as Hold.
      { revert Hr. unfold get_or_create_subchapter.
        by destruct (fetchone (subchapter_matches chapter letter)
                       (subchapters s)). }
      destruct (sections_have_parts s Href r Hold) as (p & Hp & Hid).
      exists p. split; [| done]. unfold get_or_create_subchapter.
      by destruct (fetchone (subchapter_matches chapter letter)
                     (subchapters s)).
  - destruct (subchapter_after chapter letter name s) as (r & Hr & Hid).
    apply fetchone_Some in Hr as [Hin Hm].
    exists r. split; [done |]. split; [done |].
    unfold subchapter_matches in Hm. apply andb_true_iff in Hm as [Hc _].
    by apply bool_decide_eq_true in Hc.
Qed.

Lemma part_referential chapter sub number name auth src :
  triple (fun s => referential s /\ has_chapter s chapter
                   /\ subchapter_ok s chapter sub)
    (get_or_create_part chapter sub number name auth src)
    (fun i s => referential s /\ has_part s i).
Proof.
  intros s (Href & Hchapter & Hsub). split.
  - apply (referential_grows s); [done | | | | |].
    + apply (proj1 (replays_get_or_create_part chapter sub number name auth
                      src)).
    + intros r Hr. left. revert Hr. unfold get_or_create_part.
      by destruct (fetchone (part_matches chapter number) (parts s)).
    + intros r Hr. left. revert Hr. unfold get_or_create_part.
      by destruct (fetchone (part_matches chapter number) (parts s)).
    + intros r. unfold get_or_create_part.
      destruct (fetchone (part_matches chapter number) (parts s));
        simpl; [by left |].
      intros [Hold | ->%list_elem_of_singleton]%elem_of_app; [by left |].
      right. simpl. split; [exact Hchapter |].
      destruct sub; exact Hsub.
    + intros r Hr.
      assert (r ∈ sections s) as Hold.
      { revert Hr. unfold get_or_create_part.
        by destruct (fetchone (part_matches chapter number) (parts s)). }
      eapply (stable_has_part _ s).
      * apply (proj1 (replays_get_or_create_part chapter sub number name auth
                        src)).
      * by apply (sections_have_parts s Href).
  - destruct (part_after chapter sub number name auth src s) as (r & Hr & Hid).
    apply fetchone_Some in Hr as [Hin _]. by exists r.
Qed.

Lemma section_referential part number h c a src node :
  triple (fun s => referential s /\ has_part s part)
    (insert_section part number h c a src node)
    (fun _ s => referential s).
Proof.
  intros s [Href Hpart].
  apply (referential_grows s); [done | | | | |].
  - apply insert_section_extends.
  - intros r Hr. left. revert Hr. unfold insert_section.
    by destruct (fetchone (section_matches part number) (sections s)).
  - intros r Hr. left. revert Hr. unfold insert_section.
    by destruct (fetchone (section_matches part number) (sections s)).
  - intros r Hr. left. revert Hr. unfold insert_section.
    by destruct (fetchone (section_matches part number) (sections s)).
  - intros r. unfold insert_section.
    destruct (fetchone (section_matches part number) (sections s)) as [row|];
      simpl.
    + unfold update_section_where_id.
      intros (r0 & -> & Hr0)%list_elem_of_fmap.
      assert (section_part_id
                (if bool_decide (section_id r0 = section_id row)
                 then set_section_fields h c a src node r0 else r0)
              = section_part_id r0) as ->
        by (by destruct (bool_decide (section_id r0 = section_id row))).
      by apply (sections_have_parts s Href).
    + intros [Hold | ->%list_elem_of_singleton]%elem_of_app.
      * by apply (sections_have_parts s Href).
      * exact Hpart.
Qed.

Lemma keeps_framed {A} (G F : Store -> Prop) (m : M A) :
  grows m -> stable G -> stable F ->
  triple (fun s => referential s /\ G s) m (fun _ s => referential s) ->
  keeps (fun s => referential s /\ G s /\ F s) m.
Proof.
  intros Hg HG HF Hm s (Hr & HGs & HFs).
  split; [by apply Hm |]. split; [eapply HG | eapply HF]; eauto.
Qed.

Lemma stable_True : stable (fun _ => True).
Proof. by intros a b _ _. Qed.

Section Integrity.
Context {U : Py.UnicodeDB}.

Lemma process_section_referential section_elem part_id :
  triple (fun s => referential s /\ has_part s part_id)
    (_process_section section_elem part_id) (fun _ s => referential s).
Proof.
  unfold _process_section.
  repeat match goal with
         | |- context [if ?c then _ else _] => destruct c
         | |- context [match ?x with Some _ => _ | None => _ end] =>
             destruct x
         end;
    try (by intros s [Hr _]);
    (eapply triple_bind; [apply section_referential |];
     intros _ s0 Hr0; exact Hr0).
Qed.

Lemma process_part_referential part_elem chapter_id subchapter_id :
  triple (fun s => referential s /\ has_chapter s chapter_id
                   /\ subchapter_ok s chapter_id subchapter_id)
    (_process_part part_elem chapter_id subchapter_id)
    (fun _ s => referential s).
Proof.
  unfold _process_part.
  destruct (ET.find_child (Py.lit "HEAD") part_elem) as [part_hd|];
    [| by intros s [Hr _]].
  destruct (part_number_of part_elem (head_text part_hd)) as [part_number|];
    [| by intros s [Hr _]].
  eapply triple_bind; [apply part_referential |].
  intros part_id.
  eapply triple_weaken with
    (P := fun s => referential s /\ has_part s part_id /\ True)
    (Q := fun _ s => referential s /\ has_part s part_id /\ True).
  - apply keeps_for_count. intros section_elem.
    apply keeps_bind; [| intros ok; apply keeps_ret].
    apply keeps_framed.
    + exact (proj1 (replays_process_section section_elem part_id)).
    + apply stable_has_part.
    + apply stable_True.
    + apply process_section_referential.
  - intros s [Hr Hp]. done.
  - intros _ s (Hr & _). exact Hr.
Qed.

Lemma process_subchapter_referential subchapter_elem chapter_id :
  triple (fun s => referential s /\ has_chapter s chapter_id)
    (_process_subchapter subchapter_elem chapter_id)
    (fun o s => referential s /\ subchapter_ok s chapter_id o).
Proof.
  unfold _process_subchapter.
  destruct (ET.find_child (Py.lit "HEAD") subchapter_elem) as [hd|];
    [| by intros s [Hr _]].
  match goal with |- context [if ?c then _ else _] => destruct c end;
    [| by intros s [Hr _]].
  eapply triple_bind; [apply subchapter_referential |].
  intros i s H. exact H.
Qed.

Lemma process_subchapter_content_referential subchapter_elem chapter_id i :
  triple (fun s => referential s /\ has_chapter s chapter_id
                   /\ has_subchapter_of s chapter_id i)
    (_process_subchapter_content subchapter_elem chapter_id i)
    (fun _ s => referential s).
Proof.
  unfold _process_subchapter_content.
  eapply triple_weaken with
    (P := fun s => referential s
                   /\ (has_chapter s chapter_id
                       /\ subchapter_ok s chapter_id (Some i)) /\ True)
    (Q := fun _ s => referential s
                     /\ (has_chapter s chapter_id
                         /\ subchapter_ok s chapter_id (Some i)) /\ True).
  - apply keeps_for_count. intros part_elem.
    apply keeps_framed.
    + exact (proj1 (replays_process_part part_elem chapter_id (Some i))).
    + apply stable_and;
        [apply stable_has_chapter | apply stable_subchapter_ok].
    + apply stable_True.
    + eapply triple_weaken; [apply process_part_referential | |].
      * intros s (Hr & Hc & Hs). done.
      * done.
  - intros s (Hr & Hc & Hs). done.
  - intros _ s (Hr & _). exact Hr.
Qed.

Lemma truthy_opt_id_Some o i : truthy_opt_id o = Some i -> o = Some i.
Proof.
  unfold truthy_opt_id. destruct o as [j|]; [| done].
  by destruct (truthy_id j).
Qed.

Lemma process_chapter_content_referential chapter_elem chapter_id :
  triple (fun s => referential s /\ has_chapter s chapter_id)
    (_process_chapter_content chapter_elem chapter_id)
    (fun _ s => referential s).
Proof.
  unfold _process_chapter_content.
  eapply triple_weaken with
    (P := fun s => referential s /\ has_chapter s chapter_id /\ True)
    (Q := fun _ s => referential s /\ has_chapter s chapter_id /\ True).
  - apply keeps_bind.
    + apply keeps_for_count. intros subchapter_elem.
      eapply triple_bind with
      (Q := fun o s => (referential s
                             /\ subchapter_ok s chapter_id o)
                            /\ has_chapter s chapter_id).
      * eapply triple_weaken.
        -- apply triple_frame with (F := fun s => has_chapter s chapter_id).
           ++ exact (proj1 (replays_process_subchapter subchapter_elem
                              chapter_id)).
           ++ apply stable_has_chapter.
           ++ apply process_subchapter_referential.
        -- intros s (Hr & Hc & _). done.
        -- done.
      * intros o. destruct (truthy_opt_id o) as [i|] eqn:Eo.
        -- apply truthy_opt_id_Some in Eo as ->.
           eapply triple_weaken.
           ++ apply triple_frame with (F := fun s => has_chapter s chapter_id).
              ** exact (proj1 (replays_process_subchapter_content
                                 subchapter_elem chapter_id i)).
              ** apply stable_has_chapter.
              ** apply process_subchapter_content_referential.
           ++ intros s ((Hr & Hs) & Hc). done.
           ++ intros _ s (Hr & Hc). done.
        -- intros s ((Hr & _) & Hc). done.
    + intros records_count. apply keeps_for_count. intros part_elem.
      eapply triple_weaken.
      * apply triple_frame with (F := fun s => has_chapter s chapter_id).
        -- exact (proj1 (replays_process_part part_elem chapter_id None)).
        -- apply stable_has_chapter.
        -- apply process_part_referential.
      * intros s (Hr & Hc & _). done.
      * intros _ s (Hr & Hc). done.
  - intros s (Hr & Hc). done.
  - intros _ s (Hr & _). exact Hr.
Qed.

Lemma process_chapter_referential chapter_elem title_id :
  triple (fun s => referential s /\ has_title s title_id)
    (_process_chapter chapter_elem title_id)
    (fun o s => referential s
                /\ match o with
                   | Some i => has_chapter s i
                   | None => True
                   end).
Proof.
  unfold _process_chapter.
  destruct (ET.find_child (Py.lit "HEAD") chapter_elem) as [hd|];
    [| by intros s [Hr _]].
  match goal with |- context [if ?c then _ else _] => destruct c end;
    [| by intros s [Hr _]].
  eapply triple_bind; [apply chapter_referential |].
  intros i s H. exact H.
Qed.

(** Parsing a document into a store with referential integrity leaves a
    store with referential integrity. *)
Lemma parse_root_referential now root title_number :
  keeps referential (parse_root now root title_number).
Proof.
  unfold parse_root.
  eapply triple_bind; [apply title_referential |].
  intros title_id.
  eapply triple_weaken with
    (P := fun s => referential s /\ has_title s title_id)
    (Q := fun _ s => referential s /\ has_title s title_id).
  - apply keeps_for_count. intros chapter_elem.
    eapply triple_bind with
      (Q := fun o s => (referential s
                           /\ match o with
                              | Some i => has_chapter s i
                              | None => True
                              end)
                          /\ has_title s title_id).
    + eapply triple_weaken.
      * apply triple_frame with (F := fun s => has_title s title_id).
        -- exact (proj1 (replays_process_chapter chapter_elem title_id)).
        -- apply stable_has_title.
        -- apply process_chapter_referential.
      * intros s (Hr & Ht). done.
      * done.
    + intros o. destruct (truthy_opt_id o) as [i|] eqn:Eo.
      * apply truthy_opt_id_Some in Eo as ->.
        eapply triple_weaken.
        -- apply triple_frame with (F := fun s => has_title s title_id).
           ++ exact (proj1 (replays_process_chapter_content chapter_elem i)).
           ++ apply stable_has_title.
           ++ apply process_chapter_content_referential.
        -- intros s ((Hr & Hc) & Ht). done.
        -- intros _ s (Hr & Ht). done.
      * intros s ((Hr & _) & Ht). done.
  - done.
  - intros _ s (Hr & _). exact Hr.
Qed.

End Integrity.
End ParserLaws.

(** ** The transaction of a parse under storage faults *)

Module TransactionFacts.
Import Database Env Settings Scraper Parser Notions Examples Laws.
Import OrchestratorFacts ReplayFacts ParserLaws.

Lemma record_metadata_cases answers title status size hash error records w :
  (exists msg rest,
     record_metadata answers title status size hash error records w
     = (Some (metadata_failure msg), rest, w))
  \/ (exists rest,
        record_metadata answers title status size hash error records w
        = (None, rest, recorded title status size hash error records w)).
Proof.
  unfold record_metadata, next_answer.
  destruct answers as [|[msg|] rest]; eauto.
Qed.

Lemma next_answer_cases answers :
  (exists msg rest, next_answer answers = (Some msg, rest))
  \/ (exists rest, next_answer answers = (None, rest)).
Proof. destruct answers as [|[msg|] rest]; simpl; eauto. Qed.

Lemma title_statements_cases answers title s :
  (exists msg rest,
     title_statements answers title s = (Some (title_failure msg), rest))
  \/ (exists rest, title_statements answers title s = (None, rest)).
Proof.
  unfold title_statements.
  destruct (next_answer_cases answers) as [(msg & rest & ->) | (rest & ->)];
    [eauto |].
  destruct (fetchone (title_matches title) (titles s)); [eauto |].
  destruct (next_answer_cases rest) as [(msg & rest' & ->) | (rest' & ->)];
    eauto.
Qed.

Section WithLibraries.
Context {U : Py.UnicodeDB} {L : Libraries}.


(** The [try] block when it is left with an exception: no request, no
    file written, no sleep, nothing committed, and the open transaction
    as [left_open] describes. *)
Lemma parse_body_raises answers xml_file title w e rest w1 :
  parse_body answers xml_file title w = (Raise e, rest, w1) ->
  fs w1 = fs w /\ clock w1 = clock w /\ http w1 = http w
  /\ requested w1 = requested w
  /\ committed (db w1) = committed (db w)
  /\ left_open title (clock w) (working (db w)) (working (db w1)).
Proof.
  unfold parse_body.
  destruct (stat_size xml_file w) as [size|e0].
  2: { intros [= <- <- <-]. do 5 (split; [done |]). constructor. }
  set (hash := calculate_file_hash xml_file w).
  destruct (record_metadata_cases answers title in_progress (Some size)
              (Some hash) None 0 w) as [(msg & r1 & ->) | (r1 & ->)].
  { intros [= <- <- <-]. do 5 (split; [done |]). constructor. }
  set (w0 := recorded title in_progress (Some size) (Some hash) None 0 w).
  destruct (et_parse xml_file w0) as [root|e0].
  2: { intros [= <- <- <-]. do 5 (split; [done |]). apply left_started. }
  destruct (title_statements_cases r1 title (working (db w0)))
    as [(msg & r2 & ->) | (r2 & ->)].
  { intros [= <- <- <-]. do 5 (split; [done |]). apply left_started. }
  destruct (parse_root (clock w0) root title (working (db w0)))
    as [n store] eqn:Eroot.
  set (w2 := with_db w0 _).
  destruct (record_metadata_cases r2 title completed (Some size)
              (Some hash) None n w2) as [(msg & r3 & ->) | (r3 & ->)].
  { intros [= <- <- <-]. do 5 (split; [done |]).
    pose proof (left_parsed title (clock w) (working (db w)) (Some size)
                  (Some hash) root) as Hleft.
    change (clock w) with (clock w0) in Hleft at 2.
    change (update_scraping_metadata (clock w) title in_progress (Some size)
              (Some hash) None 0 (working (db w)))
      with (working (db w0)) in Hleft.
    rewrite Eroot in Hleft. exact Hleft. }
  destruct (next_answer_cases r3) as [(msg & r4 & ->) | (r4 & ->)];
    [| discriminate].
  intros [= <- <- <-]. do 5 (split; [done |]).
  pose proof (left_completed title (clock w) (working (db w)) (Some size)
                (Some hash) root) as Hleft.
  cbn zeta in Hleft.
  change (update_scraping_metadata (clock w) title in_progress (Some size)
            (Some hash) None 0 (working (db w)))
    with (working (db w0)) in Hleft.
  change (parse_root (clock w) root title (working (db w0)))
    with (parse_root (clock w0) root title (working (db w0))) in Hleft.
  rewrite Eroot in Hleft. exact Hleft.
Qed.

(** The [try] block when it returns: every statement was carried out, the
    last of them [commit()]. *)
Lemma parse_body_returns answers xml_file title w n rest w1 :
  parse_body answers xml_file title w = (Return n, rest, w1) ->
  exists (size : Z) (root : ET.Element),
    stat_size xml_file w = Return size
    /\ et_parse xml_file w = Return root
    /\ let hash := Some (calculate_file_hash xml_file w) in
       let started :=
         update_scraping_metadata (clock w) title in_progress (Some size)
           hash None 0 (working (db w)) in
       let parsed := parse_root (clock w) root title started in
       let final :=
         update_scraping_metadata (clock w) title completed (Some size)
           hash None (fst parsed) (snd parsed) in
       n = fst parsed
       /\ w1 = with_db w {| committed := final; working := final |}.
Proof.
  unfold parse_body.
  destruct (stat_size xml_file w) as [size|e0]; [| discriminate].
  set (hash := calculate_file_hash xml_file w).
  destruct (record_metadata_cases answers title in_progress (Some size)
              (Some hash) None 0 w) as [(msg & r1 & ->) | (r1 & ->)];
    [discriminate |].
  set (w0 := recorded title in_progress (Some size) (Some hash) None 0 w).
  assert (et_parse xml_file w0 = et_parse xml_file w) as -> by done.
  destruct (et_parse xml_file w) as [root|e0]; [| discriminate].
  destruct (title_statements_cases r1 title (working (db w0)))
    as [(msg & r2 & ->) | (r2 & ->)]; [discriminate |].
  change (clock w0) with (clock w).
  change (working (db w0))
    with (update_scraping_metadata (clock w) title in_progress (Some size)
            (Some hash) None 0 (working (db w))).
  destruct (parse_root (clock w) root title _) as [n' store] eqn:Eroot.
  set (w2 := with_db w0 _).
  destruct (record_metadata_cases r2 title completed (Some size)
              (Some hash) None n' w2) as [(msg & r3 & ->) | (r3 & ->)];
    [discriminate |].
  destruct (next_answer_cases r3) as [(msg & r4 & ->) | (r4 & ->)];
    [discriminate |].
  intros [= <- <- <-]. exists size, root. split; [done |]. split; [done |].
  cbn zeta. rewrite Eroot. done.
Qed.



Lemma extends_recorded now t st sz h e r s :
  extends s (update_scraping_metadata now t st sz h e r s).
Proof. by constructor. Qed.

Lemma left_open_extends title now s s' :
  left_open title now s s' -> extends s s'.
Proof.
  intros Hleft.
  destruct Hleft as [| size hash | size hash root | size hash root].
  - apply extends_refl.
  - apply extends_recorded.
  - eapply extends_trans; [apply extends_recorded |].
    apply (proj1 (replays_parse_root now now root title)).
  - subst parsed.
    eapply extends_trans; [apply extends_recorded |].
    eapply extends_trans; [| apply extends_recorded].
    apply (proj1 (replays_parse_root now now root title)).
Qed.

Lemma left_open_keeps (I : Store -> Prop) title now s s' :
  ignores_metadata I ->
  (forall now root t, keeps I (parse_root now root t)) ->
  left_open title now s s' -> I s -> I s'.
Proof.
  intros Hmeta Hroot Hleft Hs.
  destruct Hleft as [| size hash | size hash root | size hash root].
  - done.
  - by apply Hmeta.
  - by apply Hroot, Hmeta.
  - by apply Hmeta, Hroot, Hmeta.
Qed.

(** [parse_title_xml] when it raises: what the [try] block left open, and
    what the handler made of it. *)
Lemma parse_title_xml_on_raises answers xml_file title w e w' :
  parse_title_xml_on answers xml_file title w = (Raise e, w') ->
  fs w' = fs w /\ clock w' = clock w /\ http w' = http w
  /\ requested w' = requested w
  /\ committed (db w') = committed (db w)
  /\ exists left : Store,
       left_open title (clock w) (working (db w)) left
       /\ ((exists cause : PyExc,
              e = parsing_failure cause
              /\ working (db w')
                 = update_scraping_metadata (clock w) title failed None None
                     (Some (exc_str cause)) 0 left)
           \/ (exists msg : Py.str,
                 e = metadata_failure msg /\ working (db w') = left)).
Proof.
  unfold parse_title_xml_on.
  destruct (parse_body answers xml_file title w) as [[[n|cause] rest] w1]
    eqn:Ebody; [discriminate |].
  apply parse_body_raises in Ebody
    as (Hfs & Hclock & Hhttp & Hreq & Hcommitted & Hleft).
  destruct (record_metadata_cases rest title failed None None
              (Some (exc_str cause)) 0 w1) as [(msg & r & ->) | (r & ->)];
    intros [= <- <-].
  - do 5 (split; [done |]). exists (working (db w1)).
    split; [exact Hleft |]. right. by exists msg.
  - do 4 (split; [done |]). split; [exact Hcommitted |].
    exists (working (db w1)). split; [exact Hleft |]. left.
    exists cause. split; [done |]. simpl. by rewrite Hclock.
Qed.

Lemma parse_title_xml_on_returns answers xml_file title w n w' :
  parse_title_xml_on answers xml_file title w = (Return n, w') ->
  exists (size : Z) (root : ET.Element),
    stat_size xml_file w = Return size
    /\ et_parse xml_file w = Return root
    /\ let hash := Some (calculate_file_hash xml_file w) in
       let started :=
         update_scraping_metadata (clock w) title in_progress (Some size)
           hash None 0 (working (db w)) in
       let parsed := parse_root (clock w) root title started in
       let final :=
         update_scraping_metadata (clock w) title completed (Some size)
           hash None (fst parsed) (snd parsed) in
       n = fst parsed
       /\ w' = with_db w {| committed := final; working := final |}.
Proof.
  unfold parse_title_xml_on.
  destruct (parse_body answers xml_file title w) as [[[m|cause] rest] w1]
    eqn:Ebody.
  - intros [= <- <-]. by eapply parse_body_returns.
  - by destruct (record_metadata rest title failed None None
                   (Some (exc_str cause)) 0 w1) as [[[e'|] r] w2].
Qed.


End WithLibraries.


(** When [commit()] fails nothing is committed, but nothing is rolled
    back either: the rows of the whole document are in the open
    transaction, next to the record of the failure. *)
Lemma parse_title_xml_commit_fails :
  let result :=
    @parse_title_xml_on Py.ascii_db example_libraries commit_fails
      (xml_path 1) 1 stored_world in
  fst result
  = Raise (parsing_failure (commit_failure (Py.lit "disk I/O error")))
  /\ row_counts (committed (db (snd result))) = [0; 0; 0; 0; 0]%nat
  /\ row_counts (working (db (snd result))) = [1; 2; 1; 2; 2]%nat
  /\ (scraping_status <$> scraping_metadata (working (db (snd result))) !! 1)
     = Some failed
  /\ scraping_metadata (committed (db (snd result))) !! 1 = None.
Proof. repeat split; vm_compute; reflexivity. Qed.

End TransactionFacts.

(** ** Further properties of a parse and of a run *)

Module OrchestratorLaws.
Import Database Env Settings Scraper Parser Notions Examples Laws.
Import OrchestratorFacts ReplayFacts ParserLaws DownloadLaws.
Import TransactionFacts.

Lemma ignores_metadata_unique_keys : ignores_metadata unique_keys.
Proof. intros now t st sz h e r s [H1 H2 H3 H4 H5]. by constructor. Qed.

Lemma ignores_metadata_unique_ids : ignores_metadata unique_ids.
Proof. intros now t st sz h e r s [H1 H2 H3 H4 H5]. by constructor. Qed.

Lemma ignores_metadata_referential : ignores_metadata referential.
Proof. intros now t st sz h e r s [H1 H2 H3 H4 H5]. by constructor. Qed.

Lemma extends_metadata now t st sz h e r s :
  extends s (update_scraping_metadata now t st sz h e r s).
Proof. by constructor. Qed.

Lemma referential_empty : referential empty_store.
Proof.
  constructor; simpl.
  - intros r Hin. by apply elem_of_nil in Hin.
  - intros r Hin. by apply elem_of_nil in Hin.
  - intros r Hin. by apply elem_of_nil in Hin.
  - intros r i Hin. by apply elem_of_nil in Hin.
  - intros r Hin. by apply elem_of_nil in Hin.
Qed.

Section WithLibraries.
Context {U : Py.UnicodeDB} {L : Libraries}.

Lemma parse_root_keeps_unique_keys now root title :
  keeps unique_keys (parse_root now root title).
Proof.
  apply parse_root_keeps.
  - apply title_keeps_unique_keys.
  - apply chapter_keeps_unique_keys.
  - apply subchapter_keeps_unique_keys.
  - apply part_keeps_unique_keys.
  - apply section_keeps_unique_keys.
Qed.

Lemma parse_root_keeps_unique_ids now root title :
  keeps unique_ids (parse_root now root title).
Proof.
  apply parse_root_keeps.
  - apply title_keeps_unique_ids.
  - apply chapter_keeps_unique_ids.
  - apply subchapter_keeps_unique_ids.
  - apply part_keeps_unique_ids.
  - apply section_keeps_unique_ids.
Qed.

(** An invariant of the tables that every parse of a document keeps is
    kept by [parse_title_xml], whether it returns or raises and whatever
    the storage answers, both in what is committed and in what the open
    transaction sees. *)
Lemma parse_title_xml_on_keeps (I : Store -> Prop) answers xml_file title w :
  ignores_metadata I ->
  (forall now root t, keeps I (parse_root now root t)) ->
  on_connection I (db w) ->
  on_connection I (db (snd (parse_title_xml_on answers xml_file title w))).
Proof.
  intros Hmeta Hroot [Hc Hw].
  destruct (parse_title_xml_on answers xml_file title w) as [[n|e] w']
    eqn:Eparse; cbn [snd].
  - apply parse_title_xml_on_returns in Eparse
      as (size & root & _ & _ & _ & ->).
    simpl. split; by apply Hmeta, Hroot, Hmeta.
  - apply parse_title_xml_on_raises in Eparse
      as (_ & _ & _ & _ & Hcommitted & left & Hleft & Hhandler).
    split; [by rewrite Hcommitted |].
    pose proof (left_open_keeps I _ _ _ _ Hmeta Hroot Hleft Hw) as Hl.
    destruct Hhandler as [(cause & _ & ->) | (msg & _ & ->)];
      [by apply Hmeta | done].
Qed.

Lemma parse_title_xml_keeps (I : Store -> Prop) xml_file title w :
  ignores_metadata I ->
  (forall now root t, keeps I (parse_root now root t)) ->
  on_connection I (db w) ->
  on_connection I (db (snd (parse_title_xml xml_file title w))).
Proof. apply parse_title_xml_on_keeps. Qed.

(** X7: [parse_title_xml] keeps natural keys unique.  When no two titles
    share a number, no two chapters of a title a label, no two subchapters
    of a chapter a letter, no two parts of a chapter a number and no two
    sections of a part a section number, the same holds after the call,
    for any document, whether the call returns or raises, in what is
    committed and in what the open transaction sees. *)
Theorem parse_title_xml_keeps_unique_keys
    (xml_file : Py.str) (title : Z) (w : World) :
  on_connection unique_keys (db w) ->
  on_connection unique_keys (db (snd (parse_title_xml xml_file title w))).
Proof.
  apply parse_title_xml_keeps.
  - apply ignores_metadata_unique_keys.
  - apply parse_root_keeps_unique_keys.
Qed.

(** X8: [parse_title_xml] keeps row identities unique: the identity
    [lastrowid] gives a new row is one no row of its table has. *)
Theorem parse_title_xml_keeps_unique_ids
    (xml_file : Py.str) (title : Z) (w : World) :
  on_connection unique_ids (db w) ->
  on_connection unique_ids (db (snd (parse_title_xml xml_file title w))).
Proof.
  apply parse_title_xml_keeps.
  - apply ignores_metadata_unique_ids.
  - apply parse_root_keeps_unique_ids.
Qed.

(** X9: [parse_title_xml] keeps the hierarchy whole.  When every chapter
    row names a title row, every subchapter row a chapter row, every part
    row a chapter row and, if it names a subchapter, a subchapter of that
    chapter, and every section row a part row, the same holds after the
    call: the traversal hands each [get_or_create_*] and [insert_section]
    the identity of a row that exists. *)
Theorem parse_title_xml_keeps_references
    (xml_file : Py.str) (title : Z) (w : World) :
  on_connection referential (db w) ->
  on_connection referential (db (snd (parse_title_xml xml_file title w))).
Proof.
  apply parse_title_xml_keeps.
  - apply ignores_metadata_referential.
  - apply parse_root_referential.
Qed.


End WithLibraries.

Lemma parse_title_xml_keeps_unique_keys_witness :
  on_connection unique_keys
    (db (snd (@parse_title_xml Py.ascii_db example_libraries
                (xml_path 1) 1 stored_world))).
Proof.
  apply parse_title_xml_keeps_unique_keys.
  split; constructor; apply NoDup_nil_2.
Defined.

Lemma parse_title_xml_keeps_unique_ids_witness :
  on_connection unique_ids
    (db (snd (@parse_title_xml Py.ascii_db example_libraries
                (xml_path 1) 1 stored_world))).
Proof.
  apply parse_title_xml_keeps_unique_ids.
  split; constructor; apply NoDup_nil_2.
Defined.

Lemma parse_title_xml_keeps_references_witness :
  on_connection referential
    (db (snd (@parse_title_xml Py.ascii_db example_libraries
                (xml_path 1) 1 stored_world))).
Proof.
  apply parse_title_xml_keeps_references.
  split; apply referential_empty.
Defined.

End OrchestratorLaws.

(** ** What the count of a parse counts *)

Module CountLaws.
Import Database Env Settings Scraper Parser Notions Examples Laws.
Import TransactionFacts.

Lemma title_adds_no_section now number name :
  adds_no_section (get_or_create_title now number name).
Proof.
  intros s. unfold get_or_create_title.
  by destruct (fetchone (title_matches number) (titles s)).
Qed.

Lemma chapter_adds_no_section title number name :
  adds_no_section (get_or_create_chapter title number name).
Proof.
  intros s. unfold get_or_create_chapter.
  by destruct (fetchone (chapter_matches title number) (chapters s)).
Qed.

Lemma subchapter_adds_no_section chapter letter name :
  adds_no_section (get_or_create_subchapter chapter letter name).
Proof.
  intros s. unfold get_or_create_subchapter.
  by destruct (fetchone (subchapter_matches chapter letter) (subchapters s)).
Qed.

Lemma part_adds_no_section chapter sub number name auth src :
  adds_no_section (get_or_create_part chapter sub number name auth src).
Proof.
  intros s. unfold get_or_create_part.
  by destruct (fetchone (part_matches chapter number) (parts s)).
Qed.

Lemma insert_section_length part number h c a src node s :
  (length (sections (snd (insert_section part number h c a src node s)))
   <= length (sections s) + 1)%nat.
Proof.
  unfold insert_section.
  destruct (fetchone (section_matches part number) (sections s)); simpl.
  - unfold update_section_where_id. rewrite length_fmap. lia.
  - rewrite length_app. simpl. lia.
Qed.

Lemma counted_ret_zero : counted (ret 0).
Proof. intros s. simpl. lia. Qed.

Lemma counted_after_lookup {A} (m : M A) (k : A -> M Z) :
  adds_no_section m -> (forall x, counted (k x)) -> counted (bind m k).
Proof.
  intros Hm Hk s. unfold bind. specialize (Hm s).
  destruct (m s) as [x s1]. simpl in Hm. rewrite <- Hm. apply Hk.
Qed.

Lemma adds_no_section_ret {A} (x : A) : adds_no_section (ret x).
Proof. by intros s. Qed.

Lemma adds_no_section_bind {A B} (m : M A) (k : A -> M B) :
  adds_no_section m -> (forall x, adds_no_section (k x)) ->
  adds_no_section (bind m k).
Proof.
  intros Hm Hk s. unfold bind. specialize (Hm s).
  destruct (m s) as [x s1]. simpl in Hm. rewrite <- Hm. apply Hk.
Qed.

(** A counting loop returns the running count plus what its turns
    counted. *)
Lemma for_count_counts {X} (body : X -> M Z) (xs : list X) :
  (forall x, counted (body x)) ->
  forall count s,
    count <= fst (for_count body xs count s)
    /\ (length (sections (snd (for_count body xs count s)))
        <= length (sections s)
           + Z.to_nat (fst (for_count body xs count s) - count))%nat.
Proof.
  intros Hbody. induction xs as [|x xs IH]; intros count s; simpl.
  - rewrite Z.sub_diag. simpl. lia.
  - unfold bind. destruct (Hbody x s) as [H0 Hl].
    destruct (body x s) as [n s1]. simpl in H0, Hl.
    destruct (IH (count + n) s1) as [H1 H2]. split; lia.
Qed.

Lemma counted_for_count {X} (body : X -> M Z) (xs : list X) :
  (forall x, counted (body x)) -> counted (for_count body xs 0).
Proof.
  intros Hbody s. destruct (for_count_counts body xs Hbody 0 s) as [H1 H2].
  rewrite Z.sub_0_r in H2. done.
Qed.

Lemma counted_then_loop {X} (m : M Z) (body : X -> M Z) (xs : list X) :
  counted m -> (forall x, counted (body x)) ->
  counted (bind m (fun n => for_count body xs n)).
Proof.
  intros Hm Hbody s. unfold bind. destruct (Hm s) as [H0 Hl].
  destruct (m s) as [n s1]. simpl in H0, Hl.
  destruct (for_count_counts body xs Hbody n s1) as [H1 H2]. split; lia.
Qed.

Section WithUnicode.
Context {U : Py.UnicodeDB}.

Lemma process_section_counted section_elem part_id :
  counted (bind (_process_section section_elem part_id)
             (fun ok => ret (if ok then 1 else 0))).
Proof.
  intros s. unfold _process_section.
  repeat match goal with
         | |- context [if ?c then _ else _] => destruct c
         | |- context [match ?x with Some _ => _ | None => _ end] =>
             destruct x
         end;
    try (simpl; lia);
    (unfold bind, ret;
     match goal with
     | |- context [insert_section ?p ?n ?h ?c ?a ?src ?node s] =>
         pose proof (insert_section_length p n h c a src node s) as Hlen;
         destruct (insert_section p n h c a src node s) as [i s1]
     end; simpl in *; lia).
Qed.

Lemma process_part_counted part_elem chapter_id subchapter_id :
  counted (_process_part part_elem chapter_id subchapter_id).
Proof.
  unfold _process_part.
  destruct (ET.find_child (Py.lit "HEAD") part_elem) as [part_hd|];
    [| apply counted_ret_zero].
  destruct (part_number_of part_elem (head_text part_hd)) as [part_number|];
    [| apply counted_ret_zero].
  apply counted_after_lookup; [apply part_adds_no_section |].
  intros part_id. apply counted_for_count. intros section_elem.
  apply process_section_counted.
Qed.

Lemma process_subchapter_adds_no_section subchapter_elem chapter_id :
  adds_no_section (_process_subchapter subchapter_elem chapter_id).
Proof.
  unfold _process_subchapter.
  destruct (ET.find_child (Py.lit "HEAD") subchapter_elem) as [hd|];
    [| apply adds_no_section_ret].
  match goal with |- context [if ?c then _ else _] => destruct c end;
    [| apply adds_no_section_ret].
  apply adds_no_section_bind; [apply subchapter_adds_no_section |].
  intros i. apply adds_no_section_ret.
Qed.

Lemma process_chapter_adds_no_section chapter_elem title_id :
  adds_no_section (_process_chapter chapter_elem title_id).
Proof.
  unfold _process_chapter.
  destruct (ET.find_child (Py.lit "HEAD") chapter_elem) as [hd|];
    [| apply adds_no_section_ret].
  match goal with |- context [if ?c then _ else _] => destruct c end;
    [| apply adds_no_section_ret].
  apply adds_no_section_bind; [apply chapter_adds_no_section |].
  intros i. apply adds_no_section_ret.
Qed.

Lemma process_subchapter_content_counted subchapter_elem chapter_id i :
  counted (_process_subchapter_content subchapter_elem chapter_id i).
Proof.
  unfold _process_subchapter_content. apply counted_for_count.
  intros part_elem. apply process_part_counted.
Qed.

Lemma process_chapter_content_counted chapter_elem chapter_id :
  counted (_process_chapter_content chapter_elem chapter_id).
Proof.
  unfold _process_chapter_content. apply counted_then_loop.
  - apply counted_for_count. intros subchapter_elem.
    apply counted_after_lookup; [apply process_subchapter_adds_no_section |].
    intros o. destruct (truthy_opt_id o);
      [apply process_subchapter_content_counted | apply counted_ret_zero].
  - intros part_elem. apply process_part_counted.
Qed.

Lemma parse_root_counted now root title_number :
  counted (parse_root now root title_number).
Proof.
  unfold parse_root.
  apply counted_after_lookup; [apply title_adds_no_section |].
  intros title_id. apply counted_for_count. intros chapter_elem.
  apply counted_after_lookup; [apply process_chapter_adds_no_section |].
  intros o. destruct (truthy_opt_id o);
    [apply process_chapter_content_counted | apply counted_ret_zero].
Qed.

Context {L : Libraries}.


End WithUnicode.
End CountLaws.

(** ** Whole runs *)

Module RunLaws.
Import Database Env Settings Scraper Parser Notions Examples Laws.
Import OrchestratorFacts ReplayFacts ParserLaws DownloadLaws.
Import TransactionFacts OrchestratorLaws CountLaws.

Lemma ignores_metadata_well_formed : ignores_metadata well_formed.
Proof.
  intros now t st sz h e r s [H1 H2 H3]. constructor.
  - by apply ignores_metadata_unique_keys.
  - by apply ignores_metadata_unique_ids.
  - by apply ignores_metadata_referential.
Qed.

Lemma well_formed_empty : well_formed empty_store.
Proof.
  constructor.
  - constructor; apply NoDup_nil_2.
  - constructor; apply NoDup_nil_2.
  - apply referential_empty.
Qed.

Section WithLibraries.
Context {U : Py.UnicodeDB} {L : Libraries}.

Lemma parse_root_keeps_well_formed now root title :
  keeps well_formed (parse_root now root title).
Proof.
  intros s [H1 H2 H3]. constructor.
  - by apply parse_root_keeps_unique_keys.
  - by apply parse_root_keeps_unique_ids.
  - by apply parse_root_referential.
Qed.

(** What a download leaves alone. *)
Lemma download_title_xml_quiet title force w :
  let w' := snd (download_title_xml title force w) in
  db w' = db w
  /\ (length (requested w) <= length (requested w')
      <= length (requested w) + MAX_RETRIES)%nat
  /\ forall path, path <> xml_path title -> fs w' !! path = fs w !! path.
Proof.
  destruct (download_body_frame title force w) as (Hdb & Hreq & Hfs & _).
  unfold download_title_xml.
  destruct (download_body title force w) as [[xml_file|e] w1]; done.
Qed.

(** What a parse leaves alone, and the sign of its count. *)
Lemma parse_title_xml_quiet xml_file title w :
  let result := parse_title_xml xml_file title w in
  requested (snd result) = requested w
  /\ fs (snd result) = fs w
  /\ extends (working (db w)) (working (db (snd result)))
  /\ match fst result with
     | Return n => 0 <= n
     | Raise _ => True
     end.
Proof.
  unfold parse_title_xml.
  destruct (parse_title_xml_on [] xml_file title w) as [[n|e] w'] eqn:Eparse;
    cbn [fst snd].
  - apply parse_title_xml_on_returns in Eparse
      as (size & root & _ & _ & Hn & ->).
    cbn zeta in Hn. simpl. do 2 (split; [done |]). split.
    + eapply extends_trans; [apply extends_metadata |].
      eapply extends_trans; [| apply extends_metadata].
      apply (proj1 (replays_parse_root (clock w) (clock w) root title)).
    + rewrite Hn. apply parse_root_counted.
  - apply parse_title_xml_on_raises in Eparse
      as (Hfs & _ & _ & Hreq & _ & left & Hleft & Hhandler).
    do 2 (split; [done |]). split; [| done].
    apply left_open_extends in Hleft.
    destruct Hhandler as [(cause & _ & ->) | (msg & _ & ->)]; [| done].
    eapply extends_trans; [exact Hleft | apply extends_metadata].
Qed.

(** One turn of the loop of [scrape_all_titles]. *)
Lemma scrape_title_step force t results w :
  let acc := scrape_title force t (results, w) in
  (exists n, 0 <= n /\ fst acc = <[ t := n ]> results)
  /\ extends (working (db w)) (working (db (snd acc)))
  /\ (length (requested w) <= length (requested (snd acc))
      <= length (requested w) + MAX_RETRIES)%nat
  /\ (forall path, path <> xml_path t ->
                   fs (snd acc) !! path = fs w !! path)
  /\ (on_connection well_formed (db w) ->
      on_connection well_formed (db (snd acc))).
Proof.
  unfold scrape_title.
  destruct (download_title_xml_quiet t force w) as (Hdb & Hreq & Hfs).
  destruct (download_title_xml t force w) as [[[xml_file|]|e] w1];
    simpl in Hdb, Hreq, Hfs.
  2, 3: simpl; rewrite Hdb; split; [exists 0; split; [lia | done] |];
        split; [apply extends_refl |]; done.
  destruct (parse_title_xml_quiet xml_file t w1) as (Hreq2 & Hfs2 & Hext & Hn).
  pose proof (parse_title_xml_keeps well_formed xml_file t w1
                ignores_metadata_well_formed parse_root_keeps_well_formed)
    as Hkeeps.
  rewrite Hdb in Hext, Hkeeps.
  destruct (parse_title_xml xml_file t w1) as [[n|e] w2];
    simpl in Hreq2, Hfs2, Hext, Hn, Hkeeps; simpl; rewrite Hreq2, Hfs2.
  - split; [exists n; done |]. done.
  - split; [exists 0; split; [lia | done] |]. done.
Qed.

Lemma scrape_from_step force ts results w :
  let acc := scrape_from force ts (results, w) in
  dom (fst acc) = list_to_set ts ∪ dom results
  /\ (map_Forall (fun _ n => 0 <= n) results ->
      map_Forall (fun _ n => 0 <= n) (fst acc))
  /\ extends (working (db w)) (working (db (snd acc)))
  /\ (length (requested w) <= length (requested (snd acc))
      <= length (requested w) + MAX_RETRIES * length ts)%nat
  /\ (forall path, (forall t, t ∈ ts -> path <> xml_path t) ->
                   fs (snd acc) !! path = fs w !! path)
  /\ (on_connection well_formed (db w) ->
      on_connection well_formed (db (snd acc))).
Proof.
  revert results w. induction ts as [|t ts IH]; intros results w.
  - simpl. split; [by rewrite (left_id_L ∅ (∪)) |]. split; [done |].
    split; [apply extends_refl |]. split; [lia |]. done.
  - rewrite scrape_from_cons.
    destruct (scrape_title_step force t results w)
      as ((n & Hn & Hres) & Hext & Hreq & Hfs & Hwf).
    destruct (scrape_title force t (results, w)) as [results1 w1].
    simpl in Hres, Hext, Hreq, Hfs, Hwf. subst results1.
    destruct (IH (<[ t := n ]> results) w1)
      as (Hdom & Hpos & Hext2 & Hreq2 & Hfs2 & Hwf2).
    split; [| split; [| split; [| split; [| split]]]].
    + rewrite Hdom, dom_insert_L. simpl.
      rewrite (comm_L (∪) {[ t ]} (list_to_set ts)).
      by rewrite (assoc_L (∪)).
    + intros Hall. apply Hpos. by apply map_Forall_insert_2.
    + by eapply extends_trans.
    + unfold MAX_RETRIES in *. cbn [length]. lia.
    + intros path Hpath. rewrite Hfs2.
      * apply Hfs, Hpath, list_elem_of_here.
      * intros u Hu. by apply Hpath, list_elem_of_further.
    + auto.
Qed.

(** What a change check leaves alone. *)
Lemma check_for_updates_quiet title w :
  let w' := snd (check_for_updates title w) in
  db w' = db w
  /\ (length (requested w) <= length (requested w')
      <= length (requested w) + MAX_RETRIES)%nat
  /\ forall path, path <> xml_path title -> fs w' !! path = fs w !! path.
Proof.
  unfold check_for_updates, check_for_updates_with.
  destruct (get_scraping_metadata title (working (db w))) as [metadata|].
  - destruct (download_title_xml_quiet title true w) as (Hdb & Hreq & Hfs).
    destruct (download_title_xml title true w) as [[[xml_file|]|e] w1]; done.
  - simpl. split; [done |]. split; [lia | done].
Qed.

(** The checking loop of [incremental_update] over [ts]. *)
Lemma checking_quiet ts updated w :
  db (snd (fold_left
             (fun acc t =>
                let '(updated, w0) := acc in
                let '(changed, w') := check_for_updates t w0 in
                (if changed then updated ++ [t] else updated, w'))
             ts (updated, w)))
  = db w.
Proof.
  revert updated w. induction ts as [|t ts IH]; intros updated w; [done |].
  cbn [fold_left].
  destruct (check_for_updates_quiet t w) as (Hdb & _).
  destruct (check_for_updates t w) as [changed w1]. simpl in Hdb.
  by rewrite IH.
Qed.

Lemma checking_without_records ts updated w :
  (forall t, t ∈ ts -> get_scraping_metadata t (working (db w)) = None) ->
  fold_left
    (fun acc t =>
       let '(updated, w0) := acc in
       let '(changed, w') := check_for_updates t w0 in
       (if changed then updated ++ [t] else updated, w'))
    ts (updated, w)
  = (updated ++ ts, w).
Proof.
  revert updated. induction ts as [|t ts IH]; intros updated Hnone.
  - by rewrite app_nil_r.
  - cbn [fold_left]. unfold check_for_updates at 2, check_for_updates_with.
    rewrite (Hnone t) by apply list_elem_of_here.
    rewrite IH.
    + by rewrite <- app_assoc.
    + intros u Hu. by apply Hnone, list_elem_of_further.
Qed.


(** X13: a run of [scrape_all_titles] makes at most [MAX_RETRIES] requests
    for each title it processes, writes no file but those of these
    titles, and deletes or moves no row of the entity tables, whatever
    fails on the way. *)
Theorem scrape_all_titles_frame
    (title_numbers : option (list Z)) (force_download : bool) (w : World) :
  let w' := snd (scrape_all_titles title_numbers force_download w) in
  extends (working (db w)) (working (db w'))
  /\ (length (requested w) <= length (requested w')
      <= length (requested w)
         + MAX_RETRIES * length (titles_to_process title_numbers))%nat
  /\ forall path,
       (forall t, t ∈ titles_to_process title_numbers ->
                  path <> xml_path t) ->
       fs w' !! path = fs w !! path.
Proof.
  unfold scrape_all_titles.
  fold (scrape_from force_download (titles_to_process title_numbers) (∅, w)).
  destruct (scrape_from_step force_download
              (titles_to_process title_numbers) ∅ w)
    as (_ & _ & Hext & Hreq & Hfs & _).
  done.
Qed.

(** X14: a run keeps the database well formed.  When natural keys and row
    identities are unique and every reference is met, in what is
    committed and in what the open transaction sees, the same holds after
    [scrape_all_titles] and after [incremental_update], whatever the
    server sends and whichever titles fail. *)
Theorem run_keeps_well_formed
    (title_numbers : option (list Z)) (force_download : bool) (w : World) :
  on_connection well_formed (db w) ->
  on_connection well_formed
    (db (snd (scrape_all_titles title_numbers force_download w)))
  /\ on_connection well_formed (db (snd (incremental_update w))).
Proof.
  intros Hwf. split.
  - unfold scrape_all_titles.
    fold (scrape_from force_download (titles_to_process title_numbers)
            (∅, w)).
    by apply scrape_from_step.
  - unfold incremental_update.
    pose proof (checking_quiet CFR_TITLES [] w) as Hdb.
    match type of Hdb with
    | db (snd ?checked) = _ => destruct checked as [updated_titles w1]
    end.
    simpl in Hdb. destruct updated_titles as [|t ts].
    + simpl. by rewrite Hdb.
    + unfold scrape_all_titles.
      fold (scrape_from true (titles_to_process (Some (t :: ts))) (∅, w1)).
      apply scrape_from_step. by rewrite Hdb.
Qed.

(** X15: on a database with no Ingestion Record for any of the 50 titles,
    [incremental_update] makes no request to find out what changed: it
    takes every title as changed and is a forced run of
    [scrape_all_titles] over all of them. *)
Theorem incremental_update_first_run (w : World) :
  (forall t, t ∈ CFR_TITLES ->
             get_scraping_metadata t (working (db w)) = None) ->
  incremental_update w = scrape_all_titles None true w.
Proof.
  intros Hnone. unfold incremental_update.
  rewrite (checking_without_records CFR_TITLES [] w Hnone).
  rewrite app_nil_l. unfold scrape_all_titles, titles_to_process.
  by destruct CFR_TITLES.
Qed.

(** X16: [check_for_updates] never writes to the database, whatever it
    answers: it makes at most [MAX_RETRIES] requests and changes no file
    but the downloaded document of its title, which the forced download
    overwrites. *)
Theorem check_for_updates_frame (title : Z) (w : World) :
  let w' := snd (check_for_updates title w) in
  db w' = db w
  /\ (length (requested w) <= length (requested w')
      <= length (requested w) + MAX_RETRIES)%nat
  /\ forall path, path <> xml_path title -> fs w' !! path = fs w !! path.
Proof. apply check_for_updates_quiet. Qed.

End WithLibraries.

Lemma run_keeps_well_formed_witness :
  on_connection well_formed
    (db (snd (@scrape_all_titles Py.ascii_db example_libraries
                (Some [1; 2]) false mixed_world)))
  /\ on_connection well_formed
       (db (snd (@incremental_update Py.ascii_db example_libraries
                   mixed_world))).
Proof.
  apply run_keeps_well_formed.
  split; apply well_formed_empty.
Defined.

Lemma incremental_update_first_run_witness :
  @incremental_update Py.ascii_db example_libraries mixed_world
  = @scrape_all_titles Py.ascii_db example_libraries None true mixed_world.
Proof.
  apply incremental_update_first_run.
  intros t _. reflexivity.
Defined.

End RunLaws.

(** ** The change detector after a parse *)

Module ChangeLaws.
Import Database Env Settings Scraper Parser Notions Examples Laws.
Import OrchestratorFacts.

Section WithLibraries.
Context {U : Py.UnicodeDB} {L : Libraries}.

(** The record a parse that returns leaves for its title holds the
    fingerprint of the file as it was when the parse began. *)
Lemma parse_title_xml_records_hash xml_file title w n w1 :
  parse_title_xml xml_file title w = (Return n, w1) ->
  file_hash <$> get_scraping_metadata title (working (db w1))
  = Some (Some (calculate_file_hash xml_file w)).
Proof.
  rewrite parse_title_xml_cases.
  destruct (stat_size xml_file w) as [size|e]; [| done].
  cbn zeta. destruct (et_parse xml_file w) as [root|e]; [| done].
  intros [= _ <-]. unfold get_scraping_metadata. simpl.
  by rewrite lookup_insert_eq.
Qed.

(** The record a parse that raises leaves for its title holds no
    fingerprint. *)
Lemma parse_title_xml_failure_record xml_file title w e w1 :
  parse_title_xml xml_file title w = (Raise e, w1) ->
  file_hash <$> get_scraping_metadata title (working (db w1)) = Some None.
Proof.
  rewrite parse_title_xml_cases.
  destruct (stat_size xml_file w) as [size|e0].
  - cbn zeta. destruct (et_parse xml_file w) as [root|e0]; [done |].
    intros [= _ <-]. unfold get_scraping_metadata. simpl.
    by rewrite lookup_insert_eq.
  - intros [= _ <-]. unfold get_scraping_metadata. simpl.
    by rewrite lookup_insert_eq.
Qed.

(** X17: the fingerprint [parse_title_xml] stores is the one
    [check_for_updates] compares with.  After a parse that returned, a
    check whose forced download brings back the bytes that were parsed
    answers false: the title is not taken as changed. *)
Theorem unchanged_after_parse
    (parsed_file xml_file : Py.str) (title n : Z) (w w1 w2 : World) :
  parse_title_xml parsed_file title w = (Return n, w1) ->
  download_title_xml title true w1 = (Return (Some xml_file), w2) ->
  read_file xml_file w2 = read_file parsed_file w ->
  check_for_updates title w1 = (false, w2).
Proof.
  intros Hparse Hdown Hread.
  apply parse_title_xml_records_hash in Hparse.
  unfold check_for_updates, check_for_updates_with.
  destruct (get_scraping_metadata title (working (db w1))) as [metadata|];
    [| done].
  rewrite Hdown. injection Hparse as Hhash. rewrite Hhash.
  unfold calculate_file_hash. rewrite Hread.
  by rewrite bool_decide_eq_true_2.
Qed.

(** X18: a parse that raised is tried again.  The record it leaves holds
    no fingerprint, so as long as that record stands [check_for_updates]
    answers true for the title, whatever the server sends. *)
Theorem failed_parse_is_checked_again
    (xml_file : Py.str) (title : Z) (e : PyExc) (w w1 w2 : World) :
  parse_title_xml xml_file title w = (Raise e, w1) ->
  get_scraping_metadata title (working (db w2))
  = get_scraping_metadata title (working (db w1)) ->
  fst (check_for_updates title w2) = true.
Proof.
  intros Hparse Hsame. apply parse_title_xml_failure_record in Hparse.
  rewrite <- Hsame in Hparse.
  unfold check_for_updates, check_for_updates_with.
  destruct (get_scraping_metadata title (working (db w2))) as [metadata|];
    [| done].
  injection Hparse as Hhash. unfold download_title_xml.
  destruct (download_body title true w2) as [[xml_file'|e'] w3]; [| done].
  simpl. by rewrite Hhash.
Qed.

End WithLibraries.

Lemma unchanged_after_parse_witness :
  @check_for_updates example_libraries 1 served_parsed
  = (false, served_fetched).
Proof.
  apply (@unchanged_after_parse Py.ascii_db example_libraries
           (xml_path 1) (xml_path 1) 1 2 served_world served_parsed
           served_fetched).
  - apply injective_projections; [vm_compute; reflexivity |].
    cbn [snd]. reflexivity.
  - apply injective_projections; [vm_compute; reflexivity |].
    cbn [snd]. reflexivity.
  - vm_compute. reflexivity.
Defined.

Lemma failed_parse_is_checked_again_witness :
  fst (@check_for_updates example_libraries 9 malformed_parsed) = true.
Proof.
  apply (@failed_parse_is_checked_again Py.ascii_db example_libraries
           (xml_path 9) 9
           {| exc_class := ScrapingError;
              exc_str := Py.lit "XML parsing failed: no element found" |}
           malformed_world malformed_parsed malformed_parsed).
  - apply injective_projections; [vm_compute; reflexivity |].
    cbn [snd]. reflexivity.
  - reflexivity.
Defined.

End ChangeLaws.

(** ** Further properties of the persistence layer and of the texts *)

Module StorageLaws.
Import Database Parser Notions Examples Laws DatabaseFacts ReplayFacts.
Import TextFacts.

(** X19: the first encounter names a title, a chapter and a subchapter
    for good.  A second [get_or_create_title], [get_or_create_chapter] or
    [get_or_create_subchapter] for the same natural key returns the
    identity the first returned and leaves the store as the first left
    it, whatever name it carries and whenever it is made. *)
Theorem get_or_create_second_call (s : Store) :
  (forall now now' number name name',
     let first := get_or_create_title now number name s in
     get_or_create_title now' number name' (snd first)
     = (fst first, snd first))
  /\ (forall title number name name',
        let first := get_or_create_chapter title number name s in
        get_or_create_chapter title number name' (snd first)
        = (fst first, snd first))
  /\ (forall chapter letter name name',
        let first := get_or_create_subchapter chapter letter name s in
        get_or_create_subchapter chapter letter name' (snd first)
        = (fst first, snd first)).
Proof.
  split; [| split].
  - intros now now' number name name'. unfold get_or_create_title.
    destruct (fetchone (title_matches number) (titles s)) as [row|] eqn:E;
      cbn [fst snd titles].
    + by rewrite E.
    + erewrite fetchone_app_new; [reflexivity | exact E |].
      unfold title_matches. cbn [title_number].
      by rewrite bool_decide_eq_true_2.
  - intros title number name name'. unfold get_or_create_chapter.
    destruct (fetchone (chapter_matches title number) (chapters s))
      as [row|] eqn:E; cbn [fst snd chapters].
    + by rewrite E.
    + erewrite fetchone_app_new; [reflexivity | exact E |].
      unfold chapter_matches. cbn [chapter_title_id chapter_number].
      by rewrite !bool_decide_eq_true_2.
  - intros chapter letter name name'. unfold get_or_create_subchapter.
    destruct (fetchone (subchapter_matches chapter letter) (subchapters s))
      as [row|] eqn:E; cbn [fst snd subchapters].
    + by rewrite E.
    + erewrite fetchone_app_new; [reflexivity | exact E |].
      unfold subchapter_matches.
      cbn [subchapter_chapter_id subchapter_letter].
      by rewrite !bool_decide_eq_true_2.
Qed.

Section WithUnicode.
Context {U : Py.UnicodeDB}.

(** [_process_section] is a test on the section number followed by one
    [insert_section]. *)
Lemma process_section_shape section_elem part_id :
  exists number heading,
    _process_section section_elem part_id
    = if negb (Py.nonempty number) then ret false
      else bind (insert_section part_id number heading
                   (_extract_section_content section_elem)
                   (_extract_authority section_elem)
                   (_extract_source section_elem)
                   (ET.get section_elem (Py.lit "NODE")))
             (fun _ => ret true).
Proof. eexists _, _. reflexivity. Qed.

(** X20: what [_process_section] answers tells what it did.  When it
    answers false it has not touched the store.  When it answers true the
    store holds a row for the section under the part it was given, with a
    section number that is not empty, and with the body, the authority,
    the source and the node identifier read from the element. *)
Theorem process_section_outcome
    (section_elem : ET.Element) (part_id : rowid) (s : Store) :
  let result := _process_section section_elem part_id s in
  if fst result
  then exists row,
         row ∈ sections (snd result)
         /\ section_part_id row = part_id
         /\ Py.nonempty (section_number row) = true
         /\ section_content row = _extract_section_content section_elem
         /\ section_authority_citation row = _extract_authority section_elem
         /\ section_source_citation row = _extract_source section_elem
         /\ section_xml_node_id row = ET.get section_elem (Py.lit "NODE")
  else snd result = s.
Proof.
  destruct (process_section_shape section_elem part_id)
    as (number & heading & ->).
  destruct (Py.nonempty number) eqn:Hnumber; [| done].
  cbn [negb]. unfold bind.
  match goal with
  | |- context [insert_section ?p ?n ?h ?c ?a ?src ?node s] =>
      destruct (section_after p n h c a src node s) as (row & Hrow & Hid);
      destruct (insert_section_effect p n h c a src node s)
        as (_ & _ & Hfields);
      destruct (insert_section p n h c a src node s) as [i s1]
  end.
  cbn [fst snd] in *. cbn [ret fst snd].
  apply fetchone_Some in Hrow as [Hin Hmatch].
  unfold section_matches in Hmatch. apply andb_true_iff in Hmatch as [H1 H2].
  apply bool_decide_eq_true in H1. apply bool_decide_eq_true in H2.
  apply list_elem_of_lookup_1 in Hin as Hj. destruct Hj as [j Hj].
  specialize (Hfields j row Hj Hid).
  exists row. split; [exact Hin |]. split; [exact H1 |].
  split; [by rewrite H2 |]. rewrite <- Hfields. done.
Qed.

(** X21: every text that goes through [_clean_text] is stored in normal
    form: what [_clean_text] returns, hence the heading of a chapter, a
    subchapter or a part, and the authority and source citations, has no
    whitespace but single spaces and neither starts nor ends with one. *)
Theorem cleaned_texts_normalised (text : option Py.str) (e : ET.Element) :
  normalised (_clean_text text)
  /\ normalised (head_text e)
  /\ from_option normalised True (_extract_authority e)
  /\ from_option normalised True (_extract_source e).
Proof.
  split; [apply clean_text_single_spaced |]. split; [| split].
  - unfold head_text. destruct (Py.truthy (ET.text e)); [| done].
    apply clean_text_single_spaced.
  - unfold _extract_authority.
    destruct (ET.find_descendant (Py.lit "AUTH") e); [| done].
    apply clean_text_single_spaced.
  - unfold _extract_source.
    destruct (ET.find_descendant (Py.lit "SOURCE") e); [| done].
    apply clean_text_single_spaced.
Qed.

End WithUnicode.
End StorageLaws.

(** ** Cleaning a text twice *)

Module TextLaws.
Import Parser Notions Examples Laws TextFacts.

Lemma collapse_single_spaced s :
  single_spaced s = true ->
  Py.collapse_from false s = s
  /\ (starts_solid s = true -> Py.collapse_from true s = s).
Proof.
  induction s as [|c s IH]; [done |].
  intros H. cbn [single_spaced] in H. apply andb_true_iff in H as [Hc Hs].
  destruct (IH Hs) as [IHf IHt]. cbn [Py.collapse_from starts_solid].
  destruct (Py.isspace c).
  - cbn [negb orb] in Hc. apply andb_true_iff in Hc as [H32 Hsolid].
    apply N.eqb_eq in H32 as ->. split; [| done]. by rewrite IHt.
  - by rewrite IHf.
Qed.

Lemma replace_absent (c : N) (old new s : Py.str) :
  c ∉ s -> Py.replace (c :: old) new s = s.
Proof.
  unfold Py.replace. induction s as [|d s IH]; [done |].
  intros Hnin. apply not_elem_of_cons in Hnin as [Hne Hnin].
  cbn [Py.replace_from Py.startswith].
  assert ((c =? d)%N = false) as -> by (apply N.eqb_neq; congruence).
  cbn [andb]. by rewrite IH.
Qed.

Section WithUnicode.
Context {U : Py.UnicodeDB}.

(** X22: [_clean_text] changes nothing in a text it has cleaned, unless
    an ampersand is left in it: the five entities are decoded one after
    the other, so a cleaned text with an ampersand may still hold the
    spelling of an entity, which a second pass would decode. *)
Theorem clean_text_twice (text : option Py.str) :
  38%N ∉ _clean_text text ->
  _clean_text (Some (_clean_text text)) = _clean_text text.
Proof.
  intros Hamp. destruct (clean_text_single_spaced text) as [Hss Hstrip].
  remember (_clean_text text) as t eqn:Et. clear Et.
  destruct t as [|c r]; [done |].
  unfold _clean_text, Py.collapse_whitespace.
  rewrite (proj1 (collapse_single_spaced _ Hss)).
  change (Py.lit "&amp;") with (38%N :: Py.lit "amp;").
  change (Py.lit "&lt;") with (38%N :: Py.lit "lt;").
  change (Py.lit "&gt;") with (38%N :: Py.lit "gt;").
  change (Py.lit "&quot;") with (38%N :: Py.lit "quot;").
  change (Py.lit "&apos;") with (38%N :: Py.lit "apos;").
  do 5 (rewrite (replace_absent 38 _ _ (c :: r)) by exact Hamp).
  exact Hstrip.
Qed.

End WithUnicode.

Lemma clean_text_twice_witness :
  _clean_text (Some (_clean_text (Some (Py.lit "  Scope   of part "))))
  = Py.lit "Scope of part".
Proof.
  rewrite clean_text_twice.
  - vm_compute. reflexivity.
  - vm_compute. intros Hin.
    repeat (apply elem_of_cons in Hin as [Heq | Hin]; [discriminate Heq |]).
    by apply elem_of_nil in Hin.
Defined.

End TextLaws.

(** ** What the heading patterns capture *)

Module PatternLaws.
Import Database Parser Notions Examples Laws.



Section WithUnicode.
Context {U : Py.UnicodeDB}.



End WithUnicode.

(** A part whose heading carries a number beyond SQLite's [INTEGER] is
    dropped with its sections: nothing is stored, and its [N] attribute
    does not save it. *)
Lemma process_part_number_too_large :
  @_process_part Py.ascii_db
    (div "DIV5" "PART" (Py.lit "7") (Py.lit "PART 99999999999999999999")
       [div "DIV8" "SECTION" (sec "7.1") (sec "7.1" ++ Py.lit " Scope.") []])
    1 None empty_store
  = (0, empty_store).
Proof. vm_compute. reflexivity. Qed.

End PatternLaws.
